(** * SynchDB: change-event translation and connector supervision

    A shallow embedding of the parts of SynchDB that its specification
    makes testable statements about:

    - [format_converter.c]: the value decoder [processDataByType] with its
      byte helpers, the DDL translator [convert2PGDDL] (CREATE branch) with
      [transformDDLColumns] and the built-in type tables, and the DML
      translator [convert2PGDML];
    - [replication_agent.c]: the tuple-mode appliers
      [synchdb_handle_insert] and [synchdb_handle_update];
    - [synchdb.c]: the request handler [processRequestInterrupt] and the
      admin entry point [synchdb_start_engine_bgw].

    C strings are modelled as [string] (no embedded NUL), machine integers
    as [Z] with their wrap-around written out, byte buffers as [list Z]
    with every element in [0, 256).  Code that raises a PostgreSQL error
    ([elog(ERROR)], [ereport(ERROR)]) or leaves the defined behaviour of C
    is modelled by the [outcome] type below; where the converter writes
    the error message of its connector into shared memory before it
    raises, the outcome carries the text it wrote. *)

From Stdlib Require Import ZArith List String Ascii Bool Lia.
From Stdlib Require Import Numbers.DecimalString Numbers.DecimalPos.
Import ListNotations.

Open Scope string_scope.
Open Scope Z_scope.

(** ** Outcomes of a C function *)

Inductive errcode : Type :=
| ERRCODE_INTERNAL_ERROR            (* what a plain elog(ERROR) carries *)
| ERRCODE_INVALID_PARAMETER_VALUE
| ERRCODE_INSUFFICIENT_RESOURCES.

Inductive outcome (A : Type) : Type :=
| Ret (a : A)                          (* the function returns normally *)
| Raised (code : errcode) (msg : string)   (* ereport(ERROR, ...)       *)
| Saved (errmsg msg : string)          (* set_shm_connector_errmsg(
                                            myConnectorId, errmsg);
                                          elog(ERROR, msg)              *)
| Undefined (why : string).            (* undefined behaviour of C      *)

Arguments Ret {A} a.
Arguments Raised {A} code msg.
Arguments Saved {A} errmsg msg.
Arguments Undefined {A} why.

(** [elog(ERROR, msg)] *)
Definition elog_ERROR {A} (msg : string) : outcome A :=
  Raised ERRCODE_INTERNAL_ERROR msg.

Definition obind {A B} (c : outcome A) (k : A -> outcome B) : outcome B :=
  match c with
  | Ret a => k a
  | Raised code m => Raised code m
  | Saved e m => Saved e m
  | Undefined w => Undefined w
  end.

Notation "x <~ c ;; k" := (obind c (fun x => k))
  (at level 61, c at next level, right associativity).

(** ** The C library, as far as the translated code uses it *)

Module C.

(** 64-bit and 32-bit two's-complement wrap-around. *)
Definition wrap (bits : Z) (z : Z) : Z :=
  let m := 2 ^ bits in
  let r := z mod m in
  if r <? 2 ^ (bits - 1) then r else r - m.

Definition long (z : Z) : Z := wrap 64 z.
Definition int (z : Z) : Z := wrap 32 z.

(** [(size_t) z] *)
Definition size_t (z : Z) : Z := z mod 2 ^ 64.

Definition strlen (s : string) : Z := Z.of_nat (String.length s).

Definition tolower (c : ascii) : ascii :=
  let n := nat_of_ascii c in
  if (andb (Nat.leb 65 n) (Nat.leb n 90)) then ascii_of_nat (n + 32) else c.

Fixpoint lowercase (s : string) : string :=
  match s with
  | EmptyString => EmptyString
  | String c r => String (tolower c) (lowercase r)
  end.

(** [!strcmp(a, b)] and [!strcasecmp(a, b)] *)
Definition streq (a b : string) : bool := String.eqb a b.
Definition strcaseeq (a b : string) : bool :=
  String.eqb (lowercase a) (lowercase b).

(** [strstr(hay, needle)]: offset of the first occurrence, if any. *)
Definition strstr (hay needle : string) : option nat :=
  match needle with
  | EmptyString => Some 0%nat
  | _ => String.index 0 needle hay
  end.

Definition contains (hay needle : string) : bool :=
  match strstr hay needle with Some _ => true | None => false end.

Definition isdigit (c : ascii) : bool :=
  let n := nat_of_ascii c in andb (Nat.leb 48 n) (Nat.leb n 57).

Definition isalnum (c : ascii) : bool :=
  let n := nat_of_ascii c in
  orb (isdigit c)
      (orb (andb (Nat.leb 65 n) (Nat.leb n 90))
           (andb (Nat.leb 97 n) (Nat.leb n 122))).

Definition isspace (c : ascii) : bool :=
  let n := nat_of_ascii c in
  orb (Nat.eqb n 32) (andb (Nat.leb 9 n) (Nat.leb n 13)).

(** Decimal rendering of [printf("%d")] and [printf("%ld")]. *)
Definition fmt_d (z : Z) : string := NilEmpty.string_of_int (Z.to_int z).

Fixpoint repeat_char (c : ascii) (n : nat) : string :=
  match n with
  | O => EmptyString
  | S k => String c (repeat_char c k)
  end.

(** [printf("%0<w>d")]: zero padding to width [w], the sign counted in. *)
Definition fmt_0d (w : nat) (z : Z) : string :=
  if z <? 0 then
    let d := fmt_d (- z) in
    "-" ++ repeat_char "0" (w - 1 - String.length d) ++ d
  else
    let d := fmt_d z in
    repeat_char "0" (w - String.length d) ++ d.

(** [snprintf(buf, size, ...)] keeps at most [size - 1] characters. *)
Definition snprintf (size : nat) (s : string) : string :=
  String.substring 0 (size - 1) s.

(** Leading decimal digits of a string, as the number they spell. *)
Fixpoint digits_value (acc : Z) (s : string) : Z :=
  match s with
  | String c r =>
      if isdigit c
      then digits_value (10 * acc + Z.of_nat (nat_of_ascii c - 48)) r
      else acc
  | EmptyString => acc
  end.

Fixpoint skip_space (s : string) : string :=
  match s with
  | String c r => if isspace c then skip_space r else s
  | EmptyString => s
  end.

Definition signed_value (s : string) : Z :=
  match skip_space s with
  | String "-" r => - digits_value 0 r
  | String "+" r => digits_value 0 r
  | t => digits_value 0 t
  end.

Definition clamp (lo hi z : Z) : Z := Z.max lo (Z.min hi z).

(** [atoll] is [strtoll(s, NULL, 10)]: out-of-range input saturates.
    [atoi] truncates that result to [int]. *)
Definition atoll (s : string) : Z :=
  clamp (- 2 ^ 63) (2 ^ 63 - 1) (signed_value s).
Definition atoi (s : string) : Z := int (atoll s).

(** C division and remainder truncate towards zero. *)
Definition div (a b : Z) : Z := Z.quot a b.
Definition rem (a b : Z) : Z := Z.rem a b.

(** [printf("%02X")] of an [unsigned char]. *)
Definition hex_digit (n : Z) : ascii :=
  if n <? 10 then ascii_of_nat (Z.to_nat (48 + n))
  else ascii_of_nat (Z.to_nat (55 + n)).

Definition fmt_02X (b : Z) : string :=
  String (hex_digit (b / 16)) (String (hex_digit (b mod 16)) EmptyString).

(** A byte buffer read as a C string: it ends at the first NUL. *)
Fixpoint string_of_bytes (bs : list Z) : string :=
  match bs with
  | [] => EmptyString
  | b :: r =>
      if b =? 0 then EmptyString
      else String (ascii_of_nat (Z.to_nat b)) (string_of_bytes r)
  end.

(** [struct tm], the fields the translated code reads. *)
Record tm : Type := mk_tm {
  tm_year : Z;   (* years since 1900 *)
  tm_mon : Z;    (* 0 .. 11 *)
  tm_mday : Z;   (* 1 .. 31 *)
  tm_hour : Z;
  tm_min : Z;
  tm_sec : Z
}.

(** Broken-down UTC time of a [time_t] (seconds since the epoch), proleptic
    Gregorian calendar. *)
Definition civil_time (t : Z) : tm :=
  let days := t / 86400 in
  let secs := t mod 86400 in
  let z := days + 719468 in
  let era := z / 146097 in
  let doe := z - era * 146097 in
  let yoe := (doe - doe / 1460 + doe / 36524 - doe / 146096) / 365 in
  let doy := doe - (365 * yoe + yoe / 4 - yoe / 100) in
  let mp := (5 * doy + 2) / 153 in
  let d := doy - (153 * mp + 2) / 5 + 1 in
  let m := if mp <? 10 then mp + 3 else mp - 9 in
  let y := yoe + era * 400 + (if m <=? 2 then 1 else 0) in
  mk_tm (y - 1900) (m - 1) d (secs / 3600) ((secs / 60) mod 60) (secs mod 60).

(** [gmtime]: NULL when the year does not fit [tm_year]. *)
Definition gmtime (t : Z) : option tm :=
  let r := civil_time t in
  if andb (- 2 ^ 31 <=? tm_year r) (tm_year r <? 2 ^ 31) then Some r else None.

Definition dquote : string := String (ascii_of_nat 34) EmptyString.

(** Removes the last [n] characters: [data[len - n] = 0; len -= n]. *)
Definition chop (n : nat) (s : string) : string :=
  String.substring 0 (String.length s - n) s.

End C.

(** ** PostgreSQL, as far as the translated code uses it *)

Module PG.

(** Type OIDs of [catalog/pg_type_d.h]. *)
Definition Oid := Z.
Definition InvalidOid : Oid := 0.
Definition BOOLOID : Oid := 16.
Definition BYTEAOID : Oid := 17.
Definition INT8OID : Oid := 20.
Definition INT2OID : Oid := 21.
Definition INT4OID : Oid := 23.
Definition TEXTOID : Oid := 25.
Definition FLOAT4OID : Oid := 700.
Definition FLOAT8OID : Oid := 701.
Definition MONEYOID : Oid := 790.
Definition BPCHAROID : Oid := 1042.
Definition VARCHAROID : Oid := 1043.
Definition DATEOID : Oid := 1082.
Definition TIMEOID : Oid := 1083.
Definition TIMESTAMPOID : Oid := 1114.
Definition TIMESTAMPTZOID : Oid := 1184.
Definition TIMETZOID : Oid := 1266.
Definition BITOID : Oid := 1560.
Definition VARBITOID : Oid := 1562.
Definition NUMERICOID : Oid := 1700.
Definition CSTRINGOID : Oid := 2275.
Definition UUIDOID : Oid := 2950.
Definition JSONBOID : Oid := 3802.

(** [MaxAttrSize] of [access/htup_details.h]. *)
Definition MaxAttrSize : Z := 10 * 1024 * 1024.

(** [MaxAllocSize] of [utils/memutils.h], and the check [palloc0] makes of
    its [Size] argument before it allocates. *)
Definition MaxAllocSize : Z := 2 ^ 30 - 1.

Definition palloc0 (size : Z) : outcome unit :=
  let size := C.size_t size in
  if MaxAllocSize <? size
  then elog_ERROR ("invalid memory alloc request size " ++ C.fmt_d size)
  else Ret tt.

(** [case A: case B: ...] labels of a [switch] over an Oid. *)
Definition oid_in (o : Oid) (labels : list Oid) : bool :=
  existsb (Z.eqb o) labels.

(** *** [common/base64.c] *)

Definition pg_b64_dec_len (srclen : Z) : Z := Z.shiftr (srclen * 3) 2.

Definition b64lookup (c : ascii) : Z :=
  let n := Z.of_nat (nat_of_ascii c) in
  if andb (65 <=? n) (n <=? 90) then n - 65
  else if andb (97 <=? n) (n <=? 122) then n - 71
  else if andb (48 <=? n) (n <=? 57) then n + 4
  else if n =? 43 then 62
  else if n =? 47 then 63
  else -1.

Definition b64_is_space (c : ascii) : bool :=
  let n := nat_of_ascii c in
  orb (orb (Nat.eqb n 32) (Nat.eqb n 9)) (orb (Nat.eqb n 10) (Nat.eqb n 13)).

(** One input character: the 6-bit value it contributes and the new value
    of [end], or [None] for [goto error]. *)
Definition b64_symbol (c : ascii) (pos fin : Z) : option (Z * Z) :=
  if b64_is_space c then None
  else if Ascii.eqb c "=" then
    if fin =? 0 then
      if pos =? 2 then Some (0, 1)
      else if pos =? 3 then Some (0, 2)
      else None
    else Some (0, fin)
  else
    let b := b64lookup c in
    if b <? 0 then None else Some (b, fin).

(** The decoding loop of [pg_b64_decode]; [dst] is what has been written so
    far, [dstlen] the size of the destination buffer. *)
Fixpoint b64_loop (src : string) (dstlen : Z) (buf pos fin : Z) (dst : list Z)
  : option (list Z) :=
  match src with
  | EmptyString => if pos =? 0 then Some dst else None
  | String c rest =>
      match b64_symbol c pos fin with
      | None => None
      | Some (b, fin') =>
          let buf' := (Z.shiftl buf 6 + b) mod 2 ^ 32 in
          if pos + 1 =? 4 then
            let take2 := orb (fin' =? 0) (1 <? fin') in
            let take3 := orb (fin' =? 0) (2 <? fin') in
            let out1 := (dst ++ [Z.land (Z.shiftr buf' 16) 255])%list in
            let out2 := if take2
                        then (out1 ++ [Z.land (Z.shiftr buf' 8) 255])%list
                        else out1 in
            let out3 := if take3 then (out2 ++ [Z.land buf' 255])%list
                        else out2 in
            (* each store is preceded by the check (p - dst + 1) > dstlen *)
            if Z.of_nat (List.length out3) <=? dstlen
            then b64_loop rest dstlen 0 0 fin' out3
            else None
          else b64_loop rest dstlen buf' (pos + 1) fin' dst
      end
  end.

(** [pg_b64_decode(src, len, dst, dstlen)]: [Some bytes] when it returns their
    count, [None] when it returns -1 (and has zeroed [dst]). *)
Definition pg_b64_decode (src : string) (dstlen : Z) : option (list Z) :=
  b64_loop src dstlen 0 0 0 [].

(** *** [text] datums ([postgres.h], [varlena.c])

    A [text] argument as [PG_GETARG_TEXT_PP] hands it over: detoasted, but
    still with the 1-byte header when it comes packed out of a tuple.
    [va_after i] is the byte found [i] places behind the datum. *)
Record text : Type := mk_text {
  va_short : bool;
  va_chars : string;
  va_after : nat -> Z
}.

Definition VARHDRSZ : Z := 4.

(** The byte at offset [1 + i] of a datum with a 1-byte header. *)
Definition byte_behind_header (t : text) (i : nat) : Z :=
  match String.get i (va_chars t) with
  | Some c => Z.of_nat (nat_of_ascii c)
  | None => va_after t (i - String.length (va_chars t))%nat mod 256
  end.

(** A [uint32] read from four bytes of memory. *)
Definition uint32_of_bytes (bigendian : bool) (b0 b1 b2 b3 : Z) : Z :=
  if bigendian then ((b0 * 256 + b1) * 256 + b2) * 256 + b3
  else ((b3 * 256 + b2) * 256 + b1) * 256 + b0.

(** [va_4byte.va_header] of the datum read as a [varattrib_4b]: the four
    bytes at its start, as [SET_VARSIZE_4B] or [SET_VARSIZE_1B] and the
    characters left them. *)
Definition va_header (bigendian : bool) (t : text) : Z :=
  let len := Z.of_nat (String.length (va_chars t)) in
  if va_short t then
    let b0 := if bigendian then Z.lor (1 + len) 128
              else Z.lor (Z.shiftl (1 + len) 1) 1 in
    uint32_of_bytes bigendian (b0 mod 256) (byte_behind_header t 0)
      (byte_behind_header t 1) (byte_behind_header t 2)
  else
    if bigendian then Z.land (VARHDRSZ + len) 1073741823
    else Z.shiftl (VARHDRSZ + len) 2 mod 2 ^ 32.

(** [VARSIZE(PTR)], that is [VARSIZE_4B(PTR)]: the header is read as a
    4-byte one, whatever it is. *)
Definition VARSIZE (bigendian : bool) (t : text) : Z :=
  if bigendian then Z.land (va_header bigendian t) 1073741823
  else Z.land (Z.shiftr (va_header bigendian t) 2) 1073741823.

(** [text_to_cstring] goes by [VARSIZE_ANY_EXHDR] and [VARDATA_ANY]. *)
Definition text_to_cstring (t : text) : string := va_chars t.

(** A datum that can exist: a 1-byte header holds a total length of at
    most 127, a 4-byte one of less than 2^30; a text holds no NUL. *)
Definition text_ok (t : text) : bool :=
  andb (if va_short t then Nat.leb (String.length (va_chars t)) 126
        else Z.of_nat (String.length (va_chars t)) + VARHDRSZ <? 2 ^ 30)
       (List.forallb (fun c => negb (Nat.eqb (nat_of_ascii c) 0))
                     (list_ascii_of_string (va_chars t))).

(** *** Tables of the destination database *)

(** One field of a tuple slot: [tts_isnull[i]] set, [tts_values[i]] set to
    the datum an input function returned, or neither touched since the
    slot was allocated zero-filled. *)
Inductive field : Type :=
| Null
| Datum (d : string)
| Unset.

Definition tuple := list field.

Record relation : Type := mk_rel {
  rel_atttypmod : list Z;           (* the tuple descriptor, one per attribute *)
  rel_replident : option Oid;       (* GetRelationIdentityOrPK *)
  rel_rows : list tuple             (* the live rows *)
}.

(** The executor routines the appliers call.  Their results are taken as
    given; a routine that can [ereport] returns an [outcome]. *)
Record executor : Type := mk_executor {
  OidInputFunctionCall : Oid -> string -> Z -> outcome string;
  RelationFindReplTupleByIndex : relation -> Oid -> tuple -> option nat;
  RelationFindReplTupleSeq : relation -> tuple -> option nat;
  ExecSimpleRelationInsert : relation -> tuple -> outcome relation;
  ExecSimpleRelationUpdate : relation -> nat -> tuple -> outcome relation;
  ExecSimpleRelationDelete : relation -> nat -> outcome relation;
  SPI_exec : string -> list (Oid * relation)
             -> outcome (Z * list (Oid * relation))
}.

Definition SPI_OK_UTILITY : Z := 4.
Definition SPI_OK_INSERT : Z := 7.
Definition SPI_OK_DELETE : Z := 8.
Definition SPI_OK_UPDATE : Z := 9.

Definition BGW_MAXLEN : nat := 96.
Definition BGW_EXTRALEN : nat := 128.

Inductive BgwHandleStatus : Type :=
| BGWH_STARTED | BGWH_NOT_YET_STARTED | BGWH_STOPPED | BGWH_POSTMASTER_DIED.

End PG.


(** ** synchdb.h *)

Module Synchdb_h.

Definition SYNCHDB_ERRMSG_SIZE : nat := 256.
Definition SYNCHDB_DATATYPE_NAME_SIZE : nat := 64.
Definition SYNCHDB_OBJ_NAME_SIZE : nat := 128.

Inductive ConnectorType : Type :=
| TYPE_UNDEF | TYPE_MYSQL | TYPE_ORACLE | TYPE_SQLSERVER.

Inductive ConnectorState : Type :=
| STATE_UNDEF
| STATE_STOPPED            (* connector is stopped *)
| STATE_INITIALIZING       (* initializing the java dbz runner engine *)
| STATE_PAUSED             (* paused until commanded to resume *)
| STATE_SYNCING            (* polling changes from the dbz engine *)
| STATE_PARSING            (* got a change event, try to parse it *)
| STATE_CONVERTING         (* parsing done, try to convert it to pg *)
| STATE_EXECUTING          (* conversion done, try to execute it on pg *)
| STATE_OFFSET_UPDATE      (* the user requested an offset update *)
| STATE_RESTARTING
| STATE_MEMDUMP
| STATE_SCHEMA_SYNC_DONE
| STATE_RELOAD_OBJMAP.

Definition ConnectorState_eqb (a b : ConnectorState) : bool :=
  match a, b with
  | STATE_UNDEF, STATE_UNDEF | STATE_STOPPED, STATE_STOPPED
  | STATE_INITIALIZING, STATE_INITIALIZING | STATE_PAUSED, STATE_PAUSED
  | STATE_SYNCING, STATE_SYNCING | STATE_PARSING, STATE_PARSING
  | STATE_CONVERTING, STATE_CONVERTING | STATE_EXECUTING, STATE_EXECUTING
  | STATE_OFFSET_UPDATE, STATE_OFFSET_UPDATE
  | STATE_RESTARTING, STATE_RESTARTING | STATE_MEMDUMP, STATE_MEMDUMP
  | STATE_SCHEMA_SYNC_DONE, STATE_SCHEMA_SYNC_DONE
  | STATE_RELOAD_OBJMAP, STATE_RELOAD_OBJMAP => true
  | _, _ => false
  end.

(** [SynchdbRequest]: the single-slot mailbox of a connector. *)
Record SynchdbRequest : Type := mk_req {
  reqstate : ConnectorState;
  reqdata : string
}.

(** The per-connector block of the shared state ([mysqlinfo],
    [oracleinfo], [sqlserverinfo]). *)
Record ConnectorInfo : Type := mk_info {
  pid : Z;
  state : ConnectorState;
  req : SynchdbRequest;
  errmsg : string;
  srcdb : string;
  dstdb : string
}.

Record SynchdbSharedState : Type := mk_shared {
  mysqlinfo : ConnectorInfo;
  oracleinfo : ConnectorInfo;
  sqlserverinfo : ConnectorInfo
}.

End Synchdb_h.

(** ** format_converter.c *)

Module FormatConverter.

Import PG.
Import Synchdb_h.

Inductive TimeRep : Type :=
| TIME_UNDEF | TIME_DATE | TIME_TIME | TIME_MICROTIME | TIME_NANOTIME
| TIME_TIMESTAMP | TIME_MICROTIMESTAMP | TIME_NANOTIMESTAMP
| TIME_ZONEDTIMESTAMP.

(** [DBZ_DML_COLUMN_VALUE]: one column value of a parsed DML event. *)
Record DBZ_DML_COLUMN_VALUE : Type := mk_colval {
  colval_name : string;
  colval_remoteColumnName : option string;
  colval_value : option string;     (* [char *], may be NULL *)
  colval_datatype : Oid;
  colval_position : Z;
  colval_scale : Z;
  colval_timerep : TimeRep;
  colval_typemod : Z
}.

(** [DatatypeHashKey] and the payload of a [DatatypeHashEntry]. *)
Record DatatypeHashKey : Type := mk_dtkey {
  extTypeName : string;
  autoIncremented : bool
}.

Record DatatypeHashEntry : Type := mk_dtentry {
  key : DatatypeHashKey;
  pgsqlTypeName : string;
  pgsqlTypeLength : Z
}.

Definition dtkey_eqb (a b : DatatypeHashKey) : bool :=
  andb (String.eqb (extTypeName a) (extTypeName b))
       (Bool.eqb (autoIncremented a) (autoIncremented b)).

(** A dynahash table of datatype entries: [hash_search(..., HASH_FIND)]. *)
Definition hash_find_datatype (h : list DatatypeHashEntry) (k : DatatypeHashKey)
  : option DatatypeHashEntry :=
  List.find (fun e => dtkey_eqb (key e) k) h.

(** [hash_search(..., HASH_ENTER)] as [init_mysql] uses it: an entry whose
    key is already present is left as it is. *)
Definition hash_enter_datatype (h : list DatatypeHashEntry) (e : DatatypeHashEntry)
  : list DatatypeHashEntry :=
  match hash_find_datatype h (key e) with
  | Some _ => h
  | None => (h ++ [e])%list
  end.

(** What the translator finds around it: its file-level hash tables, and
    the library routines whose results are not computed here. *)
Record env : Type := mk_env {
  (* [snprintf("%g", (double) value / (double) scale_factor)] *)
  printf_g : Z -> Z -> string;
  (* [mktime] of 1970-01-01 00:00:00 local time *)
  mktime_epoch : Z;
  (* [strftime("%Y")] of a year *)
  strftime_Y : Z -> string;
  (* [jsonb_in] followed by [getPathElementString(jb, path, .., true)] *)
  jsonb_path_text : string -> string -> outcome string;
  (* replication_agent's [ra_transformDataExpression(data, wkb, srid, expr)] *)
  ra_transformDataExpression :
    string -> option string -> option string -> string -> outcome (option string);
  (* NULL until a rule file has been loaded *)
  transformExpressionHash : option (list (string * string));
  objectMappingHash : option (list ((string * string) * string));
  mysqlDatatypeHash : list DatatypeHashEntry;
  sqlserverDatatypeHash : list DatatypeHashEntry;
  (* the GUC synchdb.dml_use_spi *)
  synchdb_dml_use_spi : bool
}.

(** *** Byte helpers *)

Definition bytearray_to_escaped_string (byte_array : list Z) : string :=
  "'\x" ++ String.concat "" (List.map C.fmt_02X byte_array) ++ "'".

(** The loop [value = (value << 8) | bytes[i]] over the first [len] bytes. *)
Fixpoint derive_loop (bytes : list Z) (len : nat) (value : Z) : Z :=
  match len, bytes with
  | S n, b :: rest =>
      derive_loop rest n (C.long (Z.lor (C.long (Z.shiftl value 8)) b))
  | _, _ => value
  end.

(** [derive_value_from_byte(bytes, len)].  [bytes] is the decoded prefix of a
    zero-filled buffer, so [bytes[0]] of an empty decode is 0.  The
    sign-extension mask [-((long) 1 << (len * 8))] is defined only while the
    shift count stays below the width of [long]. *)
Definition derive_value_from_byte (bytes : list Z) (len : Z) : outcome Z :=
  let value := derive_loop bytes (Z.to_nat len) 0 in
  if negb (Z.land (List.nth 0 bytes 0) 128 =? 0) then
    if andb (0 <=? len * 8) (len * 8 <? 64)
    then Ret (Z.lor value (- Z.shiftl 1 (len * 8)))
    else Undefined "shift count exceeds the width of long"
  else Ret value.

Definition swap (a : list Z) (i j : nat) (x y : Z) : list Z :=
  let a1 := (List.firstn i a ++ y :: List.skipn (S i) a)%list in
  (List.firstn j a1 ++ x :: List.skipn (S j) a1)%list.

(** [array[i]], when [i] is inside the array. *)
Definition load (a : list Z) (i : Z) : option Z :=
  if andb (0 <=? i) (i <? Z.of_nat (List.length a))
  then List.nth_error a (Z.to_nat i) else None.

(** The [while (start < end)] loop of [reverse_byte_array]; it needs at most
    one round per element. *)
Fixpoint reverse_loop (rounds : nat) (a : list Z) (first last : Z)
  : outcome (list Z) :=
  if first <? last then
    match rounds with
    | O => Undefined "access outside the array"
    | S r =>
        match load a first, load a last with
        | Some x, Some y =>
            reverse_loop r (swap a (Z.to_nat first) (Z.to_nat last) x y)
                         (first + 1) (last - 1)
        | _, _ => Undefined "access outside the array"
        end
    end
  else Ret a.

(** [reverse_byte_array(array, length)]: [end] is the [size_t] conversion of
    [length - 1]. *)
Definition reverse_byte_array (array : list Z) (length : Z) : outcome (list Z) :=
  reverse_loop (List.length array) array 0 (C.size_t (length - 1)).

Fixpoint skip_zeros (s : string) : string :=
  match s with
  | String "0" r => skip_zeros r
  | _ => s
  end.

Definition trim_leading_zeros (str : string) : string :=
  match skip_zeros str with
  | EmptyString => "0"
  | rest => rest
  end.

(** [prepend_zeros(str, num_zeros)], writing back into a buffer with room
    for [room] bytes at [str]. *)
Definition prepend_zeros (room : Z) (str : string) (num_zeros : Z)
  : outcome string :=
  if num_zeros <? 0 then Undefined "store before the start of temp"
  else if room <? C.strlen str + num_zeros + 1
  then Undefined "strcpy past the end of the buffer"
  else Ret (C.repeat_char "0" (Z.to_nat num_zeros) ++ str).

Definition bit_char (byte : Z) (i : Z) : ascii :=
  if negb (Z.land byte (Z.shiftl 1 i) =? 0) then "1"%char else "0"%char.

Definition byte_to_binary (byte : Z) : string :=
  String.concat ""
    (List.map (fun i => String (bit_char byte i) EmptyString)
              [7; 6; 5; 4; 3; 2; 1; 0]).

Fixpoint bytes_to_binary_string (bytes : list Z) : string :=
  match bytes with
  | [] => EmptyString
  | b :: rest => byte_to_binary b ++ bytes_to_binary_string rest
  end.

Fixpoint escape_quotes (s : string) : string :=
  match s with
  | EmptyString => EmptyString
  | String c r =>
      if Ascii.eqb c "'" then String "'" (String "'" (escape_quotes r))
      else String c (escape_quotes r)
  end.

Definition escapeSingleQuote (s : string) (addquote : bool) : string :=
  if addquote then "'" ++ escape_quotes s ++ "'" else escape_quotes s.

Definition hash_find_string {V} (h : list (string * V)) (k : string) : option V :=
  option_map snd (List.find (fun e => String.eqb (fst e) k) h).

Definition transform_data_expression (E : env)
  (remoteObjid colname : option string) : option string :=
  match transformExpressionHash E with
  | None => None
  | Some h =>
      match remoteObjid, colname with
      | Some objid, Some col =>
          hash_find_string h (C.snprintf SYNCHDB_OBJ_NAME_SIZE (objid ++ "." ++ col))
      | _, _ => None
      end
  end.

(** *** The value decoder *)

(** The block that places the decimal point.  The source has it twice, once
    under [colval->scale > 0] and once for MONEY with the scale set to 4. *)
Definition place_decimal_point (E : env) (buffer : string) (value scale : Z)
  : string :=
  let len := C.strlen buffer in
  if scale <? len then
    (* ex: 123 -> 1.23 *)
    let decimalpos := Z.to_nat (len - scale) in
    String.substring 0 decimalpos buffer ++ "." ++
    String.substring decimalpos (String.length buffer - decimalpos) buffer
  else if len =? scale then
    (* ex: 123 -> 0.123 *)
    "0." ++ buffer
  else
    (* ex: 1 -> 0.001 *)
    let scale_factor := Z.iter scale (fun f => C.int (f * 10)) 1 in
    let newlen := len + (scale - len) + 2 in
    C.snprintf (Z.to_nat (newlen + 1)) (printf_g E value scale_factor).

(** How the [switch] is left: [break] goes on to the transform lookup,
    [return out] skips it. *)
Inductive switch_exit : Type :=
| Break (out : option string)
| Return (out : option string).

Definition no_timerep (what : string) : string :=
  "no time representation available to process " ++ what ++ " value".

(** The text handed to [set_shm_connector_errmsg] just before: two
    adjacent literals, with no blank between them. *)
Definition no_timerep_saved (what : string) : string :=
  "no time representation available to" ++ "process " ++ what ++ " value".

(** [pg_b64_decode] into a zero-filled buffer of [pg_b64_dec_len] bytes: the
    bytes written and the returned count. *)
Definition decode_b64 (in_ : string) : list Z * Z :=
  match pg_b64_decode in_ (pg_b64_dec_len (C.strlen in_)) with
  | Some bytes => (bytes, Z.of_nat (List.length bytes))
  | None => ([], -1)
  end.

Definition quote_if (addquote : bool) (s : string) : string :=
  if addquote then "'" ++ s ++ "'" else s.

Definition processDataByType_switch (E : env) (colval : DBZ_DML_COLUMN_VALUE)
  (addquote : bool) (in_ : string) : outcome switch_exit :=
  let dt := colval_datatype colval in
  if oid_in dt [BOOLOID; INT8OID; INT2OID; INT4OID; FLOAT8OID; FLOAT4OID] then
    (* no extra processing for numeric types *)
    Ret (Break (Some in_))
  else if oid_in dt [MONEYOID; NUMERICOID] then
    let '(tmpout, tmpoutlen) := decode_b64 in_ in
    value <~ derive_value_from_byte tmpout tmpoutlen ;;
    let buffer := C.fmt_d value in
    if 0 <? colval_scale colval then
      Ret (Break (Some (place_decimal_point E buffer value (colval_scale colval))))
    else if dt =? MONEYOID then
      (* make scale = 4 to account for cents *)
      Ret (Break (Some (place_decimal_point E buffer value 4)))
    else Ret (Break (Some buffer))
  else if oid_in dt [BPCHAROID; TEXTOID; VARCHAROID; CSTRINGOID;
                     TIMESTAMPTZOID; JSONBOID; UUIDOID] then
    if addquote then
      (* escapeSingleQuote(in, addquote); -- the result is not assigned *)
      let _ := escapeSingleQuote in_ addquote in
      Ret (Break None)
    else Ret (Break (Some in_))
  else if oid_in dt [VARBITOID; BITOID] then
    let '(tmpout, tmpoutlen) := decode_b64 in_ in
    (* 8 bits per byte + 2 single quotes + b + terminating null, or
       8 bits per byte + terminating null: an [int] *)
    let size := tmpoutlen * 8 + (if addquote then 2 + 1 + 1 else 1) in
    if 2 ^ 31 <=? size
    then Undefined "the size of out does not fit int" else
    _ <~ palloc0 size ;;
    (* room at [tmp] (after the two bytes of 'b) or at [out] *)
    let room := tmpoutlen * 8 + (if addquote then 2 else 1) in
    reversed <~ reverse_byte_array tmpout tmpoutlen ;;
    let bits := trim_leading_zeros (bytes_to_binary_string reversed) in
    let typemod := C.size_t (colval_typemod colval) in
    padded <~ (if C.strlen bits <? typemod
               then prepend_zeros room bits (C.int (typemod - C.strlen bits))
               else Ret bits) ;;
    if addquote then
      if room <? C.strlen padded + 2
      then Undefined "strcat past the end of the buffer"
      else Ret (Break (Some ("'b" ++ padded ++ "'")))
    else Ret (Break (Some padded))
  else if dt =? DATEOID then
    let input := C.atoll in_ in
    dayssinceepoch <~
      match colval_timerep colval with
      | TIME_DATE => Ret input
      | TIME_TIMESTAMP => Ret (C.div input 86400000)
      | TIME_MICROTIMESTAMP => Ret (C.div input 86400000000)
      | TIME_NANOTIMESTAMP => Ret (C.div input 86400000000000)
      | _ => Saved (no_timerep_saved "DATEOID") (no_timerep "DATEOID")
      end ;;
    let target_time :=
      C.long (mktime_epoch E + C.long (dayssinceepoch * 24 * 60 * 60)) in
    match C.gmtime target_time with
    | None => Undefined "gmtime returned NULL"
    | Some target_date =>
        let datestr :=
          strftime_Y E (C.tm_year target_date + 1900) ++ "-" ++
          C.fmt_0d 2 (C.tm_mon target_date + 1) ++ "-" ++
          C.fmt_0d 2 (C.tm_mday target_date) in
        if 10 <? C.strlen datestr
        then Undefined "strftime left datestr indeterminate"
        else Ret (Break (Some (quote_if addquote datestr)))
    end
  else if dt =? TIMESTAMPOID then
    let input := C.atoll in_ in
    match colval_timerep colval with
    | TIME_ZONEDTIMESTAMP =>
        (* sent as string: treated like a string, the rest is skipped *)
        if addquote then
          let _ := escapeSingleQuote in_ addquote in
          Ret (Return None)
        else Ret (Return (Some in_))
    | rep =>
        parts <~
          match rep with
          | TIME_TIMESTAMP =>
              Ret (C.div input 1000, C.rem input 1000)
          | TIME_MICROTIMESTAMP =>
              Ret (C.div (C.div input 1000) 1000, C.rem input 1000000)
          | TIME_NANOTIMESTAMP =>
              Ret (C.div (C.div (C.div input 1000) 1000) 1000,
                   C.rem input 1000000000)
          | _ => Saved (no_timerep_saved "TIMESTAMPOID") (no_timerep "TIMESTAMPOID")
          end ;;
        let '(seconds, remains) := parts in
        match C.gmtime seconds with
        | None => Undefined "gmtime returned NULL"
        | Some tm_info =>
            let base :=
              C.fmt_0d 4 (C.int (C.tm_year tm_info + 1900)) ++ "-" ++
              C.fmt_0d 2 (C.int (C.tm_mon tm_info + 1)) ++ "-" ++
              C.fmt_0d 2 (C.tm_mday tm_info) ++ "T" ++
              C.fmt_0d 2 (C.tm_hour tm_info) ++ ":" ++
              C.fmt_0d 2 (C.tm_min tm_info) ++ ":" ++
              C.fmt_0d 2 (C.tm_sec tm_info) in
            let timestamp :=
              if 0 <? colval_typemod colval
              then C.snprintf 27 (base ++ "." ++ C.fmt_0d 6 remains)
              else C.snprintf 27 base in
            Ret (Break (Some (quote_if addquote timestamp)))
        end
    end
  else if dt =? TIMEOID then
    let input := C.size_t (C.atoll in_) in
    parts <~
      match colval_timerep colval with
      | TIME_TIME => Ret (input / 1000, input mod 1000)
      | TIME_MICROTIME => Ret (input / 1000 / 1000, input mod 1000000)
      | TIME_NANOTIME =>
          Ret (input / 1000 / 1000 / 1000, input mod 1000000000)
      | _ => Saved (no_timerep_saved "TIMEOID") (no_timerep "TIMEOID")
      end ;;
    let '(seconds, remains) := parts in
    let base :=
      C.fmt_0d 2 (C.int ((seconds / (60 * 60)) mod 24)) ++ ":" ++
      C.fmt_0d 2 (C.int ((seconds / 60) mod 60)) ++ ":" ++
      C.fmt_0d 2 (C.int (seconds mod 60)) in
    let time :=
      if 0 <? colval_typemod colval
      then C.snprintf 16 (base ++ "." ++ C.fmt_0d 6 remains)
      else C.snprintf 16 base in
    Ret (Break (Some (quote_if addquote time)))
  else if dt =? BYTEAOID then
    let '(tmpout, tmpoutlen) := decode_b64 in_ in
    if tmpoutlen <? 0 then Undefined "length -1 used as size_t"
    else if addquote then Ret (Break (Some (bytearray_to_escaped_string tmpout)))
    else Ret (Break (Some (C.string_of_bytes tmpout)))
  else
    (* TIMETZOID and every other type: treated as text *)
    if addquote then
      let _ := escapeSingleQuote in_ addquote in
      Ret (Break None)
    else Ret (Break (Some in_)).

(** The lookup in [transformExpressionHash] that follows the switch. *)
Definition transform_out (E : env) (colval : DBZ_DML_COLUMN_VALUE)
  (remoteObjectId : option string) (out : option string)
  : outcome (option string) :=
  match transform_data_expression E remoteObjectId
          (colval_remoteColumnName colval) with
  | None => Ret out
  | Some transformExpression =>
      match out with
      | None => Undefined "strstr on a NULL string"
      | Some o =>
          if C.contains o (C.dquote ++ "wkb" ++ C.dquote) then
            w <~ jsonb_path_text E o "wkb" ;;
            let wkb := if C.strcaseeq w "null" then "0" else w in
            s <~ jsonb_path_text E o "srid" ;;
            let srid := if C.strcaseeq s "null" then "0" else s in
            let escapedData := escapeSingleQuote o false in
            transData <~ ra_transformDataExpression E escapedData
                           (Some wkb) (Some srid) transformExpression ;;
            match transData with
            | Some t => Ret (Some t)
            | None => Ret (Some o)
            end
          else
            let escapedData := escapeSingleQuote o false in
            transData <~ ra_transformDataExpression E escapedData
                           None None transformExpression ;;
            match transData with
            | Some t => Ret (Some t)
            | None => Ret (Some o)
            end
      end
  end.

(** [processDataByType(colval, addquote, remoteObjectId)]; [None] is the
    NULL return.  (The store [colval->scale = 4] of the MONEY branch is not
    read again and is left out.) *)
Definition processDataByType (E : env) (colval : DBZ_DML_COLUMN_VALUE)
  (addquote : bool) (remoteObjectId : option string) : outcome (option string) :=
  match colval_value colval with
  | None => Ret None
  | Some in_ =>
      if C.strlen in_ =? 0 then Ret None
      else if C.strcaseeq in_ "NULL" then Ret None
      else
        r <~ processDataByType_switch E colval addquote in_ ;;
        match r with
        | Return out => Ret out
        | Break out => transform_out E colval remoteObjectId out
        end
  end.

(** *** The DML translator *)

Record DBZ_DML : Type := mk_dbzdml {
  dbz_op : ascii;
  dbz_tableoid : Oid;
  dbz_remoteObjectId : option string;
  dbz_mappedObjectId : string;
  dbz_columnValuesBefore : list DBZ_DML_COLUMN_VALUE;
  dbz_columnValuesAfter : list DBZ_DML_COLUMN_VALUE
}.

Record PG_DML_COLUMN_VALUE : Type := mk_pgcolval {
  pg_value : string;
  pg_datatype : Oid;
  pg_position : Z
}.

Record PG_DML : Type := mk_pgdml {
  pg_op : ascii;
  pg_tableoid : Oid;
  pg_dmlquery : string;
  pg_columnValuesBefore : list PG_DML_COLUMN_VALUE;
  pg_columnValuesAfter : list PG_DML_COLUMN_VALUE
}.

(** [foreach(cell, l) { ... appendStringInfo(&strinfo, ...) ... }] *)
Fixpoint foreach_append {A} (l : list A) (body : A -> outcome string)
  (strinfo : string) : outcome string :=
  match l with
  | [] => Ret strinfo
  | x :: rest =>
      piece <~ body x ;;
      foreach_append rest body (strinfo ++ piece)
  end.

(** [foreach(cell, l) { ... lappend(list, pgcolval) ... }] *)
Fixpoint foreach_collect {A B} (l : list A) (body : A -> outcome B)
  : outcome (list B) :=
  match l with
  | [] => Ret []
  | x :: rest =>
      y <~ body x ;;
      ys <~ foreach_collect rest body ;;
      Ret (y :: ys)
  end.

Definition null_or (data : option string) (null : string) : string :=
  match data with Some d => d | None => null end.

(** One column on the heap path: its decoded text, or the string NULL. *)
Definition heap_column (E : env) (objid : option string)
  (colval : DBZ_DML_COLUMN_VALUE) : outcome PG_DML_COLUMN_VALUE :=
  data <~ processDataByType E colval false objid ;;
  Ret (mk_pgcolval (null_or data "NULL") (colval_datatype colval)
                   (colval_position colval)).

(** [colname = literal AND ] for every column of a WHERE clause. *)
Definition where_clause (E : env) (objid : option string)
  (cols : list DBZ_DML_COLUMN_VALUE) (strinfo : string) : outcome string :=
  foreach_append cols
    (fun colval =>
       data <~ processDataByType E colval true objid ;;
       Ret (colval_name colval ++ " = " ++ null_or data "null" ++ " AND "))
    strinfo.

(** The heap path of an update walks both lists together.  [data] is the
    decoded after-value; once it has been copied and freed, the source
    tests and copies the same pointer again for the before-value. *)
Fixpoint update_pairs (E : env) (objid : option string)
  (after before : list DBZ_DML_COLUMN_VALUE)
  : outcome (list PG_DML_COLUMN_VALUE * list PG_DML_COLUMN_VALUE) :=
  match after, before with
  | colval_after :: after', colval_before :: before' =>
      data <~ processDataByType E colval_after false objid ;;
      match data with
      | Some _ => Undefined "data read after pfree"
      | None =>
          let pgcolval_after :=
            mk_pgcolval "NULL" (colval_datatype colval_after)
                        (colval_position colval_after) in
          let pgcolval_before :=
            mk_pgcolval "NULL" (colval_datatype colval_before)
                        (colval_position colval_before) in
          r <~ update_pairs E objid after' before' ;;
          Ret (pgcolval_after :: fst r, pgcolval_before :: snd r)
      end
  | _, _ => Ret ([], [])
  end.

Definition convert2PGDML (E : env) (dbzdml : DBZ_DML) : outcome PG_DML :=
  let objid := dbz_remoteObjectId dbzdml in
  let op := dbz_op dbzdml in
  let done query before after :=
    Ret (mk_pgdml op (dbz_tableoid dbzdml) query before after) in
  if orb (Ascii.eqb op "r") (Ascii.eqb op "c") then
    if synchdb_dml_use_spi E then
      names <~ foreach_append (dbz_columnValuesAfter dbzdml)
                 (fun colval => Ret (colval_name colval ++ ","))
                 ("INSERT INTO " ++ dbz_mappedObjectId dbzdml ++ "(") ;;
      values <~ foreach_append (dbz_columnValuesAfter dbzdml)
                  (fun colval =>
                     data <~ processDataByType E colval true objid ;;
                     Ret (null_or data "null" ++ ","))
                  (C.chop 1 names ++ ") VALUES (") ;;
      done (C.chop 1 values ++ ");") [] []
    else
      after <~ foreach_collect (dbz_columnValuesAfter dbzdml)
                 (heap_column E objid) ;;
      done "" [] after
  else if Ascii.eqb op "d" then
    if synchdb_dml_use_spi E then
      conds <~ where_clause E objid (dbz_columnValuesBefore dbzdml)
                 ("DELETE FROM " ++ dbz_mappedObjectId dbzdml ++ " WHERE ") ;;
      done (C.chop 5 conds ++ ";") [] []
    else
      before <~ foreach_collect (dbz_columnValuesBefore dbzdml)
                  (heap_column E objid) ;;
      done "" before []
  else if Ascii.eqb op "u" then
    if synchdb_dml_use_spi E then
      sets <~ foreach_append (dbz_columnValuesAfter dbzdml)
                (fun colval =>
                   data <~ processDataByType E colval true objid ;;
                   Ret (colval_name colval ++ " = " ++
                        match data with
                        | Some d => d ++ ","
                        | None => "null"
                        end))
                ("UPDATE " ++ dbz_mappedObjectId dbzdml ++ " SET ") ;;
      conds <~ where_clause E objid (dbz_columnValuesBefore dbzdml)
                 (C.chop 1 sets ++ " WHERE ") ;;
      done (C.chop 5 conds ++ ";") [] []
    else
      r <~ update_pairs E objid (dbz_columnValuesAfter dbzdml)
             (dbz_columnValuesBefore dbzdml) ;;
      done "" (snd r) (fst r)
  else
    elog_ERROR ("op " ++ String op EmptyString ++ " not supported").

(** *** Jsonb values, as the parser walks them *)

#[warnings="-register-all"]
Inductive json : Type :=
| JNull
| JBool (b : bool)
| JNumeric (text : string)          (* as [numeric_out] prints it *)
| JString (s : string)
| JArray (elems : list json)
| JObject (pairs : list (string * json)).

(** Tokens of [JsonbIteratorNext(&it, &v, false)]. *)
Inductive JsonbToken : Type :=
| WJB_KEY (k : string)
| WJB_VALUE (v : json)
| WJB_ELEM (v : json)
| WJB_BEGIN_ARRAY
| WJB_END_ARRAY
| WJB_BEGIN_OBJECT
| WJB_END_OBJECT.

Definition is_scalar (j : json) : bool :=
  match j with
  | JArray _ | JObject _ => false
  | _ => true
  end.

Fixpoint container_tokens (j : json) : list JsonbToken :=
  match j with
  | JArray elems =>
      (WJB_BEGIN_ARRAY ::
       List.flat_map (fun e => if is_scalar e then [WJB_ELEM e]
                               else container_tokens e) elems
       ++ [WJB_END_ARRAY])%list
  | JObject pairs =>
      (WJB_BEGIN_OBJECT ::
       List.flat_map (fun kv => WJB_KEY (fst kv) ::
                                (if is_scalar (snd kv) then [WJB_VALUE (snd kv)]
                                 else container_tokens (snd kv))) pairs
       ++ [WJB_END_OBJECT])%list
  | _ => []
  end.

(** A scalar at the root is stored as a one-element array. *)
Definition jsonb_tokens (j : json) : list JsonbToken :=
  if is_scalar j then [WJB_BEGIN_ARRAY; WJB_ELEM j; WJB_END_ARRAY]
  else container_tokens j.

(** *** The DDL translator *)

Record DBZ_DDL_COLUMN : Type := mk_ddlcol {
  col_name : option string;
  col_length : Z;
  col_optional : bool;
  col_position : Z;
  col_typeName : option string;
  col_enumValues : option string;
  col_charsetName : option string;
  col_autoIncremented : bool;
  col_defaultValueExpression : option string;
  col_scale : Z
}.

Record DBZ_DDL : Type := mk_dbzddl {
  ddl_id : string;
  ddl_type : string;
  (* the JSON text of the key list, as [jsonb_in] reads it back;
     [None] when [jsonb_in] rejects the text *)
  ddl_primaryKeyColumnNames : option json;
  ddl_columns : list DBZ_DDL_COLUMN
}.

Definition mysql_defaultTypeMappings : list DatatypeHashEntry := [
  mk_dtentry (mk_dtkey "INT" true) "SERIAL" 0;
  mk_dtentry (mk_dtkey "BIGINT" true) "BIGSERIAL" 0;
  mk_dtentry (mk_dtkey "SMALLINT" true) "SMALLSERIAL" 0;
  mk_dtentry (mk_dtkey "MEDIUMINT" true) "SERIAL" 0;
  mk_dtentry (mk_dtkey "ENUM" false) "TEXT" 0;
  mk_dtentry (mk_dtkey "SET" false) "TEXT" 0;
  mk_dtentry (mk_dtkey "BIGINT" false) "BIGINT" 0;
  mk_dtentry (mk_dtkey "BIGINT UNSIGNED" false) "NUMERIC" (-1);
  mk_dtentry (mk_dtkey "NUMERIC UNSIGNED" false) "NUMERIC" (-1);
  mk_dtentry (mk_dtkey "DEC" false) "DECIMAL" (-1);
  mk_dtentry (mk_dtkey "DEC UNSIGNED" false) "DECIMAL" (-1);
  mk_dtentry (mk_dtkey "DECIMAL UNSIGNED" false) "DECIMAL" (-1);
  mk_dtentry (mk_dtkey "FIXED" false) "DECIMAL" (-1);
  mk_dtentry (mk_dtkey "FIXED UNSIGNED" false) "DECIMAL" (-1);
  mk_dtentry (mk_dtkey "BIT(1)" false) "BOOLEAN" 0;
  mk_dtentry (mk_dtkey "BIT" false) "BIT" (-1);
  mk_dtentry (mk_dtkey "BOOL" false) "BOOLEAN" (-1);
  mk_dtentry (mk_dtkey "DOUBLE" false) "DOUBLE PRECISION" 0;
  mk_dtentry (mk_dtkey "DOUBLE PRECISION" false) "DOUBLE PRECISION" 0;
  mk_dtentry (mk_dtkey "DOUBLE PRECISION UNSIGNED" false) "DOUBLE PRECISION" 0;
  mk_dtentry (mk_dtkey "DOUBLE UNSIGNED" false) "DOUBLE PRECISION" 0;
  mk_dtentry (mk_dtkey "REAL" false) "REAL" 0;
  mk_dtentry (mk_dtkey "REAL UNSIGNED" false) "REAL" 0;
  mk_dtentry (mk_dtkey "FLOAT" false) "REAL" 0;
  mk_dtentry (mk_dtkey "FLOAT UNSIGNED" false) "REAL" 0;
  mk_dtentry (mk_dtkey "INT" false) "INT" 0;
  mk_dtentry (mk_dtkey "INT UNSIGNED" false) "BIGINT" 0;
  mk_dtentry (mk_dtkey "INTEGER" false) "INT" 0;
  mk_dtentry (mk_dtkey "INTEGER UNSIGNED" false) "BIGINT" 0;
  mk_dtentry (mk_dtkey "MEDIUMINT" false) "INT" 0;
  mk_dtentry (mk_dtkey "MEDIUMINT UNSIGNED" false) "INT" 0;
  mk_dtentry (mk_dtkey "YEAR" false) "INT" 0;
  mk_dtentry (mk_dtkey "SMALLINT" false) "SMALLINT" 0;
  mk_dtentry (mk_dtkey "SMALLINT UNSIGNED" false) "INT" 0;
  mk_dtentry (mk_dtkey "TINYINT" false) "SMALLINT" 0;
  mk_dtentry (mk_dtkey "TINYINT UNSIGNED" false) "SMALLINT" 0;
  mk_dtentry (mk_dtkey "DATETIME" false) "TIMESTAMP" (-1);
  mk_dtentry (mk_dtkey "TIMESTAMP" false) "TIMESTAMPTZ" (-1);
  mk_dtentry (mk_dtkey "BINARY" false) "BYTEA" 0;
  mk_dtentry (mk_dtkey "VARBINARY" false) "BYTEA" 0;
  mk_dtentry (mk_dtkey "BLOB" false) "BYTEA" 0;
  mk_dtentry (mk_dtkey "MEDIUMBLOB" false) "BYTEA" 0;
  mk_dtentry (mk_dtkey "LONGBLOB" false) "BYTEA" 0;
  mk_dtentry (mk_dtkey "TINYBLOB" false) "BYTEA" 0;
  mk_dtentry (mk_dtkey "LONG VARCHAR" false) "TEXT" (-1);
  mk_dtentry (mk_dtkey "LONGTEXT" false) "TEXT" (-1);
  mk_dtentry (mk_dtkey "MEDIUMTEXT" false) "TEXT" (-1);
  mk_dtentry (mk_dtkey "TINYTEXT" false) "TEXT" (-1);
  mk_dtentry (mk_dtkey "JSON" false) "JSONB" (-1);
  (* spatial types - map to TEXT by default *)
  mk_dtentry (mk_dtkey "GEOMETRY" false) "TEXT" (-1);
  mk_dtentry (mk_dtkey "GEOMETRYCOLLECTION" false) "TEXT" (-1);
  mk_dtentry (mk_dtkey "GEOMCOLLECTION" false) "TEXT" (-1);
  mk_dtentry (mk_dtkey "LINESTRING" false) "TEXT" (-1);
  mk_dtentry (mk_dtkey "MULTILINESTRING" false) "TEXT" (-1);
  mk_dtentry (mk_dtkey "MULTIPOINT" false) "TEXT" (-1);
  mk_dtentry (mk_dtkey "MULTIPOLYGON" false) "TEXT" (-1);
  mk_dtentry (mk_dtkey "POINT" false) "TEXT" (-1);
  mk_dtentry (mk_dtkey "POLYGON" false) "TEXT" (-1)
].

Definition sqlserver_defaultTypeMappings : list DatatypeHashEntry := [
  mk_dtentry (mk_dtkey "int identity" true) "SERIAL" 0;
  mk_dtentry (mk_dtkey "bigint identity" true) "BIGSERIAL" 0;
  mk_dtentry (mk_dtkey "smallint identity" true) "SMALLSERIAL" 0;
  mk_dtentry (mk_dtkey "enum" false) "TEXT" 0;
  mk_dtentry (mk_dtkey "int" false) "INT" 0;
  mk_dtentry (mk_dtkey "bigint" false) "BIGINT" 0;
  mk_dtentry (mk_dtkey "smallint" false) "SMALLINT" 0;
  mk_dtentry (mk_dtkey "tinyint" false) "SMALLINT" 0;
  mk_dtentry (mk_dtkey "numeric" false) "NUMERIC" 0;
  mk_dtentry (mk_dtkey "decimal" false) "NUMERIC" 0;
  mk_dtentry (mk_dtkey "bit(1)" false) "BOOL" 0;
  mk_dtentry (mk_dtkey "bit" false) "BIT" 0;
  mk_dtentry (mk_dtkey "money" false) "MONEY" 0;
  mk_dtentry (mk_dtkey "smallmoney" false) "MONEY" 0;
  mk_dtentry (mk_dtkey "real" false) "REAL" 0;
  mk_dtentry (mk_dtkey "float" false) "REAL" 0;
  mk_dtentry (mk_dtkey "date" false) "DATE" 0;
  mk_dtentry (mk_dtkey "time" false) "TIME" 0;
  mk_dtentry (mk_dtkey "datetime" false) "TIMESTAMP" 0;
  mk_dtentry (mk_dtkey "datetime2" false) "TIMESTAMP" 0;
  mk_dtentry (mk_dtkey "datetimeoffset" false) "TIMESTAMPTZ" 0;
  mk_dtentry (mk_dtkey "smalldatetime" false) "TIMESTAMP" 0;
  mk_dtentry (mk_dtkey "char" false) "CHAR" 0;
  mk_dtentry (mk_dtkey "varchar" false) "VARCHAR" (-1);
  mk_dtentry (mk_dtkey "text" false) "TEXT" 0;
  mk_dtentry (mk_dtkey "nchar" false) "CHAR" 0;
  mk_dtentry (mk_dtkey "nvarchar" false) "VARCHAR" (-1);
  mk_dtentry (mk_dtkey "ntext" false) "TEXT" 0;
  mk_dtentry (mk_dtkey "binary" false) "BYTEA" 0;
  mk_dtentry (mk_dtkey "varbinary" false) "BYTEA" 0;
  mk_dtentry (mk_dtkey "image" false) "BYTEA" 0;
  mk_dtentry (mk_dtkey "uniqueidentifier" false) "UUID" 0;
  mk_dtentry (mk_dtkey "xml" false) "TEXT" 0;
  (* spatial types - map to TEXT by default *)
  mk_dtentry (mk_dtkey "geometry" false) "TEXT" 0;
  mk_dtentry (mk_dtkey "geography" false) "TEXT" 0
].

(** [init_mysql] and [init_sqlserver]: the tables entered one by one. *)
Definition init_mysql : list DatatypeHashEntry :=
  List.fold_left hash_enter_datatype mysql_defaultTypeMappings [].

Definition init_sqlserver : list DatatypeHashEntry :=
  List.fold_left hash_enter_datatype sqlserver_defaultTypeMappings [].

(** [%s] of PostgreSQL's [snprintf] prints a NULL pointer as (null). *)
Definition pct_s (s : option string) : string :=
  match s with Some x => x | None => "(null)" end.

Definition find_exact_string_match (line wordtofind : string) : bool :=
  match C.strstr line wordtofind with
  | None => false
  | Some off =>
      let before_ok :=
        match off with
        | O => true
        | S k => match String.get k line with
                 | Some c => negb (C.isalnum c)
                 | None => true
                 end
        end in
      if before_ok then
        match String.get (off + String.length wordtofind) line with
        | Some c => negb (C.isalnum c)
        | None => true        (* the terminating NUL *)
        end
      else false
  end.

Definition transform_object_name (E : env) (objid objtype : string)
  : outcome (option string) :=
  match objectMappingHash E with
  | None => Ret None
  | Some h =>
      if Nat.ltb SYNCHDB_OBJ_NAME_SIZE (String.length objid)
      then Undefined "strncpy past the end of key.extObjName"
      else Ret (option_map snd
                  (List.find (fun e => andb (String.eqb (fst (fst e)) objid)
                                            (String.eqb (snd (fst e)) objtype)) h))
  end.

(** [enum jbvType] and [JsonbIteratorToken] of [utils/jsonb.h], as [%d]
    prints them. *)
Definition jbvType (v : json) : Z :=
  match v with
  | JNull => 0
  | JString _ => 1
  | JNumeric _ => 2
  | JBool _ => 3
  | JArray _ => 16
  | JObject _ => 17
  end.

Definition token_number (r : JsonbToken) : Z :=
  match r with
  | WJB_KEY _ => 1
  | WJB_VALUE _ => 2
  | WJB_ELEM _ => 3
  | WJB_BEGIN_ARRAY => 4
  | WJB_END_ARRAY => 5
  | WJB_BEGIN_OBJECT => 6
  | WJB_END_OBJECT => 7
  end.

(** State of the key list loop: the text so far and [isfirst]. *)
Definition pk_step (E : env) (id : string) (alter : bool)
  (st : string * bool) (r : JsonbToken) : outcome (string * bool) :=
  let '(strinfo, isfirst) := st in
  match r with
  | WJB_BEGIN_ARRAY => Ret st
  | WJB_END_ARRAY =>
      if negb isfirst then Ret (C.chop 1 strinfo ++ ")", isfirst) else Ret st
  | WJB_VALUE v | WJB_ELEM v =>
      match v with
      | JString value =>
          mapped <~ transform_object_name E (id ++ "." ++ value) "column" ;;
          let value := match mapped with Some m => m | None => value end in
          if isfirst then
            Ret (strinfo ++
                 (if alter then ", ADD PRIMARY KEY(" else ", PRIMARY KEY(") ++
                 value ++ ",", false)
          else Ret (strinfo ++ value ++ ",", isfirst)
      | _ => elog_ERROR ("Unknown or unexpected value type: " ++
                         C.fmt_d (jbvType v) ++ " while " ++
                         "parsing primaryKeyColumnNames")
      end
  | _ => elog_ERROR ("Unknown or unexpected token: " ++
                     C.fmt_d (token_number r) ++ " while " ++
                     "parsing primaryKeyColumnNames")
  end.

Fixpoint pk_loop (E : env) (id : string) (alter : bool)
  (toks : list JsonbToken) (st : string * bool) : outcome (string * bool) :=
  match toks with
  | [] => Ret st
  | r :: rest =>
      st' <~ pk_step E id alter st r ;;
      pk_loop E id alter rest st'
  end.

Definition populate_primary_keys (E : env) (strinfo id : string)
  (jsonin : option json) (alter : bool) : outcome string :=
  match jsonin with
  | None => elog_ERROR "invalid input syntax for type json"
  | Some jb =>
      st <~ pk_loop E id alter (jsonb_tokens jb) (strinfo, true) ;;
      Ret (fst st)
  end.

(** [strtok(s, ".")] repeated until it returns NULL. *)
Fixpoint strtok_dots (s : string) (cur : string) : list string :=
  let flush := match cur with EmptyString => [] | _ => [cur] end in
  match s with
  | EmptyString => flush
  | String c r =>
      if Ascii.eqb c "." then (flush ++ strtok_dots r EmptyString)%list
      else strtok_dots r (cur ++ String c EmptyString)
  end.

Fixpoint count_dots (s : string) : nat :=
  match s with
  | EmptyString => O
  | String c r => if Ascii.eqb c "." then S (count_dots r) else count_dots r
  end.

(** [splitIdString(id, &db, &schema, &table, usedb)] *)
Definition splitIdString (id : string) (usedb : bool)
  : option string * option string * option string :=
  let toks := strtok_dots id EmptyString in
  let tok n := List.nth_error toks n in
  match count_dots id with
  | 1%nat =>
      if usedb then (tok 0%nat, None, tok 1%nat)
      else (None, tok 0%nat, tok 1%nat)
  | 2%nat => (tok 0%nat, tok 1%nat, tok 2%nat)
  | 0%nat => (None, None, Some id)
  | _ => (None, None, None)
  end.

(** The two-step lookup of [transformDDLColumns] in one source's table:
    first under the column's own key, then under the bare type name. *)
Definition lookup_datatype (h : list DatatypeHashEntry) (bitname : string)
  (colNameObjId typeName : string) (col : DBZ_DDL_COLUMN)
  : option DatatypeHashEntry :=
  let special := andb (C.strcaseeq typeName bitname) (col_length col =? 1) in
  let suffix := if special then "(" ++ C.fmt_d (col_length col) ++ ")" else "" in
  let key1 := mk_dtkey
    (C.snprintf SYNCHDB_DATATYPE_NAME_SIZE
       (colNameObjId ++ "." ++ typeName ++ suffix))
    (col_autoIncremented col) in
  match hash_find_datatype h key1 with
  | Some entry => Some entry
  | None =>
      let key2 := mk_dtkey
        (C.snprintf SYNCHDB_DATATYPE_NAME_SIZE (typeName ++ suffix))
        (col_autoIncremented col) in
      hash_find_datatype h key2
  end.

Definition set_col_name (col : DBZ_DDL_COLUMN) (n : option string) :=
  mk_ddlcol n (col_length col) (col_optional col) (col_position col)
    (col_typeName col) (col_enumValues col) (col_charsetName col)
    (col_autoIncremented col) (col_defaultValueExpression col) (col_scale col).

Definition set_col_length (col : DBZ_DDL_COLUMN) (l : Z) :=
  mk_ddlcol (col_name col) l (col_optional col) (col_position col)
    (col_typeName col) (col_enumValues col) (col_charsetName col)
    (col_autoIncremented col) (col_defaultValueExpression col) (col_scale col).

(** The text for a column after the lookup, and the column with the mapped
    length. *)
Definition emit_datatype (entry : option DatatypeHashEntry)
  (col : DBZ_DDL_COLUMN) (typeName : string) (datatypeonly : bool)
  : DBZ_DDL_COLUMN * string :=
  let shown := match entry with
               | Some e => pgsqlTypeName e
               | None => typeName
               end in
  let text := if datatypeonly then " " ++ shown ++ " "
              else " " ++ pct_s (col_name col) ++ " " ++ shown ++ " " in
  match entry with
  | Some e =>
      if negb (pgsqlTypeLength e =? -1)
      then (set_col_length col (pgsqlTypeLength e), text)
      else (col, text)
  | None => (col, text)
  end.

(** [transformDDLColumns(id, col, conntype, datatypeonly, strinfo)]: the
    column as the function leaves it and the text appended to [strinfo]. *)
Definition transformDDLColumns (E : env) (id : string) (col : DBZ_DDL_COLUMN)
  (conntype : ConnectorType) (datatypeonly : bool)
  : outcome (DBZ_DDL_COLUMN * string) :=
  let colNameObjId := id ++ "." ++ pct_s (col_name col) in
  mappedColumnName <~ transform_object_name E colNameObjId "column" ;;
  let col := match mappedColumnName with
             | Some m => set_col_name col (Some m)
             | None => col
             end in
  match conntype with
  | TYPE_MYSQL =>
      match col_typeName col with
      | None => Undefined "strcasecmp on a NULL typeName"
      | Some typeName =>
          let entry := lookup_datatype (mysqlDatatypeHash E) "BIT"
                         colNameObjId typeName col in
          Ret (emit_datatype entry col typeName datatypeonly)
      end
  | TYPE_ORACLE => Ret (col, "")
  | TYPE_SQLSERVER =>
      match col_typeName col with
      | None => Undefined "strcasecmp on a NULL typeName"
      | Some typeName =>
          let entry := lookup_datatype (sqlserverDatatypeHash E) "bit"
                         colNameObjId typeName col in
          let '(col', text) := emit_datatype entry col typeName datatypeonly in
          (* the scale of timestamp and time types arrives as "scale" *)
          if 0 <? col_scale col' then
            match entry with
            | None => Undefined "entry is NULL"
            | Some e =>
                if orb (find_exact_string_match (pgsqlTypeName e) "TIMESTAMP")
                     (orb (find_exact_string_match (pgsqlTypeName e) "TIME")
                          (find_exact_string_match (pgsqlTypeName e) "TIMESTAMPTZ"))
                then
                  if 6 <? col_scale col' then Ret (col', text ++ "(6) ")
                  else Ret (col', text ++ "(" ++ C.fmt_d (col_scale col') ++ ") ")
                else Ret (col', text)
            end
          else Ret (col', text)
      end
  | TYPE_UNDEF =>
      Ret (col, " " ++ pct_s (col_name col) ++ " " ++
                pct_s (col_typeName col) ++ " ")
  end.

(** The clauses that follow the type of a column in CREATE TABLE. *)
Definition column_clauses (col : DBZ_DDL_COLUMN) : outcome string :=
  let both := if andb (0 <? col_length col) (0 <? col_scale col)
              then "(" ++ C.fmt_d (col_length col) ++ ", " ++
                   C.fmt_d (col_scale col) ++ ") "
              else "" in
  let only := if andb (0 <? col_length col) (col_scale col =? 0)
              then "(" ++ C.fmt_d (Z.min (col_length col) MaxAttrSize) ++ ") "
              else "" in
  match col_typeName col with
  | None => Undefined "strstr on a NULL typeName"
  | Some typeName =>
      let check := if C.contains typeName "UNSIGNED"
                   then "CHECK (" ++ pct_s (col_name col) ++ " >= 0) "
                   else "" in
      let notnull := if negb (col_optional col) then "NOT NULL " else "" in
      let default :=
        match col_defaultValueExpression col with
        | Some d =>
            if andb (0 <? C.strlen d) (negb (col_autoIncremented col))
            then "DEFAULT " ++ d ++ " " else ""
        | None => ""
        end in
      Ret (both ++ only ++ check ++ notnull ++ default ++ ",")
  end.

Definition create_column (E : env) (id : string) (type : ConnectorType)
  (col : DBZ_DDL_COLUMN) : outcome string :=
  r <~ transformDDLColumns E id col type false ;;
  clauses <~ column_clauses (fst r) ;;
  Ret (snd r ++ clauses).

(** The CREATE branch of [convert2PGDDL]: the text of [pgddl->ddlquery]. *)
Definition convert2PGDDL_create (E : env) (dbzddl : DBZ_DDL)
  (type : ConnectorType) : outcome string :=
  mappedObjName <~ transform_object_name E (ddl_id dbzddl) "table" ;;
  head <~
    match mappedObjName with
    | Some mapped =>
        match splitIdString mapped false with
        | (_, _, None) =>
            (* save the error, then trigger pg's error shutdown routine *)
            let msg := C.snprintf SYNCHDB_ERRMSG_SIZE
                         ("transformed object ID is invalid: " ++ mapped) in
            Saved msg msg
        | (_, Some schema, Some table) =>
            Ret ("CREATE SCHEMA IF NOT EXISTS " ++ schema ++ "; " ++
                 "CREATE TABLE IF NOT EXISTS " ++ schema ++ "." ++ table ++ " (")
        | (_, None, Some table) =>
            Ret ("CREATE TABLE IF NOT EXISTS " ++ table ++ " (")
        end
    | None =>
        match splitIdString (ddl_id dbzddl) true with
        | (Some db, _, Some table) =>
            Ret ("CREATE SCHEMA IF NOT EXISTS " ++ db ++ "; " ++
                 "CREATE TABLE IF NOT EXISTS " ++ db ++ "." ++ table ++ " (")
        | _ =>
            let msg := C.snprintf SYNCHDB_ERRMSG_SIZE
                         ("malformed id field in dbz change event: "
                          ++ ddl_id dbzddl) in
            Saved msg msg
        end
    end ;;
  cols <~ foreach_append (ddl_columns dbzddl)
            (create_column E (ddl_id dbzddl) type) head ;;
  keys <~ populate_primary_keys E (C.chop 1 cols) (ddl_id dbzddl)
            (ddl_primaryKeyColumnNames dbzddl) false ;;
  Ret (keys ++ ");").

(** What [convert2PGDDL] hands back. *)
Inductive PG_DDL : Type :=
| ddlquery (text : string)
| catalog_branch.     (* DROP and ALTER consult the data cache and the
                         catalog; they are not part of this development *)

Definition convert2PGDDL (E : env) (dbzddl : DBZ_DDL) (type : ConnectorType)
  : outcome PG_DDL :=
  if C.streq (ddl_type dbzddl) "CREATE" then
    text <~ convert2PGDDL_create E dbzddl type ;;
    Ret (ddlquery text)
  else Ret catalog_branch.

(** *** Parsing a schema change event *)

(** [jsonb_get_element(jb, path, npath, &isnull, false)] *)
Fixpoint jsonb_get_element (jb : json) (path : list string) : option json :=
  match path with
  | [] => Some jb
  | p :: rest =>
      match jb with
      | JObject pairs =>
          match List.find (fun kv => String.eqb (fst kv) p) pairs with
          | Some kv => jsonb_get_element (snd kv) rest
          | None => None
          end
      | JArray elems =>
          match p with
          | EmptyString => None
          | String c r =>
              let digits := if Ascii.eqb c "-" then r else p in
              if andb (negb (String.eqb digits ""))
                      (List.forallb C.isdigit (list_ascii_of_string digits))
              then
                let n := C.digits_value 0 digits in
                let idx := if Ascii.eqb c "-"
                           then Z.of_nat (List.length elems) - n else n in
                if andb (0 <=? idx) (idx <? Z.of_nat (List.length elems))
                then match List.nth_error elems (Z.to_nat idx) with
                     | Some e => jsonb_get_element e rest
                     | None => None
                     end
                else None
              else None
          end
      | _ => None
      end
  end.

(** [escape_json]: the body of a JSON string literal. *)
Fixpoint escape_json (s : string) : string :=
  match s with
  | EmptyString => EmptyString
  | String c r =>
      let n := nat_of_ascii c in
      (if Nat.eqb n 34 then "\" ++ C.dquote
       else if Nat.eqb n 92 then "\\"
       else if Nat.eqb n 8 then "\b"
       else if Nat.eqb n 12 then "\f"
       else if Nat.eqb n 10 then "\n"
       else if Nat.eqb n 13 then "\r"
       else if Nat.eqb n 9 then "\t"
       else if Nat.ltb n 32
       then "\u00" ++ C.lowercase (C.fmt_02X (Z.of_nat n))
       else String c EmptyString) ++ escape_json r
  end.

(** [JsonbToCString] *)
Fixpoint JsonbToCString (jb : json) : string :=
  match jb with
  | JNull => "null"
  | JBool true => "true"
  | JBool false => "false"
  | JNumeric text => text
  | JString s => C.dquote ++ escape_json s ++ C.dquote
  | JArray elems =>
      "[" ++ String.concat ", " (List.map JsonbToCString elems) ++ "]"
  | JObject pairs =>
      "{" ++ String.concat ", "
               (List.map (fun kv => C.dquote ++ escape_json (fst kv) ++ C.dquote
                                    ++ ": " ++ JsonbToCString (snd kv)) pairs)
          ++ "}"
  end.

Fixpoint remove_double_quotes (s : string) : string :=
  match s with
  | EmptyString => EmptyString
  | String c r =>
      if orb (Ascii.eqb c (ascii_of_nat 34)) (Ascii.eqb c "\")
      then remove_double_quotes r
      else String c (remove_double_quotes r)
  end.

Definition getPathElementString (jb : json) (path : list string)
  (removequotes : bool) : string :=
  match jsonb_get_element jb path with
  | None => "NULL"
  | Some resjb =>
      let text := JsonbToCString resjb in
      if removequotes then remove_double_quotes text else text
  end.

Definition getPathElementJsonb (jb : json) (path : list string) : option json :=
  jsonb_get_element jb path.

(** The column loop of [parseDBZDDL] keeps a pointer [ddlcol] to the column
    being filled and appends that pointer at every end of object: [store]
    holds the columns allocated so far, [cols] the appended pointers. *)
Record parse_state : Type := mk_ps {
  ps_store : list DBZ_DDL_COLUMN;
  ps_ddlcol : option nat;
  ps_cols : list nat;
  ps_key : option string;
  ps_value : option string;
  ps_pause : bool
}.

Definition empty_column : DBZ_DDL_COLUMN :=
  mk_ddlcol None 0 false 0 None None None false None 0.

Definition consume (key value : string) (c : DBZ_DDL_COLUMN) : DBZ_DDL_COLUMN :=
  let key_is k := C.streq key k in
  mk_ddlcol
    (if key_is "name" then Some value else col_name c)
    (if key_is "length"
     then (if C.streq value "NULL" then 0 else C.atoi value)
     else col_length c)
    (if key_is "optional" then C.streq value "true" else col_optional c)
    (if key_is "position" then C.atoi value else col_position c)
    (if key_is "typeName" then Some value else col_typeName c)
    (if key_is "enumValues" then Some value else col_enumValues c)
    (if key_is "charsetName" then Some value else col_charsetName c)
    (if key_is "autoIncremented" then C.streq value "true"
     else col_autoIncremented c)
    (if key_is "defaultValueExpression" then Some value
     else col_defaultValueExpression c)
    (if key_is "scale"
     then (if C.streq value "NULL" then 0 else C.atoi value)
     else col_scale c).

Fixpoint update_nth {A} (n : nat) (f : A -> A) (l : list A) : list A :=
  match l, n with
  | [], _ => []
  | x :: r, O => f x :: r
  | x :: r, S k => x :: update_nth k f r
  end.

Definition scalar_text (v : json) : option string :=
  match v with
  | JNull => Some "NULL"
  | JString s => Some s
  | JNumeric text => Some text
  | JBool true => Some "true"
  | JBool false => Some "false"
  | _ => None
  end.

Definition parse_token (st : parse_state) (r : JsonbToken) : parse_state :=
  let st1 :=
    match r with
    | WJB_BEGIN_OBJECT =>
        mk_ps (ps_store st ++ [empty_column])%list
              (Some (List.length (ps_store st))) (ps_cols st)
              None (ps_value st) (ps_pause st)
    | WJB_END_OBJECT =>
        match ps_ddlcol st with
        | Some p => mk_ps (ps_store st) (ps_ddlcol st) (ps_cols st ++ [p])%list
                          (ps_key st) (ps_value st) (ps_pause st)
        | None => st
        end
    | WJB_BEGIN_ARRAY =>
        match ps_key st with
        | Some _ => mk_ps (ps_store st) (ps_ddlcol st) (ps_cols st)
                          None (ps_value st) true
        | None => st
        end
    | WJB_END_ARRAY =>
        mk_ps (ps_store st) (ps_ddlcol st) (ps_cols st)
              (ps_key st) (ps_value st) false
    | WJB_KEY k =>
        if ps_pause st then st
        else mk_ps (ps_store st) (ps_ddlcol st) (ps_cols st)
                   (Some k) (ps_value st) (ps_pause st)
    | WJB_VALUE v | WJB_ELEM v =>
        if ps_pause st then st
        else match scalar_text v with
             | Some text => mk_ps (ps_store st) (ps_ddlcol st) (ps_cols st)
                                  (ps_key st) (Some text) (ps_pause st)
             | None => st
             end
    end in
  (* check if we have a key - value pair *)
  match ps_key st1, ps_value st1, ps_ddlcol st1 with
  | Some key, Some value, Some p =>
      mk_ps (update_nth p (consume key value) (ps_store st1))
            (ps_ddlcol st1) (ps_cols st1) None None (ps_pause st1)
  | _, _, _ => st1
  end.

Definition parse_columns (ddlpayload : json) : list DBZ_DDL_COLUMN :=
  let final := List.fold_left parse_token (jsonb_tokens ddlpayload)
                 (mk_ps [] None [] None None false) in
  List.map (fun p => List.nth p (ps_store final) empty_column) (ps_cols final).

(** [parseDBZDDL(jb)]; [None] is the NULL return. *)
Definition parseDBZDDL (jb : json) : option DBZ_DDL :=
  let change := ["payload"; "tableChanges"; "0"] in
  let id := getPathElementString jb (change ++ ["id"])%list true in
  let pk := jsonb_get_element jb
              (change ++ ["table"; "primaryKeyColumnNames"])%list in
  let type := getPathElementString jb (change ++ ["type"])%list true in
  if andb (C.streq id "NULL") (C.streq type "NULL") then None
  else if orb (C.streq type "CREATE") (C.streq type "ALTER") then
    match getPathElementJsonb jb (change ++ ["table"; "columns"])%list with
    | Some ddlpayload => Some (mk_dbzddl id type pk (parse_columns ddlpayload))
    | None => None
    end
  else if C.streq type "DROP" then Some (mk_dbzddl id type pk [])
  else None.
End FormatConverter.

(** ** synchdb.c *)

Module Synchdb.

Import PG.
Import Synchdb_h.

Inductive elevel : Type := DEBUG1 | LOG | WARNING.

(** What a run leaves behind besides its result: messages below ERROR, and
    calls into the Debezium runner and the transaction manager. *)
Inductive event : Type :=
| Elog (lvl : elevel) (msg : string)
| Call (routine : string) (args : list string).

(** The state of a worker process.  [sdb_state] is the pointer to the
    shared-memory block, NULL until the block has been attached. *)
Record world : Type := mk_world {
  sdb_state : option SynchdbSharedState;
  myConnectorId : ConnectorType;
  relations : list (Oid * relation);
  events : list event
}.

(** What the process runs on: the macros of the missing header, and the
    answers of the Java runner and of the postmaster. *)
Record host : Type := mk_host {
  SYNCHDB_MYSQL_OFFSET_FILE : string;
  SYNCHDB_ORACLE_OFFSET_FILE : string;
  SYNCHDB_SQLSERVER_OFFSET_FILE : string;
  stopEngine_result : Z;          (* what dbz_engine_stop returns *)
  startEngine_result : Z;         (* what dbz_engine_start returns *)
  setConnectorOffset_result : Z;  (* what dbz_engine_set_offset returns *)
  register_ok : bool;             (* RegisterDynamicBackgroundWorker *)
  startup_status : BgwHandleStatus; (* WaitForBackgroundWorkerStartup *)
  WORDS_BIGENDIAN : bool          (* of pg_config.h *)
}.

(** State and errors are threaded by hand in C; here by a monad. *)
Definition M (A : Type) : Type := world -> outcome A * world.

Definition ret {A} (a : A) : M A := fun w => (Ret a, w).

Definition bind {A B} (c : M A) (k : A -> M B) : M B :=
  fun w =>
    match c w with
    | (Ret a, w') => k a w'
    | (Raised code m, w') => (Raised code m, w')
    | (Saved e m, w') => (Saved e m, w')
    | (Undefined why, w') => (Undefined why, w')
    end.

Notation "x <- c ;; k" := (bind c (fun x => k))
  (at level 61, c at next level, right associativity).
Notation "c ;;; k" := (bind c (fun _ => k))
  (at level 61, right associativity).

Definition lift {A} (o : outcome A) : M A := fun w => (o, w).
Definition ereport {A} (code : errcode) (msg : string) : M A :=
  lift (Raised code msg).
Definition emit (e : event) : M unit :=
  fun w => (Ret tt, mk_world (sdb_state w) (myConnectorId w) (relations w)
                             (events w ++ [e])%list).
Definition elog (lvl : elevel) (msg : string) : M unit := emit (Elog lvl msg).
Definition call (routine : string) (args : list string) : M unit :=
  emit (Call routine args).
Definition get_sdb_state : M (option SynchdbSharedState) :=
  fun w => (Ret (sdb_state w), w).
Definition put_sdb_state (s : SynchdbSharedState) : M unit :=
  fun w => (Ret tt, mk_world (Some s) (myConnectorId w) (relations w) (events w)).

(** [PG_TRY(); body PG_CATCH(); handler PG_RE_THROW(); PG_END_TRY();] *)
Definition try_rethrow {A} (body : M A) (handler : string -> M unit) : M A :=
  fun w =>
    match body w with
    | (Raised code m, w') =>
        match handler m w' with
        | (Ret _, w'') => (Raised code m, w'')
        | (Raised c2 m2, w'') => (Raised c2 m2, w'')
        | (Saved e2 m2, w'') => (Saved e2 m2, w'')
        | (Undefined why, w'') => (Undefined why, w'')
        end
    | (Saved e m, w') =>
        match handler m w' with
        | (Ret _, w'') => (Saved e m, w'')
        | (Raised c2 m2, w'') => (Raised c2 m2, w'')
        | (Saved e2 m2, w'') => (Saved e2 m2, w'')
        | (Undefined why, w'') => (Undefined why, w'')
        end
    | r => r
    end.

Definition connectorTypeToString (type : ConnectorType) : string :=
  match type with
  | TYPE_UNDEF => "UNDEFINED"
  | TYPE_MYSQL => "MYSQL"
  | TYPE_ORACLE => "ORACLE"
  | TYPE_SQLSERVER => "SQLSERVER"
  end.

(** [%d] of a connector type. *)
Definition type_number (type : ConnectorType) : string :=
  match type with
  | TYPE_UNDEF => "0"
  | TYPE_MYSQL => "1"
  | TYPE_ORACLE => "2"
  | TYPE_SQLSERVER => "3"
  end.

Definition connectorStateAsString (s : ConnectorState) : string :=
  match s with
  | STATE_UNDEF | STATE_STOPPED => "stopped"
  | STATE_INITIALIZING => "initializing"
  | STATE_PAUSED => "paused"
  | STATE_SYNCING => "syncing"
  | STATE_PARSING => "parsing"
  | STATE_CONVERTING => "converting"
  | STATE_EXECUTING => "executing"
  | STATE_OFFSET_UPDATE => "updating offset"
  | _ => "UNKNOWN"
  end.

(** The member of the shared state a [switch (type)] selects. *)
Definition info_of (type : ConnectorType) (s : SynchdbSharedState)
  : option ConnectorInfo :=
  match type with
  | TYPE_MYSQL => Some (mysqlinfo s)
  | TYPE_ORACLE => Some (oracleinfo s)
  | TYPE_SQLSERVER => Some (sqlserverinfo s)
  | TYPE_UNDEF => None
  end.

Definition with_info (type : ConnectorType) (f : ConnectorInfo -> ConnectorInfo)
  (s : SynchdbSharedState) : SynchdbSharedState :=
  match type with
  | TYPE_MYSQL => mk_shared (f (mysqlinfo s)) (oracleinfo s) (sqlserverinfo s)
  | TYPE_ORACLE => mk_shared (mysqlinfo s) (f (oracleinfo s)) (sqlserverinfo s)
  | TYPE_SQLSERVER => mk_shared (mysqlinfo s) (oracleinfo s) (f (sqlserverinfo s))
  | TYPE_UNDEF => s
  end.

Definition set_state (st : ConnectorState) (i : ConnectorInfo) : ConnectorInfo :=
  mk_info (pid i) st (req i) (errmsg i) (srcdb i) (dstdb i).
Definition set_req (r : SynchdbRequest) (i : ConnectorInfo) : ConnectorInfo :=
  mk_info (pid i) (state i) r (errmsg i) (srcdb i) (dstdb i).
Definition set_errmsg (m : string) (i : ConnectorInfo) : ConnectorInfo :=
  mk_info (pid i) (state i) (req i) m (srcdb i) (dstdb i).

Definition unsupported (type : ConnectorType) : M unit :=
  elog WARNING ("Unsupported connector type: " ++ type_number type).

Definition set_shm_connector_errmsg (type : ConnectorType) (err : option string)
  : M unit :=
  s <- get_sdb_state ;;
  match s with
  | None => elog WARNING "Shared memory state is not initialized"
  | Some s =>
      match type with
      | TYPE_UNDEF => unsupported type
      | _ =>
          let text := match err with Some e => e | None => "" end in
          put_sdb_state
            (with_info type (set_errmsg (C.snprintf SYNCHDB_ERRMSG_SIZE text)) s)
      end
  end.

Definition get_shm_connector_state_enum (type : ConnectorType)
  : M ConnectorState :=
  s <- get_sdb_state ;;
  match s with
  | None =>
      elog WARNING "Shared memory state is not initialized" ;;;
      ret STATE_UNDEF
  | Some s =>
      match info_of type s with
      | Some i => ret (state i)
      | None => unsupported type ;;; ret STATE_UNDEF
      end
  end.

(** The DEBUG1 line that ends [set_shm_connector_state]. *)
Definition state_set_message (type : ConnectorType) (st : ConnectorState)
  : string :=
  "Set state for connector type " ++ type_number type ++ " to " ++
  connectorStateAsString st.

Definition set_shm_connector_state (type : ConnectorType) (st : ConnectorState)
  : M unit :=
  s <- get_sdb_state ;;
  match s with
  | None => elog WARNING "Shared memory state is not initialized"
  | Some s =>
      match type with
      | TYPE_UNDEF => unsupported type
      | _ => put_sdb_state (with_info type (set_state st) s)
      end ;;;
      elog DEBUG1 (state_set_message type st)
  end.

Definition reset_shm_request_state (type : ConnectorType) : M unit :=
  s <- get_sdb_state ;;
  match s with
  | None => elog WARNING "Shared memory state is not initialized"
  | Some s =>
      elog DEBUG1 ("Reset request state for " ++ connectorTypeToString type
                   ++ " connector") ;;;
      match type with
      | TYPE_UNDEF => unsupported type
      | _ => put_sdb_state (with_info type (set_req (mk_req STATE_UNDEF "")) s)
      end
  end.

(** ConnectionInfo as synchdb.c fills it from the arguments. *)
Record ConnectionInfo : Type := mk_conninfo {
  hostname : string;
  port : Z;
  user : string;
  pwd : string;
  src_db : string;
  dst_db : string;
  table : string
}.

(** The calls into the Java runner: each is recorded, and answers what the
    host says it answers. *)
Definition dbz_engine_stop (H : host) : M Z :=
  call "dbz_engine_stop" [] ;;; ret (stopEngine_result H).

Definition dbz_engine_start (H : host) (connInfo : ConnectionInfo)
  (type : ConnectorType) : M Z :=
  call "dbz_engine_start" [hostname connInfo; connectorTypeToString type] ;;;
  ret (startEngine_result H).

Definition dbz_engine_set_offset (H : host) (type : ConnectorType)
  (db offset file : string) : M Z :=
  call "dbz_engine_set_offset" [connectorTypeToString type; db; offset; file] ;;;
  ret (setConnectorOffset_result H).

Definition offset_file (H : host) (type : ConnectorType) : string :=
  match type with
  | TYPE_MYSQL => SYNCHDB_MYSQL_OFFSET_FILE H
  | TYPE_ORACLE => SYNCHDB_ORACLE_OFFSET_FILE H
  | _ => SYNCHDB_SQLSERVER_OFFSET_FILE H
  end.

Definition transition_message (what : string) (type : ConnectorType)
  (currstate reqstate : ConnectorState) : string :=
  what ++ " " ++ connectorTypeToString type ++ " connector. Current state: " ++
  connectorStateAsString currstate ++ ", Requested state: " ++
  connectorStateAsString reqstate.

Definition processRequestInterrupt (H : host) (connInfo : ConnectionInfo)
  (type : ConnectorType) : M unit :=
  s <- get_sdb_state ;;
  match s with
  | None => ret tt
  | Some s =>
      match info_of type s with
      | None =>
          set_shm_connector_errmsg type (Some "unsupported connector type") ;;;
          ereport ERRCODE_INTERNAL_ERROR "unsupported connector type"
      | Some info =>
          let offsetfile := offset_file H type in
          (* copies of the request and of the current state *)
          let reqcopy := req info in
          let currstatecopy := state info in
          match reqstate reqcopy, currstatecopy with
          | STATE_UNDEF, _ =>
              (* no requests, do nothing *)
              reset_shm_request_state type
          | STATE_PAUSED, STATE_SYNCING =>
              elog LOG (transition_message "Pausing" type currstatecopy
                          (reqstate reqcopy)) ;;;
              elog WARNING "shut down dbz engine..." ;;;
              r <- dbz_engine_stop H ;;
              if negb (r =? 0) then
                elog WARNING "failed to stop dbz engine..." ;;;
                reset_shm_request_state type
              else
                set_shm_connector_state type STATE_PAUSED ;;;
                reset_shm_request_state type
          | STATE_SYNCING, STATE_PAUSED =>
              elog LOG (transition_message "Resuming" type currstatecopy
                          (reqstate reqcopy)) ;;;
              elog WARNING "restart dbz engine..." ;;;
              r <- dbz_engine_start H connInfo type ;;
              if r <? 0 then
                elog WARNING "Failed to restart dbz engine" ;;;
                reset_shm_request_state type
              else
                set_shm_connector_state type STATE_SYNCING ;;;
                reset_shm_request_state type
          | STATE_OFFSET_UPDATE, STATE_PAUSED =>
              elog LOG (transition_message "Updating offset for" type
                          currstatecopy (reqstate reqcopy)) ;;;
              set_shm_connector_state type STATE_OFFSET_UPDATE ;;;
              r <- dbz_engine_set_offset H type (srcdb info)
                     (reqdata reqcopy) offsetfile ;;
              if r <? 0 then
                elog WARNING ("Failed to set offset for " ++
                              connectorTypeToString type ++ " connector") ;;;
                reset_shm_request_state type ;;;
                set_shm_connector_state type STATE_PAUSED
              else
                (* after new offset is set, change state back to STATE_PAUSED *)
                set_shm_connector_state type STATE_PAUSED ;;;
                reset_shm_request_state type
          | _, _ =>
              elog WARNING
                (transition_message "Invalid state transition requested for"
                   type currstatecopy (reqstate reqcopy)) ;;;
              reset_shm_request_state type
          end
      end
  end.

(** Whether the engine call a request needs succeeds on this host. *)
Definition engine_ok (H : host) (requested : ConnectorState) : bool :=
  match requested with
  | STATE_PAUSED => stopEngine_result H =? 0
  | STATE_SYNCING => negb (startEngine_result H <? 0)
  | _ => negb (setConnectorOffset_result H <? 0)
  end.

Definition is_call (e : event) : bool :=
  match e with
  | Call _ _ => true
  | Elog _ _ => false
  end.

Definition fc_get_connector_type (connector : string) : ConnectorType :=
  if C.strcaseeq connector "mysql" then TYPE_MYSQL
  else if C.strcaseeq connector "oracle" then TYPE_ORACLE
  else if C.strcaseeq connector "sqlserver" then TYPE_SQLSERVER
  else TYPE_UNDEF.

Record BackgroundWorker : Type := mk_bgw {
  bgw_name : string;
  bgw_type : string;
  bgw_library_name : string;
  bgw_function_name : string;
  bgw_main_arg : ConnectorType;
  bgw_extra : string
}.

(** [printf("%u")] of an [unsigned int] *)
Definition fmt_u (z : Z) : string := C.fmt_d (z mod 2 ^ 32).

Definition prepare_bgw (connInfo : ConnectionInfo) (connector : string)
  : outcome BackgroundWorker :=
  let type := fc_get_connector_type connector in
  let at_host := hostname connInfo ++ ":" ++ fmt_u (port connInfo) in
  named <~
    match type with
    | TYPE_MYSQL =>
        Ret (C.snprintf BGW_MAXLEN ("synchdb engine: mysql@" ++ at_host),
             "synchdb engine: mysql")
    | TYPE_ORACLE =>
        Ret (C.snprintf BGW_MAXLEN ("synchdb engine: oracle@" ++ at_host),
             "synchdb engine: oracle")
    | TYPE_SQLSERVER =>
        Ret (C.snprintf BGW_MAXLEN ("synchdb engine: sqlserver@" ++ at_host),
             "synchdb engine: sqlserver")
    | TYPE_UNDEF => elog_ERROR "unsupported connector type"
    end ;;
  (* append destination database to worker->bgw_name for clarity *)
  let name := fst named ++ " -> " ++ dst_db connInfo in
  if Nat.leb BGW_MAXLEN (String.length name)
  then Undefined "strcat past the end of bgw_name"
  else
    Ret (mk_bgw name (snd named) "synchdb" "synchdb_engine_main" type
           (C.snprintf BGW_EXTRALEN
              (hostname connInfo ++ ":" ++ fmt_u (port connInfo) ++ ":" ++
               user connInfo ++ ":" ++ pwd connInfo ++ ":" ++
               src_db connInfo ++ ":" ++ dst_db connInfo ++ ":" ++
               table connInfo))).

(** [VARSIZE(t) - VARHDRSZ == 0], in [uint32] arithmetic *)
Definition text_is_empty (H : host) (t : text) : bool :=
  (VARSIZE (WORDS_BIGENDIAN H) t - VARHDRSZ) mod 2 ^ 32 =? 0.

Definition invalid_parameter {A} (msg : string) : outcome A :=
  Raised ERRCODE_INVALID_PARAMETER_VALUE msg.

(** [synchdb_start_engine_bgw]: the int32 it returns and the worker it has
    registered.  [port_arg] is [PG_GETARG_UINT32(1)]. *)
Definition synchdb_start_engine_bgw (H : host)
  (hostname_text : text) (port_arg : Z)
  (user_text pwd_text src_db_text dst_db_text table_text connector_text : text)
  : outcome (Z * BackgroundWorker) :=
  if text_is_empty H hostname_text
  then invalid_parameter "hostname cannot be empty" else
  let hostname := text_to_cstring hostname_text in
  let port := port_arg mod 2 ^ 32 in
  if orb (port =? 0) (65535 <? port)
  then invalid_parameter "invalid port number" else
  if text_is_empty H user_text
  then invalid_parameter "username cannot be empty" else
  let user := text_to_cstring user_text in
  if text_is_empty H pwd_text
  then invalid_parameter "password cannot be empty" else
  let pwd := text_to_cstring pwd_text in
  (* source database can be empty or NULL *)
  let src_db := if text_is_empty H src_db_text then "null"
                else text_to_cstring src_db_text in
  if text_is_empty H dst_db_text
  then invalid_parameter "destination database cannot be empty" else
  let dst_db := text_to_cstring dst_db_text in
  (* table can be empty or NULL *)
  let table := if text_is_empty H table_text then "null"
               else text_to_cstring table_text in
  if text_is_empty H connector_text
  then invalid_parameter "connector type cannot be empty" else
  let connector := text_to_cstring connector_text in
  let connInfo := mk_conninfo hostname port user pwd src_db dst_db table in
  worker <~ prepare_bgw connInfo connector ;;
  if negb (register_ok H)
  then Raised ERRCODE_INSUFFICIENT_RESOURCES
         "could not register background process"
  else
    match startup_status H with
    | BGWH_STARTED => Ret (0, worker)
    | _ => Raised ERRCODE_INSUFFICIENT_RESOURCES
             "could not start background process"
    end.

(** *** The shared block as the SQL functions use it *)

(** [InvalidPid] of [miscadmin.h]. *)
Definition InvalidPid : Z := -1.

Definition set_pid (p : Z) (i : ConnectorInfo) : ConnectorInfo :=
  mk_info p (state i) (req i) (errmsg i) (srcdb i) (dstdb i).

Definition get_shm_connector_name (type : ConnectorType) : string :=
  match type with
  | TYPE_MYSQL => "mysql"
  | TYPE_ORACLE => "oracle"
  | TYPE_SQLSERVER => "sqlserver"
  | TYPE_UNDEF => "null"
  end.

Definition get_shm_connector_pid (type : ConnectorType) : M Z :=
  s <- get_sdb_state ;;
  match s with
  | None => ret InvalidPid
  | Some s =>
      match info_of type s with
      | Some i => ret (pid i)
      | None => ret InvalidPid
      end
  end.

Definition set_shm_connector_pid (type : ConnectorType) (p : Z) : M unit :=
  s <- get_sdb_state ;;
  match s with
  | None => ret tt
  | Some s =>
      match type with
      | TYPE_UNDEF => ret tt
      | _ => put_sdb_state (with_info type (set_pid p) s)
      end
  end.

Definition get_shm_connector_errmsg (type : ConnectorType) : M string :=
  s <- get_sdb_state ;;
  match s with
  | None => ret "no error"
  | Some s =>
      match info_of type s with
      | Some i => ret (match errmsg i with
                       | EmptyString => "no error"
                       | text => text
                       end)
      | None => ret "invalid connector type"
      end
  end.

Definition get_shm_connector_state (type : ConnectorType) : M string :=
  s <- get_sdb_state ;;
  match s with
  | None =>
      elog WARNING "Shared memory state is not initialized" ;;;
      ret "stopped"
  | Some s =>
      match info_of type s with
      | Some i => ret (connectorStateAsString (state i))
      | None => unsupported type ;;; ret (connectorStateAsString STATE_UNDEF)
      end
  end.

(** [synchdb_init_shmem]: [segment] is what [ShmemInitStruct] finds under
    the name synchdb; when it finds nothing the block is new, holds
    [fresh], and gets its three pids set. *)
Definition synchdb_init_shmem (segment : option SynchdbSharedState)
  (fresh : SynchdbSharedState) : M unit :=
  match segment with
  | Some s => put_sdb_state s
  | None =>
      put_sdb_state
        (mk_shared (set_pid InvalidPid (mysqlinfo fresh))
                   (set_pid InvalidPid (oracleinfo fresh))
                   (set_pid InvalidPid (sqlserverinfo fresh)))
  end.

(** [synchdb_detach_shmem(code, arg)], the exit callback of a worker whose
    pid is [MyProcPid]. *)
Definition synchdb_detach_shmem (MyProcPid : Z) (code : Z) (arg : ConnectorType)
  : M unit :=
  elog LOG ("synchdb detach shm ... connector type " ++ type_number arg ++
            ", code " ++ C.fmt_d code) ;;;
  enginepid <- get_shm_connector_pid arg ;;
  if enginepid =? MyProcPid then
    set_shm_connector_pid arg InvalidPid ;;;
    set_shm_connector_state arg STATE_STOPPED
  else ret tt.

(** *** The SQL functions that talk to a running worker *)

Definition not_running {A} (connector : string) : M A :=
  ereport ERRCODE_INTERNAL_ERROR
    ("dbz connector (" ++ connector ++ ") is not running").

Definition request_active {A} (connector : string) : M A :=
  ereport ERRCODE_INTERNAL_ERROR
    ("an active request is currently active for " ++ connector ++ " connector").

(** The part the three request functions share: the type check, the
    attach, and the pid of the worker. *)
Definition attach_to_worker (segment : option SynchdbSharedState)
  (fresh : SynchdbSharedState) (connector : string) : M ConnectorType :=
  let type := fc_get_connector_type connector in
  match type with
  | TYPE_UNDEF =>
      ereport ERRCODE_INVALID_PARAMETER_VALUE "unsupported connector type"
  | _ =>
      synchdb_init_shmem segment fresh ;;;
      s <- get_sdb_state ;;
      match s with
      | None => ereport ERRCODE_INTERNAL_ERROR
                  "failed to init or attach to synchdb shared memory"
      | Some _ =>
          p <- get_shm_connector_pid type ;;
          if p =? InvalidPid then not_running connector else ret type
      end
  end.

(** The end of the three request functions: the slot must be empty, then
    the request is written. *)
Definition post_request (connector : string) (type : ConnectorType)
  (fill : SynchdbRequest -> outcome SynchdbRequest) (sent : string) : M Z :=
  s <- get_sdb_state ;;
  match s with
  | None => lift (Undefined "sdb_state is NULL")
  | Some s =>
      match info_of type s with
      | None =>
          ereport ERRCODE_INVALID_PARAMETER_VALUE "unsupported connector type"
      | Some info =>
          (* an active state change request is currently in progress *)
          if negb (ConnectorState_eqb (reqstate (req info)) STATE_UNDEF)
          then request_active connector
          else
            r <- lift (fill (req info)) ;;
            put_sdb_state (with_info type (set_req r) s) ;;;
            elog WARNING ("sent " ++ sent ++ " request interrupt to dbz connector ("
                          ++ connector ++ ")") ;;;
            ret 0
      end
  end.

Definition synchdb_pause_engine (segment : option SynchdbSharedState)
  (fresh : SynchdbSharedState) (connector : string) : M Z :=
  type <- attach_to_worker segment fresh connector ;;
  post_request connector type
    (fun r => Ret (mk_req STATE_PAUSED (reqdata r))) "pause".

Definition synchdb_resume_engine (segment : option SynchdbSharedState)
  (fresh : SynchdbSharedState) (connector : string) : M Z :=
  type <- attach_to_worker segment fresh connector ;;
  post_request connector type
    (fun r => Ret (mk_req STATE_SYNCING (reqdata r))) "resume".

(** [strncpy(req->reqdata, offsetstr, SYNCHDB_ERRMSG_SIZE)] writes no
    terminating NUL when the text has that many characters or more; what
    [reqdata] then holds is not a C string. *)
Definition synchdb_set_offset (segment : option SynchdbSharedState)
  (fresh : SynchdbSharedState) (connector offsetstr : string) : M Z :=
  type <- attach_to_worker segment fresh connector ;;
  currstate <- get_shm_connector_state_enum type ;;
  if negb (ConnectorState_eqb currstate STATE_PAUSED) then
    ereport ERRCODE_INTERNAL_ERROR
      ("dbz connector (" ++ connector ++ ") is not in paused state.")
  else
    post_request connector type
      (fun _ =>
         if Nat.leb SYNCHDB_ERRMSG_SIZE (String.length offsetstr)
         then Undefined "reqdata is left without a terminating NUL"
         else Ret (mk_req STATE_OFFSET_UPDATE offsetstr))
      "update offset".

Definition synchdb_stop_engine_bgw (segment : option SynchdbSharedState)
  (fresh : SynchdbSharedState) (connector : string) : M Z :=
  let type := fc_get_connector_type connector in
  match type with
  | TYPE_UNDEF =>
      ereport ERRCODE_INVALID_PARAMETER_VALUE "unsupported connector type"
  | _ =>
      synchdb_init_shmem segment fresh ;;;
      s <- get_sdb_state ;;
      match s with
      | None => ereport ERRCODE_INTERNAL_ERROR
                  "failed to init or attach to synchdb shared memory"
      | Some _ =>
          p <- get_shm_connector_pid type ;;
          if negb (p =? InvalidPid) then
            elog WARNING ("terminating dbz connector (" ++ type_number type ++
                          ") with pid " ++ C.fmt_d (C.int p)) ;;;
            call "pg_terminate_backend" [fmt_u p; "5000"] ;;;
            set_shm_connector_pid type InvalidPid ;;;
            ret 0
          else not_running connector
      end
  end.

End Synchdb.

(** ** replication_agent.c *)

Module ReplicationAgent.

Import PG.
Import Synchdb_h.
Import FormatConverter.
Import Synchdb.

Definition StartTransactionCommand : M unit :=
  call "StartTransactionCommand" [].

(** [CommitTransactionCommand]: what the transaction did to the tables
    becomes the state of the database. *)
Definition CommitTransactionCommand (rels : list (Oid * relation)) : M unit :=
  fun w =>
    (Ret tt, mk_world (sdb_state w) (myConnectorId w) rels
                      (events w ++ [Call "CommitTransactionCommand" []])%list).

Definition get_relations : M (list (Oid * relation)) :=
  fun w => (Ret (relations w), w).

Definition lookup_relation (rels : list (Oid * relation)) (tableoid : Oid)
  : option relation :=
  option_map snd (List.find (fun r => fst r =? tableoid) rels).

Fixpoint store_relation (rels : list (Oid * relation)) (tableoid : Oid)
  (rel : relation) : list (Oid * relation) :=
  match rels with
  | [] => []
  | (o, r) :: rest =>
      if o =? tableoid then (o, rel) :: rest
      else (o, r) :: store_relation rest tableoid rel
  end.

Definition table_open (rels : list (Oid * relation)) (tableoid : Oid)
  : M relation :=
  match lookup_relation rels tableoid with
  | Some rel => ret rel
  | None => ereport ERRCODE_INTERNAL_ERROR
              ("could not open relation with OID " ++ C.fmt_d tableoid)
  end.

(** The [foreach(cell, colval)] loop that turns column values into the
    fields of a slot: field [i] is set from value [i]; the fields behind
    the last value stay as they were. *)
Fixpoint fill_slot (X : executor) (atttypmods : list Z)
  (colvals : list PG_DML_COLUMN_VALUE) (slot : tuple) : outcome tuple :=
  match colvals with
  | [] => Ret slot
  | colval :: colvals' =>
      match atttypmods, slot with
      | atttypmod :: atts', _ :: slot' =>
          f <~ (if C.strcaseeq (pg_value colval) "NULL" then Ret Null
                else
                  d <~ OidInputFunctionCall X (pg_datatype colval)
                         (pg_value colval) atttypmod ;;
                  Ret (Datum d)) ;;
          rest <~ fill_slot X atts' colvals' slot' ;;
          Ret (f :: rest)
      | _, _ => Undefined "attribute number beyond the tuple descriptor"
      end
  end.

(** A slot as [ExecInitExtraTupleSlot] allocates it. *)
Definition new_slot (rel : relation) : tuple :=
  List.map (fun _ => Unset) (rel_atttypmod rel).

(** The PG_CATCH block of the three handlers. *)
Definition save_error (tableoid : Oid) (type : ConnectorType) (message : string)
  : M unit :=
  set_shm_connector_errmsg type
    (Some (C.snprintf SYNCHDB_ERRMSG_SIZE
             ("table " ++ C.fmt_d (C.int tableoid) ++ ": " ++ message))).

Definition spi_execute (X : executor) (query : string) (type : ConnectorType)
  : M Z :=
  try_rethrow
    (StartTransactionCommand ;;;
     rels <- get_relations ;;
     r <- lift (SPI_exec X query rels) ;;
     let '(code, rels') := r in
     if oid_in code [SPI_OK_INSERT; SPI_OK_UTILITY; SPI_OK_DELETE; SPI_OK_UPDATE]
     then
       elog WARNING ("SPI OK with ret " ++ C.fmt_d code) ;;;
       CommitTransactionCommand rels' ;;;
       ret 0
     else
       (* leaves the function from inside PG_TRY, nothing is committed *)
       elog WARNING ("SPI_exec failed: " ++ C.fmt_d code) ;;;
       ret code)
    (fun message => set_shm_connector_errmsg type (Some message)).

Definition synchdb_handle_insert (X : executor)
  (colval : list PG_DML_COLUMN_VALUE) (tableoid : Oid) (type : ConnectorType)
  : M Z :=
  try_rethrow
    (StartTransactionCommand ;;;
     rels <- get_relations ;;
     rel <- table_open rels tableoid ;;
     slot <- lift (fill_slot X (rel_atttypmod rel) colval (new_slot rel)) ;;
     rel' <- lift (ExecSimpleRelationInsert X rel slot) ;;
     CommitTransactionCommand (store_relation rels tableoid rel') ;;;
     ret 0)
    (save_error tableoid type).

(** Locating the old tuple: by the identity or primary key index when the
    relation has one, by a sequential scan otherwise. *)
Definition find_message (rel : relation) : string :=
  match rel_replident rel with
  | Some _ => "attempt to find old tuple by index"
  | None => "attempt to find old tuple by seq scan"
  end.

Definition located (X : executor) (rel : relation) (remoteslot : tuple)
  : option nat :=
  match rel_replident rel with
  | Some idxoid => RelationFindReplTupleByIndex X rel idxoid remoteslot
  | None => RelationFindReplTupleSeq X rel remoteslot
  end.

Definition find_old_tuple (X : executor) (rel : relation) (remoteslot : tuple)
  : M (option nat) :=
  elog WARNING (find_message rel) ;;;
  ret (located X rel remoteslot).

Definition synchdb_handle_update (X : executor)
  (colvalbefore colvalafter : list PG_DML_COLUMN_VALUE) (tableoid : Oid)
  (type : ConnectorType) : M Z :=
  try_rethrow
    (StartTransactionCommand ;;;
     rels <- get_relations ;;
     rel <- table_open rels tableoid ;;
     remoteslot <- lift (fill_slot X (rel_atttypmod rel) colvalbefore
                           (new_slot rel)) ;;
     found <- find_old_tuple X rel remoteslot ;;
     match found with
     | Some localslot =>
         newslot <- lift (fill_slot X (rel_atttypmod rel) colvalafter
                            remoteslot) ;;
         rel' <- lift (ExecSimpleRelationUpdate X rel localslot newslot) ;;
         CommitTransactionCommand (store_relation rels tableoid rel') ;;;
         ret 0
     | None =>
         elog WARNING "tuple to update not found" ;;;
         CommitTransactionCommand rels ;;;
         ret (-1)
     end)
    (save_error tableoid type).

Definition synchdb_handle_delete (X : executor)
  (colvalbefore : list PG_DML_COLUMN_VALUE) (tableoid : Oid)
  (type : ConnectorType) : M Z :=
  try_rethrow
    (StartTransactionCommand ;;;
     rels <- get_relations ;;
     rel <- table_open rels tableoid ;;
     remoteslot <- lift (fill_slot X (rel_atttypmod rel) colvalbefore
                           (new_slot rel)) ;;
     found <- find_old_tuple X rel remoteslot ;;
     match found with
     | Some localslot =>
         rel' <- lift (ExecSimpleRelationDelete X rel localslot) ;;
         CommitTransactionCommand (store_relation rels tableoid rel') ;;;
         ret 0
     | None =>
         elog WARNING "tuple to delete not found" ;;;
         CommitTransactionCommand rels ;;;
         ret (-1)
     end)
    (save_error tableoid type).

Definition ra_executePGDDL (X : executor) (pgddl : option PG_DDL)
  (type : ConnectorType) : M Z :=
  match pgddl with
  | Some (ddlquery text) => spi_execute X text type
  | _ => elog WARNING "Invalid DDL query" ;;; ret (-1)
  end.

Definition ra_executePGDML (E : env) (X : executor) (pgdml : option PG_DML)
  (type : ConnectorType) : M Z :=
  match pgdml with
  | None => elog WARNING "Invalid DML operation" ;;; ret (-1)
  | Some pgdml =>
      let op := pg_op pgdml in
      let spi := spi_execute X (pg_dmlquery pgdml) type in
      if orb (Ascii.eqb op "r") (Ascii.eqb op "c") then
        if synchdb_dml_use_spi E then spi
        else synchdb_handle_insert X (pg_columnValuesAfter pgdml)
               (pg_tableoid pgdml) type
      else if Ascii.eqb op "u" then
        if synchdb_dml_use_spi E then spi
        else synchdb_handle_update X (pg_columnValuesBefore pgdml)
               (pg_columnValuesAfter pgdml) (pg_tableoid pgdml) type
      else if Ascii.eqb op "d" then
        if synchdb_dml_use_spi E then spi
        else synchdb_handle_delete X (pg_columnValuesBefore pgdml)
               (pg_tableoid pgdml) type
      else
        (* all others use SPI regardless of synchdb_dml_use_spi *)
        spi
  end.

(** *** The two branches of [fc_processDBZChangeEvent]

    Both start where the event has been read into a Jsonb value and its
    connector type is known. *)

Definition my_state (st : ConnectorState) : M unit :=
  fun w => set_shm_connector_state (myConnectorId w) st w.

(** A call into the format converter.  What the converter has saved as
    the error message of this worker's connector is in the shared block
    when its error arrives. *)
Definition converter {A} (o : outcome A) : M A :=
  match o with
  | Saved errmsg msg =>
      fun w =>
        (set_shm_connector_errmsg (myConnectorId w) (Some errmsg) ;;;
         ereport ERRCODE_INTERNAL_ERROR msg) w
  | _ => lift o
  end.

(** The branch for [payload.op] absent: parse, convert, execute. *)
Definition fc_processDBZChangeEvent_ddl (E : env) (X : executor)
  (type : ConnectorType) (jb : json) : M Z :=
  elog DEBUG1 "parsing DBZ DDL change event..." ;;;
  my_state STATE_PARSING ;;;
  match parseDBZDDL jb with
  | None =>
      elog DEBUG1 "malformed DDL event" ;;;
      my_state STATE_SYNCING ;;;
      ret (-1)
  | Some dbzddl =>
      elog DEBUG1 "converting to PG DDL change event..." ;;;
      my_state STATE_CONVERTING ;;;
      pgddl <- converter (convert2PGDDL E dbzddl type) ;;
      elog DEBUG1 "executing PG DDL change event..." ;;;
      my_state STATE_EXECUTING ;;;
      r <- ra_executePGDDL X (Some pgddl) type ;;
      if negb (r =? 0) then
        elog WARNING "failed to execute PG DDL change event" ;;;
        my_state STATE_SYNCING ;;;
        ret (-1)
      else
        my_state STATE_SYNCING ;;;
        elog DEBUG1 "execution completed. Clean up..." ;;;
        ret 0
  end.

(** Steps (3) and (4) of the DML branch: the converted event is executed
    and the connector goes back to syncing. *)
Definition execute_dml_step (E : env) (X : executor) (type : ConnectorType)
  (pgdml : PG_DML) : M Z :=
  my_state STATE_EXECUTING ;;;
  elog DEBUG1 "executing PG DML change event..." ;;;
  r <- ra_executePGDML E X (Some pgdml) type ;;
  if negb (r =? 0) then
    elog WARNING "failed to execute PG DML change event" ;;;
    my_state STATE_SYNCING ;;;
    ret (-1)
  else
    my_state STATE_SYNCING ;;;
    elog DEBUG1 "execution completed. Clean up..." ;;;
    ret 0.

(** The branch for a DML event, from the result of [parseDBZDML] on. *)
Definition fc_processDBZChangeEvent_dml (E : env) (X : executor)
  (type : ConnectorType) (dbzdml : option DBZ_DML) : M Z :=
  match dbzdml with
  | None =>
      elog WARNING "malformed DNL event" ;;;
      my_state STATE_SYNCING ;;;
      ret (-1)
  | Some dbzdml =>
      my_state STATE_CONVERTING ;;;
      pgdml <- converter (convert2PGDML E dbzdml) ;;
      execute_dml_step E X type pgdml
  end.

End ReplicationAgent.

(** ** What the specification says, in its own words

    Definitions that follow the sentences of the specification, to be
    compared with the code above. *)

Module Spec.

(** "base64" of a byte array (RFC 4648, padded). *)
Definition b64_char (n : Z) : ascii :=
  if n <? 26 then ascii_of_nat (Z.to_nat (65 + n))
  else if n <? 52 then ascii_of_nat (Z.to_nat (71 + n))
  else if n <? 62 then ascii_of_nat (Z.to_nat (n - 4))
  else if n =? 62 then "+"%char
  else "/"%char.

Fixpoint base64 (bytes : list Z) : string :=
  match bytes with
  | [] => EmptyString
  | [a] =>
      String (b64_char (a / 4))
        (String (b64_char (a mod 4 * 16)) "==")
  | [a; b] =>
      String (b64_char (a / 4))
        (String (b64_char (a mod 4 * 16 + b / 16))
           (String (b64_char (b mod 16 * 4)) "="))
  | a :: b :: c :: rest =>
      String (b64_char (a / 4))
        (String (b64_char (a mod 4 * 16 + b / 16))
           (String (b64_char (b mod 16 * 4 + c / 64))
              (String (b64_char (c mod 64)) (base64 rest))))
  end.

(** "a big-endian two's-complement integer": the value of a byte array. *)
Definition step (acc b : Z) : Z := acc * 256 + b.

Definition be_unsigned (bytes : list Z) : Z := List.fold_left step bytes 0.

Definition be_signed (bytes : list Z) : Z :=
  if 128 <=? List.nth 0 bytes 0
  then be_unsigned bytes - 256 ^ Z.of_nat (List.length bytes)
  else be_unsigned bytes.

(** The shortest big-endian two's-complement byte array of an integer. *)
Fixpoint be_bytes (n : nat) (v : Z) : list Z :=
  match n with
  | O => []
  | S k => (be_bytes k (v / 256) ++ [v mod 256])%list
  end.

Fixpoint shortest_from (fuel : nat) (n : nat) (v : Z) : list Z :=
  match fuel with
  | O => be_bytes n v
  | S f =>
      if andb (- 2 ^ (8 * Z.of_nat n - 1) <=? v) (v <? 2 ^ (8 * Z.of_nat n - 1))
      then be_bytes n v
      else shortest_from f (S n) v
  end.

Definition twos_complement (v : Z) : list Z := shortest_from 16 1 v.

(** "encode(v, s)": the unscaled value, big-endian, in base64. *)
Definition encode (v : Z) : string := base64 (twos_complement v).

(** "place the decimal point scale digits from the right (inserting
    leading zeroes if the integer is shorter than scale)" *)
Definition place_point (v : Z) (scale : nat) : string :=
  let d := C.fmt_d (Z.abs v) in
  let d := C.repeat_char "0" (scale + 1 - String.length d) ++ d in
  let whole := (String.length d - scale)%nat in
  (if v <? 0 then "-" else "") ++
  String.substring 0 whole d ++
  match scale with
  | O => ""
  | _ => "." ++ String.substring whole scale d
  end.

(** "Money uses an implicit scale of 4 when no scale was provided" *)
Definition effective_scale (datatype scale : Z) : nat :=
  if 0 <? scale then Z.to_nat scale
  else if datatype =? PG.MONEYOID then 4%nat
  else 0%nat.

Definition numeric_decode (datatype scale : Z) (bytes : list Z) : string :=
  place_point (be_signed bytes) (effective_scale datatype scale).

(** "reverse to little-endian bit order -> convert to a left-zero-padded
    binary string of at least typemod digits": the bytes, last one most
    significant, as one number written in binary. *)
Fixpoint le_unsigned (bytes : list Z) : Z :=
  match bytes with
  | [] => 0
  | b :: rest => b + 256 * le_unsigned rest
  end.

Fixpoint binary_pos (p : positive) (acc : string) : string :=
  match p with
  | xH => String "1" acc
  | xO q => binary_pos q (String "0" acc)
  | xI q => binary_pos q (String "1" acc)
  end.

Definition binary (n : Z) : string :=
  match n with
  | Zpos p => binary_pos p EmptyString
  | _ => "0"
  end.

Definition pad_left (width : nat) (s : string) : string :=
  C.repeat_char "0" (width - String.length s) ++ s.

Definition bit_string (bytes : list Z) (typemod : Z) : string :=
  pad_left (Z.to_nat typemod) (binary (le_unsigned bytes)).

(** "wrap as b'...' when quoting" *)
Definition bit_literal (digits : string) : string := "b'" ++ digits ++ "'".

(** "Text-like destinations (char/varchar/text/uuid/jsonb/timestamptz
    string)" *)
Definition text_like : list Z :=
  [PG.BPCHAROID; PG.TEXTOID; PG.VARCHAROID; PG.CSTRINGOID;
   PG.TIMESTAMPTZOID; PG.JSONBOID; PG.UUIDOID].

(** "wrap in single quotes and double every embedded single quote" *)
Fixpoint double_quotes (s : string) : string :=
  match s with
  | EmptyString => EmptyString
  | String c r =>
      if Ascii.eqb c "'" then "''" ++ double_quotes r
      else String c (double_quotes r)
  end.

Definition quoted (s : string) : string := "'" ++ double_quotes s ++ "'".

(** "modulo whitespace": two statements are the same when they split into
    the same words and punctuation marks. *)
Definition is_word_char (c : ascii) : bool :=
  orb (C.isalnum c) (Ascii.eqb c "_").

Definition flush (cur : string) : list string :=
  match cur with
  | EmptyString => []
  | _ => [cur]
  end.

Fixpoint sql_tokens_from (s : string) (cur : string) : list string :=
  match s with
  | EmptyString => flush cur
  | String c r =>
      if is_word_char c then sql_tokens_from r (cur ++ String c EmptyString)
      else if C.isspace c then (flush cur ++ sql_tokens_from r EmptyString)%list
      else (flush cur ++ String c EmptyString :: sql_tokens_from r EmptyString)%list
  end.

Definition sql_tokens (s : string) : list string := sql_tokens_from s EmptyString.

Definition same_modulo_whitespace (a b : string) : Prop :=
  sql_tokens a = sql_tokens b.

(** The transitions the state machine of the supervisor allows, and the
    state a request leaves the connector in when the engine call it needs
    succeeds ([ok]) or fails. *)
Import Synchdb_h.

Definition allowed (requested current : ConnectorState) : bool :=
  match requested, current with
  | STATE_PAUSED, STATE_SYNCING => true        (* pause *)
  | STATE_SYNCING, STATE_PAUSED => true        (* resume *)
  | STATE_OFFSET_UPDATE, STATE_PAUSED => true  (* offset update *)
  | _, _ => false
  end.

Definition state_after (requested current : ConnectorState) (ok : bool)
  : ConnectorState :=
  match requested, current with
  | STATE_PAUSED, STATE_SYNCING => if ok then STATE_PAUSED else STATE_SYNCING
  | STATE_SYNCING, STATE_PAUSED => if ok then STATE_SYNCING else STATE_PAUSED
  | STATE_OFFSET_UPDATE, STATE_PAUSED => STATE_PAUSED
  | _, _ => current
  end.

(** *** Notions the properties below are stated with *)

(** An element of a decoded byte buffer. *)
Definition is_byte (b : Z) : Prop := 0 <= b < 256.

(** The number of decimal digits of an integer, its sign left out. *)
Definition digits (v : Z) : nat := String.length (C.fmt_d (Z.abs v)).

(** [v] fits a two's-complement integer of [n] bytes. *)
Definition in_range (n : nat) (v : Z) : Prop :=
  - 2 ^ (8 * Z.of_nat n - 1) <= v < 2 ^ (8 * Z.of_nat n - 1).

(** Strings of binary digits. *)
Definition is_bit (c : ascii) : bool := orb (Ascii.eqb c "0") (Ascii.eqb c "1").

Fixpoint all_bits (s : string) : bool :=
  match s with
  | EmptyString => true
  | String c r => andb (is_bit c) (all_bits r)
  end.

(** The number a digit string denotes, most significant digit first. *)
Fixpoint bits_value (acc : Z) (s : string) : Z :=
  match s with
  | EmptyString => acc
  | String c r => bits_value (2 * acc + (if Ascii.eqb c "1" then 1 else 0)) r
  end.

(** The digits of [s] appended to the binary numeral of [p]. *)
Fixpoint append_bits (p : positive) (s : string) : positive :=
  match s with
  | EmptyString => p
  | String c r => append_bits (if Ascii.eqb c "1" then xI p else xO p) r
  end.

(** Reading the body of a quoted SQL literal back: two quotes stand for
    one. *)
Fixpoint undouble (s : string) : string :=
  match s with
  | EmptyString => EmptyString
  | String c r =>
      if Ascii.eqb c "'" then
        match r with
        | String c' r' =>
            if Ascii.eqb c' "'" then String "'" (undouble r')
            else String c (undouble r)
        | EmptyString => String c EmptyString
        end
      else String c (undouble r)
  end.

(** Reading hexadecimal digits back, two per byte. *)
Definition hex_value (c : ascii) : Z :=
  let n := Z.of_nat (nat_of_ascii c) in
  if n <? 58 then n - 48 else n - 55.

Fixpoint from_hex (s : string) : list Z :=
  match s with
  | String a (String b r) => (hex_value a * 16 + hex_value b) :: from_hex r
  | _ => []
  end.

(** A member of a column object whose value is a scalar or an array of
    scalars, and the column a list of such members describes: every scalar
    member is consumed in turn, arrays are passed over. *)
Definition flat_member (kv : string * FormatConverter.json) : bool :=
  match snd kv with
  | FormatConverter.JArray elems => List.forallb FormatConverter.is_scalar elems
  | FormatConverter.JObject _ => false
  | _ => true
  end.

Definition member_step (c : FormatConverter.DBZ_DDL_COLUMN)
  (kv : string * FormatConverter.json) : FormatConverter.DBZ_DDL_COLUMN :=
  match FormatConverter.scalar_text (snd kv) with
  | Some text => FormatConverter.consume (fst kv) text c
  | None => c
  end.

Definition column_of (members : list (string * FormatConverter.json))
  : FormatConverter.DBZ_DDL_COLUMN :=
  List.fold_left member_step members FormatConverter.empty_column.

(** A step of a worker that, when it returns, has left the shared block
    and the identity of the worker as they were. *)
Definition keeps_shared {A} (c : Synchdb.M A) : Prop :=
  forall w r w',
    c w = (Ret r, w') ->
    Synchdb.sdb_state w' = Synchdb.sdb_state w /\
    Synchdb.myConnectorId w' = Synchdb.myConnectorId w.

(** The state of the column loop of [parseDBZDDL] while the column [c] is
    being filled, behind the columns of [store]. *)
Definition filling (store : list FormatConverter.DBZ_DDL_COLUMN)
  (cols : list nat) (c : FormatConverter.DBZ_DDL_COLUMN)
  : FormatConverter.parse_state :=
  FormatConverter.mk_ps (store ++ [c]) (Some (List.length store)) cols
                        None None false.

End Spec.

(** ** Inputs of the end-to-end scenarios *)

Module Scenario.

Import PG.
Import Synchdb_h.
Import FormatConverter.

(** A converter started for MySQL with no rule file: the built-in type
    table, no object map, no transform expressions. *)
Definition mysql_env (printf_g : Z -> Z -> string) (mktime_epoch : Z)
  (strftime_Y : Z -> string)
  (jsonb_path_text : string -> string -> outcome string)
  (ra_transform : string -> option string -> option string -> string
                  -> outcome (option string))
  (use_spi : bool) : env :=
  mk_env printf_g mktime_epoch strftime_Y jsonb_path_text ra_transform
         None None init_mysql init_sqlserver use_spi.

(** One such converter, for running examples: UTC, four-digit years. *)
Definition plain_env (use_spi : bool) : env :=
  mysql_env (fun _ _ => "") 0 (C.fmt_0d 4)
            (fun _ _ => elog_ERROR "invalid input syntax for type json")
            (fun _ _ _ _ => Ret None) use_spi.

(** Scenario 1, the MySQL create event. *)
Definition create_orders : json :=
  JObject [("payload", JObject [("tableChanges", JArray [JObject [
    ("id", JString "inv.orders");
    ("type", JString "CREATE");
    ("table", JObject [
       ("primaryKeyColumnNames", JArray [JString "order_number"]);
       ("columns", JArray [
          JObject [("name", JString "order_number");
                   ("typeName", JString "INT");
                   ("optional", JBool false);
                   ("autoIncremented", JBool true);
                   ("position", JNumeric "1")];
          JObject [("name", JString "quantity");
                   ("typeName", JString "INT");
                   ("optional", JBool false);
                   ("position", JNumeric "2")];
          JObject [("name", JString "product");
                   ("typeName", JString "VARCHAR");
                   ("length", JNumeric "64");
                   ("optional", JBool true);
                   ("position", JNumeric "3")]])])]])])].

Definition create_orders_expected : string :=
  "CREATE SCHEMA IF NOT EXISTS inv; CREATE TABLE IF NOT EXISTS inv.orders ( order_number SERIAL NOT NULL , quantity INT NOT NULL , product VARCHAR(64) , PRIMARY KEY(order_number));".

(** What the translator writes for it. *)
Definition create_orders_emitted : string :=
  "CREATE SCHEMA IF NOT EXISTS inv; CREATE TABLE IF NOT EXISTS inv.orders ( order_number SERIAL NOT NULL , quantity INT NOT NULL , product VARCHAR (64) , PRIMARY KEY(order_number));".

(** Scenario 2, the MySQL insert, as [parseDBZDML] hands it over. *)
Definition column (name value : string) (datatype : Oid) (position : Z)
  : DBZ_DML_COLUMN_VALUE :=
  mk_colval name (Some name) (Some value) datatype position 0 TIME_UNDEF (-1).

Definition insert_order : DBZ_DML :=
  mk_dbzdml "c" 16385 (Some "inv.orders") "inv.orders" []
    [column "order_number" "10001" INT4OID 1;
     column "quantity" "2" INT4OID 2;
     column "product" "widget" VARCHAROID 3].

(** Scenario 3, the timestamp. *)
Definition timestamp_value : DBZ_DML_COLUMN_VALUE :=
  mk_colval "ts" (Some "ts") (Some "1707000000000") TIMESTAMPOID 1 0
            TIME_TIMESTAMP 3.

(** Scenario 4, the numeric. *)
Definition numeric_value (raw : string) (scale : Z) : DBZ_DML_COLUMN_VALUE :=
  mk_colval "amount" (Some "amount") (Some raw) NUMERICOID 1 scale TIME_UNDEF (-1).

Definition bit_value (raw : string) (typemod : Z) : DBZ_DML_COLUMN_VALUE :=
  mk_colval "flags" (Some "flags") (Some raw) BITOID 1 0 TIME_UNDEF typemod.

(** The product column of scenario 2 with an empty raw value. *)
Definition empty_product : DBZ_DML_COLUMN_VALUE :=
  mk_colval "product" (Some "product") (Some "") VARCHAROID 3 0 TIME_UNDEF (-1).

(** An executor for running examples: every datum is its input text, rows
    are appended as they come, and no lookup ever finds a row. *)
Definition text_executor : executor :=
  mk_executor (fun _ v _ => Ret v) (fun _ _ _ => None) (fun _ _ => None)
    (fun rel t => Ret (mk_rel (rel_atttypmod rel) (rel_replident rel)
                              (rel_rows rel ++ [t])%list))
    (fun rel _ _ => Ret rel) (fun rel _ => Ret rel)
    (fun _ rels => Ret (SPI_OK_UTILITY, rels)).

(** An executor that looks rows up: by the first column when an index is
    used, by all columns on a sequential scan; NULL matches nothing in an
    index and only NULL in a scan. *)
Definition datum_eqb (a b : field) : bool :=
  match a, b with
  | Datum x, Datum y => String.eqb x y
  | _, _ => false
  end.

Definition field_eqb (a b : field) : bool :=
  match a, b with
  | Null, Null => true
  | _, _ => datum_eqb a b
  end.

Fixpoint tuple_eqb (a b : tuple) : bool :=
  match a, b with
  | [], [] => true
  | x :: a', y :: b' => andb (field_eqb x y) (tuple_eqb a' b')
  | _, _ => false
  end.

Fixpoint position_of (p : tuple -> bool) (rows : list tuple) (i : nat)
  : option nat :=
  match rows with
  | [] => None
  | r :: rest => if p r then Some i else position_of p rest (S i)
  end.

Fixpoint replace_row (n : nat) (t : tuple) (rows : list tuple) : list tuple :=
  match rows, n with
  | [], _ => []
  | _ :: rest, O => t :: rest
  | r :: rest, S k => r :: replace_row k t rest
  end.

Fixpoint remove_row (n : nat) (rows : list tuple) : list tuple :=
  match rows, n with
  | [], _ => []
  | _ :: rest, O => rest
  | r :: rest, S k => r :: remove_row k rest
  end.

Definition with_rows (rel : relation) (rows : list tuple) : relation :=
  mk_rel (rel_atttypmod rel) (rel_replident rel) rows.

Definition keyed_executor : executor :=
  mk_executor
    (fun _ v _ => Ret v)
    (fun rel _ slot =>
       position_of (fun r => datum_eqb (List.hd Null r) (List.hd Null slot))
                   (rel_rows rel) 0)
    (fun rel slot => position_of (tuple_eqb slot) (rel_rows rel) 0)
    (fun rel t => Ret (with_rows rel (rel_rows rel ++ [t])%list))
    (fun rel n t => Ret (with_rows rel (replace_row n t (rel_rows rel))))
    (fun rel n => Ret (with_rows rel (remove_row n (rel_rows rel))))
    (fun _ rels => Ret (SPI_OK_UTILITY, rels)).

(** An update of order 10001 / 10002 to three widgets, as converted for
    the heap path. *)
Definition update_order (order_number : string) : PG_DML :=
  mk_pgdml "u" 16385 ""
    [mk_pgcolval order_number INT4OID 1; mk_pgcolval "2" INT4OID 2;
     mk_pgcolval "widget" VARCHAROID 3]
    [mk_pgcolval order_number INT4OID 1; mk_pgcolval "3" INT4OID 2;
     mk_pgcolval "widget" VARCHAROID 3].

(** A host whose Java runner and postmaster answer as told. *)
Definition a_host (stop start set_offset : Z) : Synchdb.host :=
  Synchdb.mk_host "pg_synchdb/mysql_offsets.dat" "pg_synchdb/oracle_offsets.dat"
    "pg_synchdb/sqlserver_offsets.dat" stop start set_offset true BGWH_STARTED
    false.

(** A text argument written as a literal in the call (4-byte header), and
    one read from a column of a table (1-byte header); zero bytes follow
    either in memory. *)
Definition literal (s : string) : text := mk_text false s (fun _ => 0).
Definition from_column (s : string) : text := mk_text true s (fun _ => 0).

Definition idle (st : ConnectorState) : ConnectorInfo :=
  mk_info 4711 st (mk_req STATE_UNDEF "") "" "inventory" "postgres".

Definition requested (st rq : ConnectorState) (data : string) : ConnectorInfo :=
  mk_info 4711 st (mk_req rq data) "" "inventory" "postgres".

(** A worker for MySQL whose connector is in state [st] with request [rq]
    pending, and an [orders] table with one row and a primary key. *)
Definition orders : relation :=
  mk_rel [-1; -1; 68] (Some 16390) [[Datum "10001"; Datum "2"; Datum "widget"]].

Definition mysql_worker (st rq : ConnectorState) (data : string) : Synchdb.world :=
  Synchdb.mk_world
    (Some (mk_shared (requested st rq data) (idle STATE_STOPPED)
                     (idle STATE_STOPPED)))
    TYPE_MYSQL [(16385, orders)] [].

Definition a_conninfo : Synchdb.ConnectionInfo :=
  Synchdb.mk_conninfo "127.0.0.1" 3306 "mysqluser" "mysqlpwd" "inventory"
                      "postgres" "null".

End Scenario.

(** * Properties *)

Import PG.
Import Synchdb_h.
Import FormatConverter.
Import Synchdb.
Import ReplicationAgent.

(** ** DDL translation *)

Example mysql_table_sizes :
  List.length init_mysql = 58%nat /\ List.length init_sqlserver = 35%nat.
Proof. split; reflexivity. Qed.

Example varchar_has_no_mysql_entry :
  hash_find_datatype init_mysql (mk_dtkey "VARCHAR" false) = None.
Proof. reflexivity. Qed.

(** C1: the MySQL create event of scenario 1, parsed and translated with no
    user rules loaded, gives the statement the specification expects up to
    whitespace: the only difference is the blank the translator leaves
    between VARCHAR and (64). *)
Theorem C1_mysql_create_statement :
  forall printf_g tz strftime_Y jsonb_path ra_transform use_spi,
    let E := Scenario.mysql_env printf_g tz strftime_Y jsonb_path ra_transform
                                use_spi in
    exists dbzddl,
      parseDBZDDL Scenario.create_orders = Some dbzddl /\
      convert2PGDDL E dbzddl TYPE_MYSQL
        = Ret (ddlquery Scenario.create_orders_emitted) /\
      Spec.same_modulo_whitespace Scenario.create_orders_emitted
                                  Scenario.create_orders_expected.
Proof.
  intros. eexists. split; [reflexivity|]. split.
  - vm_compute. reflexivity.
  - vm_compute. reflexivity.
Qed.

(** ** Timestamps *)

Example gmtime_known_instants :
  C.gmtime 0 = Some (C.mk_tm 70 0 1 0 0 0) /\
  C.gmtime 951782400 = Some (C.mk_tm 100 1 29 0 0 0) /\
  C.gmtime (-1) = Some (C.mk_tm 69 11 31 23 59 59) /\
  C.gmtime 1700000000 = Some (C.mk_tm 123 10 14 22 13 20).
Proof. repeat split; reflexivity. Qed.

(** C7, as the specification words it, does not hold: the decoder does not
    produce '2024-02-03T23:00:00.000000' for 1707000000000 ms. *)
Lemma C7_timestamp_not_2300 :
  processDataByType (Scenario.plain_env false) Scenario.timestamp_value true None
  <> Ret (Some "'2024-02-03T23:00:00.000000'").
Proof. vm_compute. discriminate. Qed.

(** C7, amended: 1707000000000 ms after the epoch with typemod 3 decodes,
    quoted, to '2024-02-03T22:40:00.000000' (1707000000 s is 22:40:00 UTC
    on 3 February 2024), whatever the environment, as long as no transform
    expression is loaded. *)
Theorem C7_timestamp_literal :
  forall printf_g tz strftime_Y jsonb_path ra_transform use_spi objid,
    processDataByType
      (Scenario.mysql_env printf_g tz strftime_Y jsonb_path ra_transform use_spi)
      Scenario.timestamp_value true objid
    = Ret (Some "'2024-02-03T22:40:00.000000'").
Proof. intros. vm_compute. reflexivity. Qed.

(** ** Text-like values *)

Lemma oid_in_cases : forall o labels,
  oid_in o labels = true -> List.In o labels.
Proof.
  intros o labels H. unfold oid_in in H.
  apply List.existsb_exists in H. destruct H as [x [Hin Heq]].
  apply Z.eqb_eq in Heq. subst. exact Hin.
Qed.

Lemma strlen_zero_iff : forall s, (C.strlen s =? 0) = true <-> s = "".
Proof.
  intros s. unfold C.strlen. rewrite Z.eqb_eq. destruct s; simpl; split; intros H.
  - reflexivity.
  - reflexivity.
  - lia.
  - discriminate.
Qed.

Lemma strlen_nonempty : forall s, s <> "" -> (C.strlen s =? 0) = false.
Proof.
  intros s H. destruct (C.strlen s =? 0) eqn:E; [|reflexivity].
  apply strlen_zero_iff in E. contradiction.
Qed.

(** The function the translator calls for quoting does what the
    specification asks of the quoted form. *)
Lemma escapeSingleQuote_quoted : forall s,
  escapeSingleQuote s true = Spec.quoted s.
Proof.
  intros s. unfold escapeSingleQuote, Spec.quoted.
  assert (H : escape_quotes s = Spec.double_quotes s).
  { induction s as [|c r IH]; simpl; [reflexivity|].
    destruct (Ascii.eqb c "'"); simpl; rewrite IH; reflexivity. }
  rewrite H. reflexivity.
Qed.

(** Without quoting, a text-like value passes through unchanged. *)
Lemma text_unquoted_passes_through :
  forall E cv raw objid,
    colval_value cv = Some raw ->
    raw <> "" ->
    C.strcaseeq raw "NULL" = false ->
    List.In (colval_datatype cv) Spec.text_like ->
    transform_data_expression E objid (colval_remoteColumnName cv) = None ->
    processDataByType E cv false objid = Ret (Some raw).
Proof.
  intros E cv raw objid Hv Hne Hnull Hdt Htr.
  unfold processDataByType. rewrite Hv, (strlen_nonempty _ Hne), Hnull.
  unfold processDataByType_switch.
  simpl in Hdt.
  repeat (destruct Hdt as [Hdt|Hdt];
          [rewrite <- Hdt; simpl; unfold transform_out; rewrite Htr; reflexivity|]).
  contradiction.
Qed.

(** With quoting, the quoted text is computed and then lost: the decoder
    returns NULL for every text-like value. *)
Lemma text_quoted_is_lost :
  forall E cv raw objid,
    colval_value cv = Some raw ->
    raw <> "" ->
    C.strcaseeq raw "NULL" = false ->
    List.In (colval_datatype cv) Spec.text_like ->
    transform_data_expression E objid (colval_remoteColumnName cv) = None ->
    processDataByType E cv true objid = Ret None.
Proof.
  intros E cv raw objid Hv Hne Hnull Hdt Htr.
  unfold processDataByType. rewrite Hv, (strlen_nonempty _ Hne), Hnull.
  unfold processDataByType_switch.
  simpl in Hdt.
  repeat (destruct Hdt as [Hdt|Hdt];
          [rewrite <- Hdt; simpl; unfold transform_out; rewrite Htr; reflexivity|]).
  contradiction.
Qed.

(** C2 at the insert of scenario 2: with quoting requested, the value
    widget of the varchar column comes back as NULL instead of 'widget',
    and the INSERT statement carries null in its place. *)
Theorem C2_quoted_text_comes_back_null :
  forall printf_g tz strftime_Y jsonb_path ra_transform,
    let E := Scenario.mysql_env printf_g tz strftime_Y jsonb_path ra_transform
                                true in
    processDataByType E (Scenario.column "product" "widget" VARCHAROID 3) true
                      (Some "inv.orders") = Ret None /\
    Spec.quoted "widget" = "'widget'" /\
    convert2PGDML E Scenario.insert_order
    = Ret (mk_pgdml "c" 16385
             "INSERT INTO inv.orders(order_number,quantity,product) VALUES (10001,2,null);"
             [] []).
Proof. intros. repeat split; vm_compute; reflexivity. Qed.

(** ** Numeric and money values *)

(** *** Bytes *)

Lemma land_255_byte : forall x, Spec.is_byte (Z.land x 255).
Proof.
  intros x. unfold Spec.is_byte.
  change 255 with (Z.ones 8). rewrite Z.land_ones by lia.
  apply Z.mod_pos_bound. lia.
Qed.

Lemma b64_loop_bytes : forall src dstlen buf pos fin dst out,
  List.Forall Spec.is_byte dst ->
  b64_loop src dstlen buf pos fin dst = Some out ->
  List.Forall Spec.is_byte out.
Proof.
  induction src as [|c rest IH]; intros dstlen buf pos fin dst out Hdst Hrun;
    cbn [b64_loop] in Hrun.
  - destruct (pos =? 0); [|discriminate]. injection Hrun as <-. exact Hdst.
  - destruct (b64_symbol c pos fin) as [[b fin']|]; [|discriminate].
    destruct (pos + 1 =? 4).
    + match type of Hrun with
      | (if ?c then _ else _) = _ => destruct c; [|discriminate]
      end.
      apply IH in Hrun; [exact Hrun|].
      repeat match goal with
             | |- List.Forall _ (if ?c then _ else _) => destruct c
             | |- List.Forall _ (_ ++ _) => apply List.Forall_app; split
             | |- List.Forall _ [_] => constructor; [apply land_255_byte|constructor]
             end; assumption.
    + apply IH in Hrun; assumption.
Qed.

Lemma pg_b64_decode_bytes : forall src dstlen out,
  pg_b64_decode src dstlen = Some out -> List.Forall Spec.is_byte out.
Proof.
  intros src dstlen out H. unfold pg_b64_decode in H.
  eapply b64_loop_bytes; [|exact H]. constructor.
Qed.

Lemma long_small : forall z, 0 <= z < 2 ^ 63 -> C.long z = z.
Proof.
  intros z Hz. unfold C.long, C.wrap.
  rewrite Z.mod_small by lia.
  destruct (z <? 2 ^ (64 - 1)) eqn:E; [reflexivity|].
  apply Z.ltb_ge in E. simpl in E. lia.
Qed.

Lemma lor_is_add : forall a b, Z.land a b = 0 -> Z.lor a b = a + b.
Proof.
  intros a b H. rewrite Z.add_nocarry_lxor by exact H.
  symmetry. apply Z.lxor_lor. exact H.
Qed.

Lemma lor_shift_byte : forall a b,
  0 <= a -> Spec.is_byte b -> Z.lor (Z.shiftl a 8) b = a * 256 + b.
Proof.
  intros a b Ha [Hb0 Hb1].
  rewrite Z.shiftl_mul_pow2 by lia. change (2 ^ 8) with 256.
  apply lor_is_add.
  apply Z.bits_inj'. intros n Hn.
  rewrite Z.land_spec, Z.bits_0.
  destruct (Z.ltb n 8) eqn:E.
  - apply Z.ltb_lt in E.
    replace (a * 256) with (a * 2 ^ 8) by reflexivity.
    rewrite Z.mul_pow2_bits_low by lia. reflexivity.
  - apply Z.ltb_ge in E.
    assert (Z.testbit b n = false).
    { destruct (Z.eq_dec b 0) as [->|Hne]; [apply Z.bits_0|].
      apply Z.bits_above_log2; [lia|].
      assert (Z.log2 b < 8); [|lia].
      apply Z.log2_lt_pow2; lia. }
    rewrite H. apply Bool.andb_false_r.
Qed.

Lemma fold_step_ge : forall bs acc,
  List.Forall Spec.is_byte bs -> 0 <= acc -> acc <= List.fold_left Spec.step bs acc.
Proof.
  induction bs as [|b bs IH]; intros acc Hbs Hacc; simpl; [lia|].
  inversion Hbs as [|? ? Hb Hrest]; subst. unfold Spec.is_byte in Hb.
  specialize (IH (Spec.step acc b) Hrest). unfold Spec.step in *. lia.
Qed.

Lemma derive_loop_fold : forall bs acc,
  List.Forall Spec.is_byte bs ->
  0 <= acc ->
  List.fold_left Spec.step bs acc < 2 ^ 63 ->
  derive_loop bs (List.length bs) acc = List.fold_left Spec.step bs acc.
Proof.
  induction bs as [|b bs IH]; intros acc Hbs Hacc Hlt;
    cbn [derive_loop List.length List.fold_left] in *; [reflexivity|].
  inversion Hbs as [|? ? Hb Hrest]; subst.
  assert (Hstep : 0 <= Spec.step acc b) by (unfold Spec.step, Spec.is_byte in *; lia).
  pose proof (fold_step_ge bs (Spec.step acc b) Hrest Hstep) as Hge.
  assert (Hsh : C.long (Z.shiftl acc 8) = Z.shiftl acc 8).
  { apply long_small. rewrite Z.shiftl_mul_pow2 by lia.
    unfold Spec.step, Spec.is_byte in *. change (2 ^ 8) with 256. lia. }
  rewrite Hsh, lor_shift_byte by assumption.
  rewrite long_small by (unfold Spec.step in *; lia).
  apply IH; assumption.
Qed.

Lemma fold_step_bound : forall bs acc,
  List.Forall Spec.is_byte bs -> 0 <= acc ->
  List.fold_left Spec.step bs acc
  < (acc + 1) * 256 ^ Z.of_nat (List.length bs).
Proof.
  induction bs as [|b bs IH]; intros acc Hbs Hacc.
  - simpl. lia.
  - inversion Hbs as [|? ? Hb Hrest]; subst.
    cbn [List.fold_left List.length].
    assert (Hstep : 0 <= Spec.step acc b) by (unfold Spec.step, Spec.is_byte in *; lia).
    specialize (IH (Spec.step acc b) Hrest Hstep).
    rewrite Nat2Z.inj_succ, Z.pow_succ_r by lia.
    unfold Spec.step, Spec.is_byte in *.
    assert (0 < 256 ^ Z.of_nat (List.length bs)) by (apply Z.pow_pos_nonneg; lia).
    nia.
Qed.

Lemma be_unsigned_fold : forall bs, Spec.be_unsigned bs = List.fold_left Spec.step bs 0.
Proof. reflexivity. Qed.

Lemma lor_neg_pow2 : forall u k,
  0 <= k -> 0 <= u < 2 ^ k -> Z.lor u (- 2 ^ k) = u - 2 ^ k.
Proof.
  intros u k Hk Hu.
  replace (u - 2 ^ k) with (u + - 2 ^ k) by lia.
  apply lor_is_add.
  apply Z.bits_inj'. intros n Hn.
  rewrite Z.land_spec, Z.bits_0.
  destruct (Z.ltb n k) eqn:E.
  - apply Z.ltb_lt in E.
    replace (- 2 ^ k) with ((-1) * 2 ^ k) by lia.
    rewrite Z.mul_pow2_bits_low by lia. apply Bool.andb_false_r.
  - apply Z.ltb_ge in E.
    assert (Z.testbit u n = false).
    { destruct (Z.eq_dec u 0) as [->|Hne]; [apply Z.bits_0|].
      apply Z.bits_above_log2; [lia|].
      assert (Z.log2 u < k); [|lia].
      apply Z.log2_lt_pow2; lia. }
    rewrite H. reflexivity.
Qed.

Lemma byte_msb : forall b, Spec.is_byte b -> (Z.land b 128 =? 0) = (b <? 128).
Proof.
  intros b [Hb0 Hb1].
  assert (Hall : List.forallb
                   (fun n => Bool.eqb (Z.land (Z.of_nat n) 128 =? 0)
                                      (Z.of_nat n <? 128))
                   (List.seq 0 256) = true) by (vm_compute; reflexivity).
  rewrite List.forallb_forall in Hall.
  specialize (Hall (Z.to_nat b)).
  rewrite Z2Nat.id in Hall by lia.
  apply Bool.eqb_prop. apply Hall. apply List.in_seq. lia.
Qed.

Lemma pow256 : forall n, 0 <= n -> 256 ^ n = 2 ^ (8 * n).
Proof.
  intros n Hn. change 256 with (2 ^ 8). rewrite <- Z.pow_mul_r by lia. reflexivity.
Qed.

(** The value the code derives is the signed value of the bytes, for one
    to eight bytes; eight bytes only when the sign bit is clear. *)
Lemma derive_value_is_signed : forall bytes,
  List.Forall Spec.is_byte bytes ->
  (1 <= List.length bytes <= 8)%nat ->
  (List.length bytes = 8%nat -> List.nth 0 bytes 0 < 128) ->
  derive_value_from_byte bytes (Z.of_nat (List.length bytes))
  = Ret (Spec.be_signed bytes).
Proof.
  intros bytes Hbytes Hlen Hmsb.
  unfold derive_value_from_byte, Spec.be_signed.
  rewrite Nat2Z.id.
  assert (Hb0 : Spec.is_byte (List.nth 0 bytes 0)).
  { destruct bytes as [|b rest]; [simpl in Hlen; lia|].
    inversion Hbytes; assumption. }
  rewrite (byte_msb _ Hb0).
  pose proof (fold_step_bound bytes 0 Hbytes ltac:(lia)) as Hbound.
  rewrite Z.add_0_l, Z.mul_1_l in Hbound.
  pose proof (fold_step_ge bytes 0 Hbytes ltac:(lia)) as Hge.
  assert (Hlt63 : List.fold_left Spec.step bytes 0 < 2 ^ 63).
  { destruct (Nat.eq_dec (List.length bytes) 8) as [E8|N8].
    - specialize (Hmsb E8).
      destruct bytes as [|b rest]; [simpl in Hlen; lia|].
      simpl in Hmsb. cbn [List.fold_left].
      inversion Hbytes as [|? ? Hb Hrest]; subst.
      assert (Hs : 0 <= Spec.step 0 b) by (unfold Spec.step, Spec.is_byte in *; lia).
      pose proof (fold_step_bound rest (Spec.step 0 b) Hrest Hs) as Hb2.
      simpl in E8. injection E8 as E7. rewrite E7 in Hb2.
      unfold Spec.step in *. change (256 ^ Z.of_nat 7) with (2 ^ 56) in Hb2.
      change (2 ^ 63) with (128 * 2 ^ 56). nia.
    - assert (Hl7 : Z.of_nat (List.length bytes) <= 7) by lia.
      assert (256 ^ Z.of_nat (List.length bytes) <= 256 ^ 7)
        by (apply Z.pow_le_mono_r; lia).
      change (256 ^ 7) with (2 ^ 56) in H. change (2 ^ 63) with (128 * 2 ^ 56).
      lia. }
  rewrite derive_loop_fold by (assumption || lia).
  rewrite be_unsigned_fold.
  destruct (List.nth 0 bytes 0 <? 128) eqn:Emsb.
  - simpl. apply Z.ltb_lt in Emsb.
    destruct (128 <=? List.nth 0 bytes 0) eqn:E2; [apply Z.leb_le in E2; lia|].
    reflexivity.
  - simpl. apply Z.ltb_ge in Emsb.
    destruct (128 <=? List.nth 0 bytes 0) eqn:E2; [|apply Z.leb_gt in E2; lia].
    assert (Hn8 : List.length bytes <> 8%nat) by (intros E; specialize (Hmsb E); lia).
    assert (Hc : andb (0 <=? Z.of_nat (List.length bytes) * 8)
                      (Z.of_nat (List.length bytes) * 8 <? 64) = true).
    { apply Bool.andb_true_iff. split; [apply Z.leb_le|apply Z.ltb_lt]; lia. }
    rewrite Hc. f_equal.
    rewrite Z.shiftl_1_l.
    rewrite pow256 by lia.
    replace (Z.of_nat (List.length bytes) * 8) with (8 * Z.of_nat (List.length bytes)) by lia.
    apply lor_neg_pow2; [lia|].
    rewrite <- pow256 by lia. lia.
Qed.

(** *** Strings *)

Lemma length_append : forall a b,
  String.length (a ++ b) = (String.length a + String.length b)%nat.
Proof. induction a as [|c a IH]; intros b; simpl; [reflexivity|]. rewrite IH. reflexivity. Qed.

Lemma append_empty : forall s, s ++ "" = s.
Proof. induction s as [|c s IH]; simpl; [reflexivity|]. rewrite IH. reflexivity. Qed.

Lemma substring_all : forall s, String.substring 0 (String.length s) s = s.
Proof. induction s as [|c s IH]; simpl; [reflexivity|]. rewrite IH. reflexivity. Qed.

Lemma fmt_d_neg : forall p, C.fmt_d (Zneg p) = String "-" (C.fmt_d (Zpos p)).
Proof. reflexivity. Qed.

Lemma string_of_uint_empty : forall d,
  NilEmpty.string_of_uint d = "" -> d = Decimal.Nil.
Proof. destruct d; simpl; intros H; try discriminate; reflexivity. Qed.

Lemma fmt_d_nonempty : forall v, 0 <= v -> (1 <= String.length (C.fmt_d v))%nat.
Proof.
  intros v Hv. destruct v as [|p|p]; [simpl; lia| |lia].
  unfold C.fmt_d. simpl.
  destruct (NilEmpty.string_of_uint (Pos.to_uint p)) eqn:E; [|simpl; lia].
  apply string_of_uint_empty in E.
  exfalso. exact (Unsigned.to_uint_nonnil p E).
Qed.

Lemma fmt_d_abs : forall v,
  C.fmt_d v = (if v <? 0 then "-" else "") ++ C.fmt_d (Z.abs v).
Proof. intros [|p|p]; reflexivity. Qed.

(** What the copy-with-a-point block writes when the buffer is longer than
    the scale, or as long and without a sign. *)
Lemma place_decimal_point_spec : forall E v scale,
  (0 < scale)%nat ->
  ((scale < String.length (C.fmt_d (Z.abs v)))%nat \/
   (scale = String.length (C.fmt_d (Z.abs v)) /\ 0 <= v)) ->
  place_decimal_point E (C.fmt_d v) v (Z.of_nat scale) = Spec.place_point v scale.
Proof.
  intros E v scale Hs Hcase.
  unfold place_decimal_point, Spec.place_point, C.strlen.
  rewrite (fmt_d_abs v).
  remember (C.fmt_d (Z.abs v)) as d eqn:Hd.
  remember (String.length d) as n eqn:Hn.
  destruct Hcase as [Hlt | [Heq Hv]].
  - replace (scale + 1 - n)%nat with 0%nat by lia. cbn [C.repeat_char append].
    rewrite <- Hn.
    destruct (v <? 0) eqn:Ev.
    + cbn [append String.length]. rewrite <- Hn.
      assert (Hc : (Z.of_nat scale <? Z.of_nat (S n)) = true) by (apply Z.ltb_lt; lia).
      rewrite Hc.
      replace (Z.to_nat (Z.of_nat (S n) - Z.of_nat scale)) with (S (n - scale)) by lia.
      cbn [String.substring].
      replace (S n - S (n - scale))%nat with scale by lia.
      destruct scale; [lia|]. reflexivity.
    + cbn [append]. rewrite <- Hn.
      assert (Hc : (Z.of_nat scale <? Z.of_nat n) = true) by (apply Z.ltb_lt; lia).
      rewrite Hc.
      replace (Z.to_nat (Z.of_nat n - Z.of_nat scale)) with (n - scale)%nat by lia.
      replace (n - (n - scale))%nat with scale by lia.
      destruct scale; [lia|]. reflexivity.
  - assert (Ev : (v <? 0) = false) by (apply Z.ltb_ge; lia).
    rewrite Ev. cbn [append]. rewrite <- Hn.
    assert (Hc : (Z.of_nat scale <? Z.of_nat n) = false) by (apply Z.ltb_ge; lia).
    rewrite Hc.
    assert (Hc2 : (Z.of_nat n =? Z.of_nat scale) = true) by (apply Z.eqb_eq; lia).
    rewrite Hc2.
    replace (scale + 1 - n)%nat with 1%nat by lia.
    cbn [C.repeat_char append String.length]. rewrite <- Hn.
    replace (S n - scale)%nat with 1%nat by lia.
    destruct scale as [|k]; [lia|].
    cbn [String.substring].
    rewrite Heq, Hn. rewrite substring_all.
    replace (String.substring 0 0 d) with "" by (destruct d; reflexivity).
    reflexivity.
Qed.

Lemma place_point_zero_scale : forall v, Spec.place_point v 0 = C.fmt_d v.
Proof.
  intros v. unfold Spec.place_point.
  pose proof (fmt_d_nonempty (Z.abs v) (Z.abs_nonneg v)) as Hn.
  replace (0 + 1 - String.length (C.fmt_d (Z.abs v)))%nat with 0%nat by lia.
  cbn [C.repeat_char append].
  rewrite Nat.sub_0_r, substring_all, append_empty.
  symmetry. apply fmt_d_abs.
Qed.

Lemma decode_nonempty : forall raw bytes,
  pg_b64_decode raw (pg_b64_dec_len (C.strlen raw)) = Some bytes ->
  (1 <= List.length bytes)%nat -> raw <> "".
Proof.
  intros raw bytes H Hlen ->. vm_compute in H. injection H as <-. simpl in Hlen. lia.
Qed.

(** *** The numeric branch *)

(** With fewer digits than the scale the text is whatever [printf]
    makes of the quotient with [%g], cut to the buffer. *)
Lemma fewer_digits_go_through_printf : forall E v scale,
  C.strlen (C.fmt_d v) < scale ->
  place_decimal_point E (C.fmt_d v) v scale
  = C.snprintf (Z.to_nat (scale + 3))
      (printf_g E v (Z.iter scale (fun f => C.int (f * 10)) 1)).
Proof.
  intros E v scale H. unfold place_decimal_point.
  replace (scale <? C.strlen (C.fmt_d v)) with false
    by (symmetry; apply Z.ltb_ge; lia).
  replace (C.strlen (C.fmt_d v) =? scale) with false
    by (symmetry; apply Z.eqb_neq; lia).
  f_equal. f_equal. lia.
Qed.

(** What the [switch] leaves for a value of at most 8 bytes (if negative,
    at most 7) whose digits reach the decimal point. *)
Lemma numeric_switch :
  forall E cv addquote raw bytes,
    pg_b64_decode raw (pg_b64_dec_len (C.strlen raw)) = Some bytes ->
    (1 <= List.length bytes <= 8)%nat ->
    (List.length bytes = 8%nat -> List.nth 0 bytes 0 < 128) ->
    colval_datatype cv = NUMERICOID \/ colval_datatype cv = MONEYOID ->
    let v := Spec.be_signed bytes in
    let s := Spec.effective_scale (colval_datatype cv) (colval_scale cv) in
    (s = 0%nat \/ (s < Spec.digits v)%nat \/ (s = Spec.digits v /\ 0 <= v)) ->
    processDataByType_switch E cv addquote raw
    = Ret (Break (Some (Spec.numeric_decode (colval_datatype cv)
                          (colval_scale cv) bytes))).
Proof.
  intros E cv addquote raw bytes Hdec Hlen Hmsb Hdt v s Hs.
  pose proof (pg_b64_decode_bytes _ _ _ Hdec) as Hbytes.
  unfold processDataByType_switch.
  assert (Hint : oid_in (colval_datatype cv)
                   [BOOLOID; INT8OID; INT2OID; INT4OID; FLOAT8OID; FLOAT4OID]
                 = false) by (destruct Hdt as [-> | ->]; reflexivity).
  assert (Hnum : oid_in (colval_datatype cv) [MONEYOID; NUMERICOID] = true)
    by (destruct Hdt as [-> | ->]; reflexivity).
  rewrite Hint, Hnum.
  unfold decode_b64. rewrite Hdec.
  rewrite (derive_value_is_signed bytes Hbytes Hlen Hmsb).
  cbn [obind]. fold v.
  unfold Spec.numeric_decode. fold v. fold s.
  unfold Spec.effective_scale in s. unfold Spec.digits in Hs.
  destruct (0 <? colval_scale cv) eqn:Esc.
  - apply Z.ltb_lt in Esc.
    assert (Hpos : (0 < s)%nat) by (subst s; lia).
    destruct Hs as [Hs | Hs]; [lia|].
    rewrite <- (place_decimal_point_spec E v s Hpos Hs).
    subst s. rewrite Z2Nat.id by lia. reflexivity.
  - destruct (colval_datatype cv =? MONEYOID) eqn:Em.
    + assert (Hpos : (0 < s)%nat) by (subst s; lia).
      destruct Hs as [Hs | Hs]; [subst s; lia|].
      rewrite <- (place_decimal_point_spec E v s Hpos Hs).
      subst s. reflexivity.
    + subst s. rewrite place_point_zero_scale. reflexivity.
Qed.

(** C3, as the specification words it, does not hold for integers of more
    than 8 bytes: the 9 bytes 01 00 00 00 00 00 00 00 00 are the number
    18446744073709551616, and the decoder, which collects the bytes in a
    [long], returns 0. *)
Lemma C3_nine_bytes_do_not_fit_long :
  pg_b64_decode "AQAAAAAAAAAA" (pg_b64_dec_len (C.strlen "AQAAAAAAAAAA"))
  = Some [1; 0; 0; 0; 0; 0; 0; 0; 0] /\
  Spec.numeric_decode NUMERICOID 0 [1; 0; 0; 0; 0; 0; 0; 0; 0]
  = "18446744073709551616" /\
  processDataByType (Scenario.plain_env false)
    (Scenario.numeric_value "AQAAAAAAAAAA" 0) false None = Ret (Some "0") /\
  processDataByType (Scenario.plain_env false)
    (Scenario.numeric_value "AQAAAAAAAAAA" 0) false None
  <> Ret (Some (Spec.numeric_decode NUMERICOID 0 [1; 0; 0; 0; 0; 0; 0; 0; 0])).
Proof.
  split; [vm_compute; reflexivity|].
  split; [vm_compute; reflexivity|].
  split; [vm_compute; reflexivity|].
  vm_compute. discriminate.
Qed.

(** C3, amended: for a Numeric or Money destination, a raw value that is
    base64 of a big-endian two's-complement integer of 1 to 8 bytes (a
    negative one of at most 7) and does not spell NULL is decoded to that
    signed integer with the decimal point placed scale digits from the
    right, provided the integer has more digits than the scale, or as many
    and is not negative; Money without a scale uses the scale 4; no
    transform expression applies to the column. *)
Theorem C3_numeric_decode_within_long :
  forall E cv addquote objid raw bytes,
    colval_value cv = Some raw ->
    C.strcaseeq raw "NULL" = false ->
    pg_b64_decode raw (pg_b64_dec_len (C.strlen raw)) = Some bytes ->
    (1 <= List.length bytes <= 8)%nat ->
    (List.length bytes = 8%nat -> List.nth 0 bytes 0 < 128) ->
    colval_datatype cv = NUMERICOID \/ colval_datatype cv = MONEYOID ->
    transform_data_expression E objid (colval_remoteColumnName cv) = None ->
    let v := Spec.be_signed bytes in
    let s := Spec.effective_scale (colval_datatype cv) (colval_scale cv) in
    (s = 0%nat \/ (s < Spec.digits v)%nat \/ (s = Spec.digits v /\ 0 <= v)) ->
    processDataByType E cv addquote objid
    = Ret (Some (Spec.numeric_decode (colval_datatype cv) (colval_scale cv) bytes)).
Proof.
  intros E cv addquote objid raw bytes Hv Hnull Hdec Hlen Hmsb Hdt Htr v s Hs.
  pose proof (decode_nonempty _ _ Hdec ltac:(lia)) as Hne.
  unfold processDataByType. rewrite Hv, (strlen_nonempty _ Hne), Hnull.
  rewrite (numeric_switch E cv addquote raw bytes Hdec Hlen Hmsb Hdt Hs).
  cbn [obind]. unfold transform_out. rewrite Htr. reflexivity.
Qed.

Lemma C3_numeric_decode_within_long_witness :
  pg_b64_decode "AX0=" (pg_b64_dec_len (C.strlen "AX0=")) = Some [1; 125] /\
  Spec.be_signed [1; 125] = 381 /\
  processDataByType (Scenario.plain_env false) (Scenario.numeric_value "AX0=" 2)
                    false None = Ret (Some "3.81").
Proof.
  split; [reflexivity|]. split; [reflexivity|].
  apply (C3_numeric_decode_within_long (Scenario.plain_env false)
           (Scenario.numeric_value "AX0=" 2) false None "AX0=" [1; 125]).
  - reflexivity.
  - reflexivity.
  - reflexivity.
  - simpl; lia.
  - simpl; lia.
  - left; reflexivity.
  - reflexivity.
  - right; left. vm_compute. lia.
Defined.

(** Money without a scale: 12345 is 1.2345. *)
Example money_has_four_decimals :
  processDataByType (Scenario.plain_env false)
    (mk_colval "price" (Some "price") (Some "MDk=") MONEYOID 1 0 TIME_UNDEF (-1))
    false None = Ret (Some "1.2345").
Proof. vm_compute. reflexivity. Qed.

(** *** Base64 *)

Lemma b64_char_facts : forall x, 0 <= x < 64 ->
  b64_is_space (Spec.b64_char x) = false /\
  Ascii.eqb (Spec.b64_char x) "=" = false /\
  b64lookup (Spec.b64_char x) = x.
Proof.
  assert (H : forallb (fun n =>
                let x := Z.of_nat n in
                andb (negb (b64_is_space (Spec.b64_char x)))
                  (andb (negb (Ascii.eqb (Spec.b64_char x) "="))
                        (b64lookup (Spec.b64_char x) =? x)))
              (seq 0 64) = true) by (vm_compute; reflexivity).
  intros x Hx. rewrite forallb_forall in H.
  specialize (H (Z.to_nat x)).
  assert (Hin : In (Z.to_nat x) (seq 0 64)) by (apply in_seq; lia).
  specialize (H Hin). cbv zeta in H. rewrite Z2Nat.id in H by lia.
  apply andb_true_iff in H. destruct H as [H1 H2].
  apply andb_true_iff in H2. destruct H2 as [H2 H3].
  apply negb_true_iff in H1. apply negb_true_iff in H2. apply Z.eqb_eq in H3.
  auto.
Qed.

Lemma b64_symbol_char : forall x pos fin, 0 <= x < 64 ->
  b64_symbol (Spec.b64_char x) pos fin = Some (x, fin).
Proof.
  intros x pos fin Hx. destruct (b64_char_facts x Hx) as (H1 & H2 & H3).
  unfold b64_symbol. rewrite H1, H2, H3.
  replace (x <? 0) with false by (symmetry; apply Z.ltb_ge; lia).
  reflexivity.
Qed.

Lemma b64_loop_next : forall c rest dstlen buf pos fin dst b fin',
  b64_symbol c pos fin = Some (b, fin') ->
  pos + 1 <> 4 ->
  b64_loop (String c rest) dstlen buf pos fin dst
  = b64_loop rest dstlen ((Z.shiftl buf 6 + b) mod 2 ^ 32) (pos + 1) fin' dst.
Proof.
  intros c rest dstlen buf pos fin dst b fin' Hs Hp.
  cbn [b64_loop]. rewrite Hs.
  replace (pos + 1 =? 4) with false by (symmetry; apply Z.eqb_neq; exact Hp).
  reflexivity.
Qed.

Lemma b64_loop_last : forall c rest dstlen buf fin dst b fin',
  b64_symbol c 3 fin = Some (b, fin') ->
  let buf' := (Z.shiftl buf 6 + b) mod 2 ^ 32 in
  let out1 := (dst ++ [Z.land (Z.shiftr buf' 16) 255])%list in
  let out2 := if orb (fin' =? 0) (1 <? fin')
              then (out1 ++ [Z.land (Z.shiftr buf' 8) 255])%list else out1 in
  let out3 := if orb (fin' =? 0) (2 <? fin')
              then (out2 ++ [Z.land buf' 255])%list else out2 in
  Z.of_nat (List.length out3) <= dstlen ->
  b64_loop (String c rest) dstlen buf 3 fin dst
  = b64_loop rest dstlen 0 0 fin' out3.
Proof.
  intros c rest dstlen buf fin dst b fin' Hs buf' out1 out2 out3 Hroom.
  cbn [b64_loop]. rewrite Hs.
  change (3 + 1 =? 4) with true. cbv iota.
  fold buf'. fold out1. fold out2. fold out3.
  replace (Z.of_nat (List.length out3) <=? dstlen) with true
    by (symmetry; apply Z.leb_le; exact Hroom).
  reflexivity.
Qed.

(** The 24 bits of a group, taken apart again. *)
Lemma group_bytes : forall a b c,
  Spec.is_byte a -> Spec.is_byte b -> Spec.is_byte c ->
  let buf := a * 65536 + b * 256 + c in
  Z.land (Z.shiftr buf 16) 255 = a /\
  Z.land (Z.shiftr buf 8) 255 = b /\
  Z.land buf 255 = c.
Proof.
  intros a b c Ha Hb Hc buf. unfold Spec.is_byte in *.
  change 255 with (Z.ones 8). rewrite !Z.land_ones by lia.
  rewrite !Z.shiftr_div_pow2 by lia.
  change (2 ^ 16) with 65536. change (2 ^ 8) with 256.
  subst buf. repeat split; Z.div_mod_to_equations; lia.
Qed.

Lemma sextets_buffer : forall x1 x2 x3 x4,
  0 <= x1 < 64 -> 0 <= x2 < 64 -> 0 <= x3 < 64 -> 0 <= x4 < 64 ->
  (Z.shiftl ((Z.shiftl ((Z.shiftl ((Z.shiftl 0 6 + x1) mod 2 ^ 32) 6 + x2)
                          mod 2 ^ 32) 6 + x3) mod 2 ^ 32) 6 + x4) mod 2 ^ 32
  = ((x1 * 64 + x2) * 64 + x3) * 64 + x4.
Proof.
  intros x1 x2 x3 x4 R1 R2 R3 R4.
  rewrite !Z.shiftl_mul_pow2 by lia. change (2 ^ 6) with 64.
  change (0 * 64 + x1) with x1.
  rewrite (Z.mod_small x1) by lia.
  rewrite (Z.mod_small (x1 * 64 + x2)) by lia.
  rewrite (Z.mod_small ((x1 * 64 + x2) * 64 + x3)) by lia.
  rewrite Z.mod_small by lia. reflexivity.
Qed.

Ltac next_char x :=
  erewrite (b64_loop_next (Spec.b64_char x));
  [ | apply b64_symbol_char; unfold Spec.is_byte in *; Z.div_mod_to_equations; lia | lia ].

Ltac sextets a b c :=
  rewrite sextets_buffer
    by (unfold Spec.is_byte in *; Z.div_mod_to_equations; lia);
  match goal with
  | |- context [Z.shiftr ?e 16] =>
      replace e with (a * 65536 + b * 256 + c)
        by (unfold Spec.is_byte in *; Z.div_mod_to_equations; lia)
  end.

Lemma b64_loop_base64 : forall n bytes dstlen dst,
  (List.length bytes <= n)%nat ->
  Forall Spec.is_byte bytes ->
  Z.of_nat (List.length dst + List.length bytes) <= dstlen ->
  b64_loop (Spec.base64 bytes) dstlen 0 0 0 dst = Some (dst ++ bytes)%list.
Proof.
  induction n as [|n IH]; intros bytes dstlen dst Hn Hb Hroom.
  - destruct bytes; [|simpl in Hn; lia]. cbn. rewrite app_nil_r. reflexivity.
  - destruct bytes as [|a [|b [|c rest]]].
    + cbn. rewrite app_nil_r. reflexivity.
    + (* one byte, two padding characters *)
      inversion Hb as [|? ? Ha _]; subst.
      assert (H0 : Spec.is_byte 0) by (unfold Spec.is_byte; lia).
      destruct (group_bytes a 0 0 Ha H0 H0) as (G1 & _).
      cbv zeta in G1.
      cbn [Spec.base64].
      next_char (a / 4). next_char (a mod 4 * 16).
      erewrite (b64_loop_next "="%char); [ | reflexivity | lia ].
      change (0 + 1 + 1 + 1) with 3.
      erewrite (b64_loop_last "="%char); [ | reflexivity | ].
      * cbv zeta. change (1 =? 0) with false. change (1 <? 1) with false.
        change (2 <? 1) with false. cbn [orb].
        sextets a 0 0. rewrite G1. reflexivity.
      * cbv zeta. change (1 =? 0) with false. change (1 <? 1) with false.
        change (2 <? 1) with false. cbn [orb].
        rewrite length_app. cbn [List.length] in *. lia.
    + (* two bytes, one padding character *)
      inversion Hb as [|? ? Ha Hb']; subst.
      inversion Hb' as [|? ? Hb0 _]; subst.
      assert (H0 : Spec.is_byte 0) by (unfold Spec.is_byte; lia).
      destruct (group_bytes a b 0 Ha Hb0 H0) as (G1 & G2 & _).
      cbv zeta in G1, G2.
      cbn [Spec.base64].
      next_char (a / 4). next_char (a mod 4 * 16 + b / 16).
      next_char (b mod 16 * 4).
      change (0 + 1 + 1 + 1) with 3.
      erewrite (b64_loop_last "="%char); [ | reflexivity | ].
      * cbv zeta. change (2 =? 0) with false. change (1 <? 2) with true.
        change (2 <? 2) with false. cbn [orb].
        sextets a b 0. rewrite G1, G2. cbn [b64_loop]. change (0 =? 0) with true.
        cbv iota. rewrite <- app_assoc. reflexivity.
      * cbv zeta. change (2 =? 0) with false. change (1 <? 2) with true.
        change (2 <? 2) with false. cbn [orb].
        rewrite !length_app. cbn [List.length] in *. lia.
    + (* a full group *)
      inversion Hb as [|? ? Ha Hb']; subst.
      inversion Hb' as [|? ? Hb0 Hb'']; subst.
      inversion Hb'' as [|? ? Hc Hrest]; subst.
      destruct (group_bytes a b c Ha Hb0 Hc) as (G1 & G2 & G3).
      cbv zeta in G1, G2, G3.
      cbn [Spec.base64].
      next_char (a / 4). next_char (a mod 4 * 16 + b / 16).
      next_char (b mod 16 * 4 + c / 64).
      change (0 + 1 + 1 + 1) with 3.
      erewrite (b64_loop_last (Spec.b64_char (c mod 64)));
        [ | apply b64_symbol_char; unfold Spec.is_byte in *; Z.div_mod_to_equations; lia | ].
      * cbv zeta. change (0 =? 0) with true. cbn [orb].
        sextets a b c. rewrite G1, G2, G3.
        rewrite IH.
        -- rewrite <- !app_assoc. reflexivity.
        -- cbn [List.length] in Hn. lia.
        -- exact Hrest.
        -- rewrite !length_app. cbn [List.length] in *. lia.
      * cbv zeta. change (0 =? 0) with true. cbn [orb].
        rewrite !length_app. cbn [List.length] in *. lia.
Qed.

Lemma base64_length : forall n bytes,
  (List.length bytes <= n)%nat ->
  C.strlen (Spec.base64 bytes) = 4 * ((Z.of_nat (List.length bytes) + 2) / 3).
Proof.
  unfold C.strlen.
  induction n as [|n IH]; intros bytes Hn.
  - destruct bytes; [reflexivity|simpl in Hn; lia].
  - destruct bytes as [|a [|b [|c rest]]]; try reflexivity.
    cbn [Spec.base64 String.length List.length] in *.
    rewrite !Nat2Z.inj_succ. rewrite (IH rest) by lia.
    Z.div_mod_to_equations. lia.
Qed.

(** Decoding what the specification calls base64 gives the bytes back. *)
Lemma pg_b64_decode_base64 : forall bytes,
  Forall Spec.is_byte bytes ->
  pg_b64_decode (Spec.base64 bytes)
                (pg_b64_dec_len (C.strlen (Spec.base64 bytes))) = Some bytes.
Proof.
  intros bytes Hb. unfold pg_b64_decode.
  rewrite (b64_loop_base64 (List.length bytes) bytes _ [] (le_n _) Hb);
    [reflexivity|].
  rewrite (base64_length (List.length bytes) bytes (le_n _)).
  unfold pg_b64_dec_len. rewrite Z.shiftr_div_pow2 by lia. change (2 ^ 2) with 4.
  cbn [List.length Nat.add]. Z.div_mod_to_equations. lia.
Qed.

(** *** Two's complement *)

Lemma be_bytes_length : forall n v, List.length (Spec.be_bytes n v) = n.
Proof.
  induction n as [|n IH]; intros v; [reflexivity|].
  cbn [Spec.be_bytes]. rewrite length_app, IH. simpl. lia.
Qed.

Lemma be_bytes_bytes : forall n v, Forall Spec.is_byte (Spec.be_bytes n v).
Proof.
  induction n as [|n IH]; intros v; [constructor|].
  cbn [Spec.be_bytes]. apply Forall_app. split; [apply IH|].
  constructor; [|constructor]. unfold Spec.is_byte. apply Z.mod_pos_bound. lia.
Qed.

Lemma be_unsigned_snoc : forall l x,
  Spec.be_unsigned (l ++ [x]) = Spec.be_unsigned l * 256 + x.
Proof.
  intros l x. unfold Spec.be_unsigned. rewrite fold_left_app. reflexivity.
Qed.

Lemma be_unsigned_be_bytes : forall n v,
  Spec.be_unsigned (Spec.be_bytes n v) = v mod 256 ^ Z.of_nat n.
Proof.
  induction n as [|n IH]; intros v.
  - cbn. rewrite Z.mod_1_r. reflexivity.
  - cbn [Spec.be_bytes]. rewrite be_unsigned_snoc, IH.
    rewrite Nat2Z.inj_succ, Z.pow_succ_r by lia.
    rewrite (Z.rem_mul_r v 256 (256 ^ Z.of_nat n)) by lia. ring.
Qed.

Lemma be_bytes_first : forall n v,
  List.nth 0 (Spec.be_bytes (S n) v) 0 = (v / 256 ^ Z.of_nat n) mod 256.
Proof.
  induction n as [|n IH]; intros v.
  - cbn [Spec.be_bytes app List.nth]. change (256 ^ Z.of_nat 0) with 1.
    rewrite Z.div_1_r. reflexivity.
  - change (Spec.be_bytes (S (S n)) v)
      with (Spec.be_bytes (S n) (v / 256) ++ [v mod 256])%list.
    rewrite app_nth1 by (rewrite be_bytes_length; lia).
    rewrite IH. rewrite Nat2Z.inj_succ, Z.pow_succ_r by lia.
    rewrite Z.div_div by lia. reflexivity.
Qed.

Lemma be_signed_be_bytes : forall n v,
  Spec.in_range (S n) v -> Spec.be_signed (Spec.be_bytes (S n) v) = v.
Proof.
  intros n v Hr. unfold Spec.in_range in Hr.
  unfold Spec.be_signed.
  rewrite be_bytes_first, be_unsigned_be_bytes, be_bytes_length.
  rewrite Nat2Z.inj_succ in *.
  replace (8 * Z.succ (Z.of_nat n) - 1) with (8 * Z.of_nat n + 7) in Hr by lia.
  rewrite Z.pow_add_r in Hr by lia.
  rewrite Z.pow_succ_r by lia.
  assert (Hp : 256 ^ Z.of_nat n = 2 ^ (8 * Z.of_nat n))
    by (apply pow256; lia).
  rewrite Hp. set (P := 2 ^ (8 * Z.of_nat n)) in *.
  assert (HP : 0 < P) by (subst P; apply Z.pow_pos_nonneg; lia).
  change (2 ^ 7) with 128 in Hr.
  destruct (Z.leb_spec 128 ((v / P) mod 256)) as [Hhi | Hlo].
  - assert (Hneg : v < 0).
    { destruct (Z.lt_ge_cases v 0) as [|Hge]; [assumption|].
      assert (v / P < 128) by (apply Z.div_lt_upper_bound; lia).
      assert (0 <= v / P) by (apply Z.div_pos; lia).
      rewrite Z.mod_small in Hhi by lia. lia. }
    assert (Hm : v mod (256 * P) = v + 256 * P).
    { symmetry. apply (Z.mod_unique _ _ (-1)); [left; nia | ring]. }
    rewrite Hm. ring.
  - assert (Hpos : 0 <= v).
    { destruct (Z.lt_ge_cases v 0) as [Hlt|]; [|assumption].
      assert (-128 <= v / P) by (apply Z.div_le_lower_bound; lia).
      assert (v / P < 0) by (apply Z.div_lt_upper_bound; lia).
      assert (Hq : (v / P) mod 256 = v / P + 256).
      { symmetry. apply (Z.mod_unique _ _ (-1)); [left; lia | ring]. }
      lia. }
    apply Z.mod_small. nia.
Qed.

Lemma be_bytes_first_nonneg : forall n v,
  Spec.in_range (S n) v -> 0 <= v -> List.nth 0 (Spec.be_bytes (S n) v) 0 < 128.
Proof.
  intros n v Hr Hv. unfold Spec.in_range in Hr.
  rewrite be_bytes_first.
  rewrite Nat2Z.inj_succ in Hr.
  replace (8 * Z.succ (Z.of_nat n) - 1) with (8 * Z.of_nat n + 7) in Hr by lia.
  rewrite Z.pow_add_r in Hr by lia. change (2 ^ 7) with 128 in Hr.
  rewrite (pow256 (Z.of_nat n)) by lia.
  set (P := 2 ^ (8 * Z.of_nat n)) in *.
  assert (HP : 0 < P) by (subst P; apply Z.pow_pos_nonneg; lia).
  assert (v / P < 128) by (apply Z.div_lt_upper_bound; lia).
  assert (0 <= v / P) by (apply Z.div_pos; lia).
  rewrite Z.mod_small by lia. lia.
Qed.

Lemma shortest_from_least : forall fuel n k v,
  (n <= k <= n + fuel)%nat -> Spec.in_range k v ->
  exists m, (n <= m <= k)%nat /\
            Spec.shortest_from fuel n v = Spec.be_bytes m v /\ Spec.in_range m v.
Proof.
  induction fuel as [|fuel IH]; intros n k v Hk Hr.
  - assert (k = n) by lia. subst k. exists n.
    split; [lia|]. split; [reflexivity|exact Hr].
  - cbn [Spec.shortest_from].
    destruct (andb (- 2 ^ (8 * Z.of_nat n - 1) <=? v)
                   (v <? 2 ^ (8 * Z.of_nat n - 1))) eqn:E.
    + apply andb_true_iff in E. destruct E as [E1 E2].
      apply Z.leb_le in E1. apply Z.ltb_lt in E2.
      exists n. split; [lia|]. split; [reflexivity|]. split; assumption.
    + assert (Hne : k <> n).
      { intros ->. unfold Spec.in_range in Hr.
        apply andb_false_iff in E. destruct E as [E | E].
        - apply Z.leb_gt in E. lia.
        - apply Z.ltb_ge in E. lia. }
      destruct (IH (S n) k v ltac:(lia) Hr) as (m & Hm & Heq & Hin).
      exists m. split; [lia|]. split; assumption.
Qed.

(** The shortest encoding of a value that [long] can take apart again. *)
Lemma twos_complement_facts : forall v,
  - 2 ^ 55 <= v < 2 ^ 63 ->
  let bytes := Spec.twos_complement v in
  Forall Spec.is_byte bytes /\
  (1 <= List.length bytes <= 8)%nat /\
  (List.length bytes = 8%nat -> List.nth 0 bytes 0 < 128) /\
  Spec.be_signed bytes = v.
Proof.
  intros v Hv bytes. subst bytes. unfold Spec.twos_complement.
  destruct (Z.lt_ge_cases v 0) as [Hneg | Hpos].
  - assert (Hr : Spec.in_range 7 v)
      by (unfold Spec.in_range; change (2 ^ (8 * Z.of_nat 7 - 1)) with (2 ^ 55); lia).
    destruct (shortest_from_least 16 1 7 v ltac:(lia) Hr) as (m & Hm & -> & Hin).
    rewrite be_bytes_length.
    split; [apply be_bytes_bytes|]. split; [lia|]. split; [lia|].
    destruct m as [|m]; [lia|]. apply be_signed_be_bytes. exact Hin.
  - assert (Hr : Spec.in_range 8 v)
      by (unfold Spec.in_range; change (2 ^ (8 * Z.of_nat 8 - 1)) with (2 ^ 63); lia).
    destruct (shortest_from_least 16 1 8 v ltac:(lia) Hr) as (m & Hm & -> & Hin).
    rewrite be_bytes_length.
    split; [apply be_bytes_bytes|]. split; [lia|].
    destruct m as [|m]; [lia|].
    split; [intros _; apply be_bytes_first_nonneg; [exact Hin|lia]|].
    apply be_signed_be_bytes. exact Hin.
Qed.

(** *** Round trip *)

(** Where the decoder gives back what was encoded: values from -2^55 up to
    2^63 whose digits reach the decimal point and whose base64 text is not
    the word NULL. *)
Lemma numeric_round_trip :
  forall E v s addquote objid,
    - 2 ^ 55 <= v < 2 ^ 63 ->
    0 <= s ->
    (s = 0 \/ (Z.to_nat s < Spec.digits v)%nat \/
     (Z.to_nat s = Spec.digits v /\ 0 <= v)) ->
    C.strcaseeq (Spec.encode v) "NULL" = false ->
    transform_data_expression E objid (Some "amount") = None ->
    processDataByType E (Scenario.numeric_value (Spec.encode v) s) addquote objid
    = Ret (Some (Spec.place_point v (Z.to_nat s))).
Proof.
  intros E v s addquote objid Hv Hs Hdigits Hnull Htr.
  destruct (twos_complement_facts v Hv) as (Hbytes & Hlen & Hmsb & Hval).
  pose proof (pg_b64_decode_base64 _ Hbytes) as Hdec.
  fold (Spec.encode v) in Hdec.
  pose proof (decode_nonempty _ _ Hdec ltac:(lia)) as Hne.
  unfold processDataByType.
  cbn [Scenario.numeric_value colval_value].
  rewrite (strlen_nonempty _ Hne), Hnull.
  rewrite (numeric_switch E (Scenario.numeric_value (Spec.encode v) s) addquote
             (Spec.encode v) _ Hdec Hlen Hmsb (or_introl eq_refl)).
  - cbn [obind]. unfold transform_out.
    cbn [Scenario.numeric_value colval_remoteColumnName]. rewrite Htr.
    unfold Spec.numeric_decode. rewrite Hval.
    cbn [Scenario.numeric_value colval_datatype colval_scale].
    do 3 f_equal. unfold Spec.effective_scale.
    destruct (0 <? s) eqn:E0; [reflexivity|].
    apply Z.ltb_ge in E0. replace s with 0 by lia. reflexivity.
  - cbn [Scenario.numeric_value colval_datatype colval_scale].
    rewrite Hval. unfold Spec.effective_scale.
    destruct (0 <? s) eqn:E0.
    + destruct Hdigits as [-> | H]; [discriminate E0|right; exact H].
    + left. reflexivity.
Qed.

Example round_trip_of_381 :
  Spec.encode 381 = "AX0=" /\
  processDataByType (Scenario.plain_env false)
    (Scenario.numeric_value (Spec.encode 381) 2) false None
  = Ret (Some (Spec.place_point 381 2)).
Proof.
  split; [reflexivity|].
  apply numeric_round_trip.
  - lia.
  - lia.
  - right; left. vm_compute. lia.
  - reflexivity.
  - reflexivity.
Qed.

(** C5 at the value -5 with scale 2: the encoding is the one byte FB, in
    base64 +w==; the decoder prints the integer with its sign, finds the
    two characters of -5 as many as the scale, and writes 0. in front of
    them: 0.-5, where the round trip asks for -0.05. *)
Theorem C5_round_trip_breaks_below_zero :
  forall printf_g tz strftime_Y jsonb_path ra_transform use_spi addquote,
    let E := Scenario.mysql_env printf_g tz strftime_Y jsonb_path ra_transform
                                use_spi in
    Spec.encode (-5) = "+w==" /\
    processDataByType E (Scenario.numeric_value (Spec.encode (-5)) 2)
                      addquote None = Ret (Some "0.-5") /\
    Spec.place_point (-5) 2 = "-0.05".
Proof.
  intros. split; [reflexivity|]. split; [|reflexivity].
  subst E. destruct addquote; vm_compute; reflexivity.
Qed.

(** Other values inside the 2^63 range that do not come back: a negative
    value with one digit more than the scale loses its zero, a value with
    fewer digits than the scale is printed by [%g], the value 3490507 is
    encoded as the word NULL, and a negative value of 8 bytes needs a shift
    by 64 bits. *)
Example values_that_do_not_round_trip :
  forall printf_g,
    let E := Scenario.mysql_env printf_g 0 (C.fmt_0d 4)
               (fun _ _ => elog_ERROR "invalid input syntax for type json")
               (fun _ _ _ _ => Ret None) false in
    (processDataByType E (Scenario.numeric_value (Spec.encode (-5)) 1) false None
     = Ret (Some "-.5") /\ Spec.place_point (-5) 1 = "-0.5") /\
    (processDataByType E (Scenario.numeric_value (Spec.encode 1) 5) false None
     = Ret (Some (C.snprintf 8 (printf_g 1 100000))) /\
     Spec.place_point 1 5 = "0.00001") /\
    (Spec.encode 3490507 = "NULL" /\
     processDataByType E (Scenario.numeric_value (Spec.encode 3490507) 0) false None
     = Ret None) /\
    (Spec.encode (- 2 ^ 63) = "gAAAAAAAAAA=" /\
     processDataByType E (Scenario.numeric_value (Spec.encode (- 2 ^ 63)) 0) false None
     = Undefined "shift count exceeds the width of long").
Proof.
  intros. subst E. repeat split; vm_compute; reflexivity.
Qed.

(** ** Bit strings *)

(** *** Reversal *)

Lemma load_middle : forall (pre : list Z) x post,
  load (pre ++ x :: post) (Z.of_nat (List.length pre)) = Some x.
Proof.
  intros pre x post. unfold load.
  rewrite Nat2Z.id, length_app. cbn [List.length].
  replace (0 <=? Z.of_nat (List.length pre)) with true
    by (symmetry; apply Z.leb_le; lia).
  replace (Z.of_nat (List.length pre) <?
           Z.of_nat (List.length pre + S (List.length post))) with true
    by (symmetry; apply Z.ltb_lt; lia).
  cbn [andb].
  rewrite nth_error_app2 by lia. rewrite Nat.sub_diag. reflexivity.
Qed.

Lemma firstn_length_app : forall (pre l : list Z),
  firstn (List.length pre) (pre ++ l) = pre.
Proof.
  intros pre l. rewrite firstn_app, firstn_all, Nat.sub_diag.
  cbn [firstn]. apply app_nil_r.
Qed.

Lemma skipn_S_length_app : forall (pre l : list Z) x,
  skipn (S (List.length pre)) (pre ++ x :: l) = l.
Proof.
  intros pre l x. induction pre as [|p pre IH]; [reflexivity|exact IH].
Qed.

Lemma swap_ends : forall (pre mid post : list Z) x y,
  swap (pre ++ x :: mid ++ y :: post) (List.length pre)
       (List.length pre + 1 + List.length mid) x y
  = (pre ++ y :: mid ++ x :: post)%list.
Proof.
  intros pre mid post x y. unfold swap.
  rewrite firstn_length_app, skipn_S_length_app.
  assert (Hl : (List.length pre + 1 + List.length mid)%nat
               = List.length (pre ++ y :: mid))
    by (rewrite length_app; simpl; lia).
  rewrite Hl.
  replace (pre ++ y :: mid ++ y :: post)%list
    with ((pre ++ y :: mid) ++ y :: post)%list
    by (rewrite <- app_assoc; reflexivity).
  rewrite firstn_length_app, skipn_S_length_app.
  rewrite <- app_assoc. reflexivity.
Qed.

(** The loop reverses the part between [first] and [last]. *)
Lemma reverse_loop_middle : forall n (mid pre post : list Z) rounds,
  (List.length mid <= n)%nat ->
  (List.length mid <= rounds)%nat ->
  reverse_loop rounds (pre ++ mid ++ post)
    (Z.of_nat (List.length pre))
    (Z.of_nat (List.length pre) + Z.of_nat (List.length mid) - 1)
  = Ret (pre ++ rev mid ++ post)%list.
Proof.
  induction n as [|n IH]; intros mid pre post rounds Hn Hr.
  - destruct mid; [|simpl in Hn; lia].
    cbn [List.length rev app].
    destruct rounds; cbn [reverse_loop];
      (replace (Z.of_nat (List.length pre) <?
                Z.of_nat (List.length pre) + Z.of_nat 0 - 1) with false
         by (symmetry; apply Z.ltb_ge; lia)); reflexivity.
  - destruct mid as [|x mid].
    + apply (IH [] pre post rounds); simpl; lia.
    + destruct (rev mid) as [|y dim] eqn:Erev.
      * (* one element *)
        assert (mid = []) by (apply (f_equal (@rev Z)) in Erev;
                              rewrite rev_involutive in Erev; exact Erev).
        subst mid. cbn [List.length rev app].
        destruct rounds; cbn [reverse_loop];
          (replace (Z.of_nat (List.length pre) <?
                    Z.of_nat (List.length pre) + Z.of_nat 1 - 1) with false
             by (symmetry; apply Z.ltb_ge; lia)); reflexivity.
      * (* x :: inner ++ [y] *)
        assert (Hmid : mid = (rev dim ++ [y])%list).
        { apply (f_equal (@rev Z)) in Erev. rewrite rev_involutive in Erev.
          exact Erev. }
        subst mid. set (inner := rev dim) in *.
        assert (Hlen : List.length (x :: inner ++ [y]) = S (S (List.length inner)))
          by (cbn [List.length]; rewrite length_app; simpl; lia).
        rewrite Hlen in *.
        destruct rounds as [|rounds]; [lia|].
        cbn [reverse_loop].
        replace (Z.of_nat (List.length pre) <?
                 Z.of_nat (List.length pre) + Z.of_nat (S (S (List.length inner))) - 1)
          with true by (symmetry; apply Z.ltb_lt; lia).
        replace (pre ++ (x :: inner ++ [y]) ++ post)%list
          with (pre ++ x :: inner ++ y :: post)%list
          by (cbn [app]; rewrite <- app_assoc; reflexivity).
        rewrite load_middle.
        replace (Z.of_nat (List.length pre) + Z.of_nat (S (S (List.length inner))) - 1)
          with (Z.of_nat (List.length (pre ++ x :: inner)))
          by (rewrite length_app; cbn [List.length]; lia).
        replace (pre ++ x :: inner ++ y :: post)%list
          with ((pre ++ x :: inner) ++ y :: post)%list at 1
          by (rewrite <- app_assoc; reflexivity).
        rewrite load_middle.
        rewrite !Nat2Z.id.
        replace (List.length (pre ++ x :: inner))
          with (List.length pre + 1 + List.length inner)%nat
          by (rewrite length_app; cbn [List.length]; lia).
        rewrite swap_ends.
        replace (pre ++ y :: inner ++ x :: post)%list
          with ((pre ++ [y]) ++ inner ++ (x :: post))%list
          by (rewrite <- app_assoc; reflexivity).
        replace (Z.of_nat (List.length pre) + 1)
          with (Z.of_nat (List.length (pre ++ [y])))
          by (rewrite length_app; cbn [List.length]; lia).
        replace (Z.of_nat (List.length pre + 1 + List.length inner) - 1)
          with (Z.of_nat (List.length (pre ++ [y])) + Z.of_nat (List.length inner) - 1)
          by (rewrite length_app; cbn [List.length]; lia).
        rewrite (IH inner (pre ++ [y])%list (x :: post) rounds) by lia.
        f_equal. cbn [rev]. rewrite rev_app_distr. cbn [rev app].
        repeat (rewrite <- app_assoc; cbn [app]). reflexivity.
Qed.

Lemma reverse_byte_array_rev : forall bytes,
  (1 <= List.length bytes)%nat ->
  Z.of_nat (List.length bytes) < 2 ^ 63 ->
  reverse_byte_array bytes (Z.of_nat (List.length bytes)) = Ret (rev bytes).
Proof.
  intros bytes Hlen Hsmall. unfold reverse_byte_array, C.size_t.
  rewrite Z.mod_small by lia.
  pose proof (reverse_loop_middle (List.length bytes) bytes [] []
                (List.length bytes) (le_n _) (le_n _)) as H.
  cbn [app List.length] in H. rewrite !app_nil_r in H.
  replace (Z.of_nat (List.length bytes) - 1)
    with (Z.of_nat 0 + Z.of_nat (List.length bytes) - 1) by lia.
  exact H.
Qed.

(** *** Binary digit strings *)

Lemma is_bit_cases : forall c, Spec.is_bit c = true -> c = "0"%char \/ c = "1"%char.
Proof.
  intros c H. unfold Spec.is_bit in H. apply orb_true_iff in H.
  destruct H as [H | H]; apply Ascii.eqb_eq in H; auto.
Qed.

Lemma binary_pos_append_bits : forall r p acc,
  Spec.all_bits r = true ->
  Spec.binary_pos (Spec.append_bits p r) acc = Spec.binary_pos p (r ++ acc).
Proof.
  induction r as [|c r IH]; intros p acc Hr; [reflexivity|].
  cbn [Spec.all_bits] in Hr. apply andb_true_iff in Hr. destruct Hr as [Hc Hr].
  cbn [Spec.append_bits]. rewrite (IH _ acc Hr).
  destruct (is_bit_cases c Hc) as [-> | ->]; reflexivity.
Qed.

Lemma bits_value_pos : forall r p,
  Spec.bits_value (Zpos p) r = Zpos (Spec.append_bits p r).
Proof.
  induction r as [|c r IH]; intros p; [reflexivity|].
  cbn [Spec.bits_value Spec.append_bits].
  destruct (Ascii.eqb c "1"); rewrite <- IH; f_equal; lia.
Qed.

(** Dropping the leading zeros gives the usual binary numeral. *)
Lemma trim_leading_zeros_binary : forall s,
  Spec.all_bits s = true ->
  trim_leading_zeros s = Spec.binary (Spec.bits_value 0 s).
Proof.
  induction s as [|c s IH]; intros Hs; [reflexivity|].
  cbn [Spec.all_bits] in Hs. apply andb_true_iff in Hs. destruct Hs as [Hc Hs].
  destruct (is_bit_cases c Hc) as [-> | ->].
  - change (Spec.bits_value 0 (String "0" s)) with (Spec.bits_value 0 s).
    rewrite <- (IH Hs). reflexivity.
  - cbn [Spec.bits_value]. change (2 * 0 + (if Ascii.eqb "1" "1" then 1 else 0)) with 1.
    rewrite bits_value_pos. cbn [Spec.binary].
    rewrite binary_pos_append_bits by exact Hs.
    cbn [Spec.binary_pos]. rewrite append_empty. reflexivity.
Qed.

Lemma all_bits_app : forall a b,
  Spec.all_bits a = true -> Spec.all_bits b = true -> Spec.all_bits (a ++ b) = true.
Proof.
  induction a as [|c a IH]; intros b Ha Hb; [exact Hb|].
  cbn [Spec.all_bits append] in *. apply andb_true_iff in Ha. destruct Ha as [Hc Ha].
  rewrite Hc, (IH b Ha Hb). reflexivity.
Qed.

Lemma bits_value_app : forall a b acc,
  Spec.bits_value acc (a ++ b) = Spec.bits_value (Spec.bits_value acc a) b.
Proof.
  induction a as [|c a IH]; intros b acc; [reflexivity|].
  cbn [Spec.bits_value append]. apply IH.
Qed.

Lemma bits_value_shift : forall s acc,
  Spec.bits_value acc s = acc * 2 ^ Z.of_nat (String.length s) + Spec.bits_value 0 s.
Proof.
  induction s as [|c s IH]; intros acc.
  - cbn. lia.
  - cbn [Spec.bits_value String.length]. rewrite IH.
    rewrite (IH (2 * 0 + _)). rewrite Nat2Z.inj_succ, Z.pow_succ_r by lia. ring.
Qed.

Lemma byte_to_binary_facts : forall b, Spec.is_byte b ->
  Spec.all_bits (byte_to_binary b) = true /\
  String.length (byte_to_binary b) = 8%nat /\
  Spec.bits_value 0 (byte_to_binary b) = b.
Proof.
  assert (H : forallb (fun n =>
                let b := Z.of_nat n in
                andb (Spec.all_bits (byte_to_binary b))
                  (andb (Nat.eqb (String.length (byte_to_binary b)) 8)
                        (Spec.bits_value 0 (byte_to_binary b) =? b)))
              (seq 0 256) = true) by (vm_compute; reflexivity).
  intros b Hb. rewrite forallb_forall in H.
  specialize (H (Z.to_nat b)).
  assert (Hin : In (Z.to_nat b) (seq 0 256))
    by (apply in_seq; unfold Spec.is_byte in Hb; lia).
  specialize (H Hin). cbv zeta in H.
  rewrite Z2Nat.id in H by (unfold Spec.is_byte in Hb; lia).
  apply andb_true_iff in H. destruct H as [H1 H2].
  apply andb_true_iff in H2. destruct H2 as [H2 H3].
  apply Nat.eqb_eq in H2. apply Z.eqb_eq in H3. auto.
Qed.

Lemma bytes_to_binary_string_facts : forall bytes, Forall Spec.is_byte bytes ->
  Spec.all_bits (bytes_to_binary_string bytes) = true /\
  String.length (bytes_to_binary_string bytes) = (8 * List.length bytes)%nat /\
  Spec.bits_value 0 (bytes_to_binary_string bytes)
  = List.fold_left (fun acc b => acc * 256 + b) bytes 0.
Proof.
  intros bytes H.
  assert (G : forall acc,
    Spec.bits_value acc (bytes_to_binary_string bytes)
    = List.fold_left (fun acc b => acc * 256 + b) bytes acc /\
    Spec.all_bits (bytes_to_binary_string bytes) = true /\
    String.length (bytes_to_binary_string bytes) = (8 * List.length bytes)%nat).
  { induction H as [|b bytes Hb Hrest IH]; intros acc.
    - cbn. auto.
    - destruct (byte_to_binary_facts b Hb) as (B1 & B2 & B3).
      cbn [bytes_to_binary_string List.fold_left List.length].
      destruct (IH (acc * 256 + b)) as (I1 & I2 & I3).
      split; [|split].
      + rewrite bits_value_app, (bits_value_shift (byte_to_binary b)), B2, B3.
        exact I1.
      + apply all_bits_app; assumption.
      + rewrite length_append, B2, I3. lia. }
  destruct (G 0) as (G1 & G2 & G3). auto.
Qed.

Lemma fold_rev_le_unsigned : forall bytes,
  List.fold_left (fun acc b => acc * 256 + b) (rev bytes) 0
  = Spec.le_unsigned bytes.
Proof.
  induction bytes as [|b bytes IH]; [reflexivity|].
  cbn [rev Spec.le_unsigned]. rewrite fold_left_app. cbn [List.fold_left].
  rewrite IH. ring.
Qed.

Lemma skip_zeros_length : forall s,
  (String.length (skip_zeros s) <= String.length s)%nat.
Proof.
  induction s as [|c s IH]; [simpl; lia|].
  cbn [skip_zeros].
  destruct (Ascii.eqb c "0") eqn:E.
  - apply Ascii.eqb_eq in E. subst c. cbn [String.length]. lia.
  - assert (H : skip_zeros (String c s) = String c s).
    { destruct c as [[] [] [] [] [] [] [] []]; try reflexivity.
      discriminate E. }
    cbn [skip_zeros] in H. rewrite H. lia.
Qed.

Lemma trim_leading_zeros_length : forall s,
  (1 <= String.length s)%nat ->
  (String.length (trim_leading_zeros s) <= String.length s)%nat.
Proof.
  intros s Hs. unfold trim_leading_zeros.
  pose proof (skip_zeros_length s) as H.
  destruct (skip_zeros s); cbn [String.length] in *; lia.
Qed.

Lemma repeat_char_length : forall c n, String.length (C.repeat_char c n) = n.
Proof. induction n as [|n IH]; simpl; [reflexivity|]. rewrite IH. reflexivity. Qed.

Lemma int_small : forall x, 0 <= x < 2 ^ 31 -> C.int x = x.
Proof.
  intros x Hx. unfold C.int, C.wrap.
  rewrite Z.mod_small by lia.
  replace (x <? 2 ^ (32 - 1)) with true by (symmetry; apply Z.ltb_lt; lia).
  reflexivity.
Qed.

Lemma Forall_rev_bytes : forall bytes, Forall Spec.is_byte bytes -> Forall Spec.is_byte (rev bytes).
Proof.
  intros bytes H. apply Forall_forall. intros x Hx.
  rewrite Forall_forall in H. apply H. apply in_rev. exact Hx.
Qed.

(** The digits the bit branch produces, before any quoting. *)
Lemma bit_digits : forall bytes,
  Forall Spec.is_byte bytes -> (1 <= List.length bytes)%nat ->
  trim_leading_zeros (bytes_to_binary_string (rev bytes))
  = Spec.binary (Spec.le_unsigned bytes) /\
  (String.length (Spec.binary (Spec.le_unsigned bytes))
   <= 8 * List.length bytes)%nat.
Proof.
  intros bytes Hb Hlen.
  destruct (bytes_to_binary_string_facts (rev bytes) (Forall_rev_bytes _ Hb))
    as (F1 & F2 & F3).
  rewrite length_rev in F2.
  assert (E : trim_leading_zeros (bytes_to_binary_string (rev bytes))
              = Spec.binary (Spec.le_unsigned bytes)).
  { rewrite (trim_leading_zeros_binary _ F1), F3, fold_rev_le_unsigned.
    reflexivity. }
  split; [exact E|].
  rewrite <- E, <- F2. apply trim_leading_zeros_length. lia.
Qed.



(** C6, as the specification words it, does not hold: with quoting the
    decoder puts the quote before the letter b.  The byte 05 with typemod 8
    comes out as 'b00000101', not as b'00000101'. *)
Lemma C6_quote_comes_before_b :
  pg_b64_decode "BQ==" (pg_b64_dec_len (C.strlen "BQ==")) = Some [5] /\
  Spec.bit_literal (Spec.bit_string [5] 8) = "b'00000101'" /\
  processDataByType (Scenario.plain_env false) (Scenario.bit_value "BQ==" 8)
                    true None = Ret (Some "'b00000101'") /\
  processDataByType (Scenario.plain_env false) (Scenario.bit_value "BQ==" 8)
                    true None
  <> Ret (Some (Spec.bit_literal (Spec.bit_string [5] 8))).
Proof.
  split; [vm_compute; reflexivity|].
  split; [vm_compute; reflexivity|].
  split; [vm_compute; reflexivity|].
  vm_compute. discriminate.
Qed.

Lemma palloc0_fits : forall size,
  0 <= size <= MaxAllocSize -> palloc0 size = Ret tt.
Proof.
  intros size H. unfold palloc0, C.size_t, MaxAllocSize in *.
  rewrite Z.mod_small by lia.
  replace (2 ^ 30 - 1 <? size) with false by (symmetry; apply Z.ltb_ge; lia).
  reflexivity.
Qed.

(** C6, amended: for a Bit or Varbit destination, a raw value that is
    base64 of at least one byte (fewer than 2^27) and does not spell NULL,
    with a typemod from 0 to 8 times the number of bytes and no transform
    expression on the column, is decoded to the binary numeral of the
    bytes read with the last byte most significant, left-padded with
    zeros to typemod digits; with quoting the result is 'b...', the quote
    first, then the letter b, the digits and the closing quote. *)
Theorem C6_bit_string :
  forall E cv addquote objid raw bytes,
    colval_value cv = Some raw ->
    C.strcaseeq raw "NULL" = false ->
    pg_b64_decode raw (pg_b64_dec_len (C.strlen raw)) = Some bytes ->
    (1 <= List.length bytes)%nat ->
    Z.of_nat (List.length bytes) < 2 ^ 27 ->
    colval_datatype cv = BITOID \/ colval_datatype cv = VARBITOID ->
    0 <= colval_typemod cv <= 8 * Z.of_nat (List.length bytes) ->
    transform_data_expression E objid (colval_remoteColumnName cv) = None ->
    let bits := Spec.bit_string bytes (colval_typemod cv) in
    processDataByType E cv addquote objid
    = Ret (Some (if addquote then "'b" ++ bits ++ "'" else bits)).
Proof.
  intros E cv addquote objid raw bytes Hv Hnull Hdec Hlen Hsmall Hdt Htm Htr bits.
  pose proof (decode_nonempty _ _ Hdec Hlen) as Hne.
  pose proof (pg_b64_decode_bytes _ _ _ Hdec) as Hbytes.
  destruct (bit_digits bytes Hbytes Hlen) as [Hbits Hwidth].
  unfold processDataByType. rewrite Hv, (strlen_nonempty _ Hne), Hnull.
  assert (Hsw : processDataByType_switch E cv addquote raw
                = Ret (Break (Some (if addquote then "'b" ++ bits ++ "'"
                                    else bits)))).
  { unfold processDataByType_switch.
    assert (H1 : oid_in (colval_datatype cv)
                   [BOOLOID; INT8OID; INT2OID; INT4OID; FLOAT8OID; FLOAT4OID]
                 = false) by (destruct Hdt as [-> | ->]; reflexivity).
    assert (H2 : oid_in (colval_datatype cv) [MONEYOID; NUMERICOID] = false)
      by (destruct Hdt as [-> | ->]; reflexivity).
    assert (H3 : oid_in (colval_datatype cv)
                   [BPCHAROID; TEXTOID; VARCHAROID; CSTRINGOID;
                    TIMESTAMPTZOID; JSONBOID; UUIDOID] = false)
      by (destruct Hdt as [-> | ->]; reflexivity).
    assert (H4 : oid_in (colval_datatype cv) [VARBITOID; BITOID] = true)
      by (destruct Hdt as [-> | ->]; reflexivity).
    rewrite H1, H2, H3, H4.
    unfold decode_b64. rewrite Hdec.
    replace (2 ^ 31 <=? Z.of_nat (List.length bytes) * 8 +
                        (if addquote then 2 + 1 + 1 else 1)) with false
      by (symmetry; apply Z.leb_gt; destruct addquote; lia).
    rewrite palloc0_fits by (unfold MaxAllocSize; destruct addquote; lia).
    cbn [obind].
    rewrite (reverse_byte_array_rev bytes Hlen) by lia.
    cbn [obind]. rewrite Hbits.
    set (B := Spec.binary (Spec.le_unsigned bytes)) in *.
    unfold C.size_t. rewrite (Z.mod_small (colval_typemod cv)) by lia.
    unfold C.strlen.
    subst bits. unfold Spec.bit_string, Spec.pad_left. fold B.
    destruct (Z.of_nat (String.length B) <? colval_typemod cv) eqn:Epad.
    - apply Z.ltb_lt in Epad.
      unfold prepend_zeros. rewrite int_small by lia.
      replace (colval_typemod cv - Z.of_nat (String.length B) <? 0) with false
        by (symmetry; apply Z.ltb_ge; lia).
      unfold C.strlen.
      replace (Z.of_nat (List.length bytes) * 8 + (if addquote then 2 else 1) <?
               Z.of_nat (String.length B) +
               (colval_typemod cv - Z.of_nat (String.length B)) + 1) with false
        by (symmetry; apply Z.ltb_ge; destruct addquote; lia).
      cbn [obind].
      replace (Z.to_nat (colval_typemod cv - Z.of_nat (String.length B)))
        with (Z.to_nat (colval_typemod cv) - String.length B)%nat by lia.
      destruct addquote; [|reflexivity].
      rewrite length_append, repeat_char_length.
      replace (Z.of_nat (List.length bytes) * 8 + 2 <?
               Z.of_nat (Z.to_nat (colval_typemod cv) - String.length B +
                         String.length B) + 2) with false
        by (symmetry; apply Z.ltb_ge; lia).
      reflexivity.
    - apply Z.ltb_ge in Epad. cbn [obind].
      replace (Z.to_nat (colval_typemod cv) - String.length B)%nat with 0%nat by lia.
      cbn [C.repeat_char append].
      destruct addquote; [|reflexivity].
      replace (Z.of_nat (List.length bytes) * 8 + 2 <?
               Z.of_nat (String.length B) + 2) with false
        by (symmetry; apply Z.ltb_ge; lia).
      reflexivity. }
  rewrite Hsw. cbn [obind]. unfold transform_out. rewrite Htr. reflexivity.
Qed.

Lemma C6_bit_string_witness :
  pg_b64_decode "BQ==" (pg_b64_dec_len (C.strlen "BQ==")) = Some [5] /\
  processDataByType (Scenario.plain_env false) (Scenario.bit_value "BQ==" 8)
                    true None = Ret (Some "'b00000101'") /\
  processDataByType (Scenario.plain_env false) (Scenario.bit_value "BQ==" 8)
                    false None = Ret (Some "00000101").
Proof.
  split; [reflexivity|]. split.
  - apply (C6_bit_string (Scenario.plain_env false) (Scenario.bit_value "BQ==" 8)
             true None "BQ==" [5]).
    + reflexivity.
    + reflexivity.
    + reflexivity.
    + simpl; lia.
    + simpl; lia.
    + left; reflexivity.
    + simpl; lia.
    + reflexivity.
  - apply (C6_bit_string (Scenario.plain_env false) (Scenario.bit_value "BQ==" 8)
             false None "BQ==" [5]).
    + reflexivity.
    + reflexivity.
    + reflexivity.
    + simpl; lia.
    + simpl; lia.
    + left; reflexivity.
    + simpl; lia.
    + reflexivity.
Defined.

(** Two bytes: the second one is the more significant. *)
Example bit_value_of_two_bytes :
  processDataByType (Scenario.plain_env false) (Scenario.bit_value "AQI=" 12)
                    false None = Ret (Some "001000000001").
Proof. vm_compute. reflexivity. Qed.

(** A raw value that is not base64: the decoded length is -1, and the
    allocation of the result is refused. *)
Example bit_value_of_invalid_base64 :
  processDataByType (Scenario.plain_env false) (Scenario.bit_value "!!!!" 8)
                    true None
  = elog_ERROR "invalid memory alloc request size 18446744073709551612" /\
  processDataByType (Scenario.plain_env false) (Scenario.bit_value "!!!!" 8)
                    false None
  = elog_ERROR "invalid memory alloc request size 18446744073709551609".
Proof. split; vm_compute; reflexivity. Qed.

(** ** Empty values *)

(** A column value whose raw string is empty is decoded to "no value",
    like the word NULL in any spelling, whatever its destination type and
    whether or not quoting was requested. *)
Lemma empty_value_is_no_value :
  forall E cv addquote objid raw,
    colval_value cv = Some raw ->
    raw = "" \/ C.strcaseeq raw "NULL" = true ->
    processDataByType E cv addquote objid = Ret None.
Proof.
  intros E cv addquote objid raw Hv [-> | Hnull];
    unfold processDataByType; rewrite Hv; [reflexivity|].
  destruct (C.strlen raw =? 0); [reflexivity|]. rewrite Hnull. reflexivity.
Qed.

(** On the heap path such a value travels as the text NULL, and the slot
    field filled from that text is marked null. *)
Lemma empty_value_is_a_null_field :
  forall E X cv objid atttypmod f,
    colval_value cv = Some "" ->
    heap_column E objid cv
    = Ret (mk_pgcolval "NULL" (colval_datatype cv) (colval_position cv)) /\
    fill_slot X [atttypmod]
      [mk_pgcolval "NULL" (colval_datatype cv) (colval_position cv)] [f]
    = Ret [Null].
Proof.
  intros E X cv objid atttypmod f Hv. split; [|reflexivity].
  unfold heap_column.
  rewrite (empty_value_is_no_value E cv false objid "" Hv (or_introl eq_refl)).
  reflexivity.
Qed.

(** At the level of whole events: the insert of scenario 2 with an empty
    product. *)
Example insert_with_empty_product :
  let ev := mk_dbzdml "c" 16385 (Some "inv.orders") "inv.orders" []
              [Scenario.column "order_number" "10001" INT4OID 1;
               Scenario.column "quantity" "2" INT4OID 2;
               Scenario.empty_product] in
  (exists q, convert2PGDML (Scenario.plain_env true) ev
             = Ret (mk_pgdml "c" 16385 q [] []) /\
             q = "INSERT INTO inv.orders(order_number,quantity,product) VALUES (10001,2,null);") /\
  (exists after, convert2PGDML (Scenario.plain_env false) ev
             = Ret (mk_pgdml "c" 16385 "" [] after) /\
             List.map pg_value after = ["10001"; "2"; "NULL"] /\
             fill_slot Scenario.text_executor [-1; -1; 68] after [Unset; Unset; Unset]
             = Ret [Datum "10001"; Datum "2"; Null]).
Proof.
  split.
  - eexists. split; vm_compute; reflexivity.
  - eexists. split; [vm_compute; reflexivity|]. split; vm_compute; reflexivity.
Qed.

(** ** Starting a connector *)

Lemma lor_shift_one : forall n, 0 <= n -> Z.lor (Z.shiftl n 1) 1 = 2 * n + 1.
Proof.
  intros n Hn. rewrite Z.shiftl_mul_pow2 by lia. change (2 ^ 1) with 2.
  rewrite Z.mul_comm.
  destruct n as [|p|p]; try lia; reflexivity.
Qed.

Lemma lor_high_bit : forall n : nat,
  (n <= 126)%nat -> Z.lor (1 + Z.of_nat n) 128 = 129 + Z.of_nat n.
Proof.
  intros n Hn.
  assert (Hall : List.forallb
                   (fun k => Z.lor (1 + Z.of_nat k) 128 =? 129 + Z.of_nat k)
                   (List.seq 0 127) = true) by (vm_compute; reflexivity).
  rewrite List.forallb_forall in Hall.
  apply Z.eqb_eq. apply Hall. apply List.in_seq. lia.
Qed.

Lemma byte_behind_header_range : forall t i,
  0 <= byte_behind_header t i < 256.
Proof.
  intros t i. unfold byte_behind_header.
  destruct (String.get i (va_chars t)) as [c|].
  - pose proof (nat_ascii_bounded c). lia.
  - apply Z.mod_pos_bound. lia.
Qed.

Lemma first_byte_of_text : forall t,
  text_ok t = true -> va_chars t <> "" -> 0 < byte_behind_header t 0.
Proof.
  intros t Hok Hne. unfold text_ok in Hok.
  apply Bool.andb_true_iff in Hok. destruct Hok as [_ Hnul].
  unfold byte_behind_header.
  destruct (va_chars t) as [|c r]; [congruence|].
  cbn in Hnul |- *. apply Bool.andb_true_iff in Hnul. destruct Hnul as [Hc _].
  apply Bool.negb_true_iff, Nat.eqb_neq in Hc. lia.
Qed.

(** With the 4-byte header [VARSIZE] is the length of the datum. *)
Lemma VARSIZE_plain : forall bigendian t,
  va_short t = false -> text_ok t = true ->
  VARSIZE bigendian t = VARHDRSZ + Z.of_nat (String.length (va_chars t)).
Proof.
  intros bigendian t Hs Hok. unfold text_ok in Hok. rewrite Hs in Hok.
  apply Bool.andb_true_iff in Hok. destruct Hok as [Hlen _].
  apply Z.ltb_lt in Hlen. unfold VARSIZE, va_header, VARHDRSZ in *. rewrite Hs.
  change 1073741823 with (Z.ones 30).
  destruct bigendian.
  - rewrite !Z.land_ones by lia.
    rewrite (Z.mod_small (4 + _)) by lia. rewrite Z.mod_small by lia.
    reflexivity.
  - rewrite Z.shiftl_mul_pow2 by lia. rewrite Z.shiftr_div_pow2 by lia.
    rewrite Z.land_ones by lia. change (2 ^ 2) with 4.
    rewrite (Z.mod_small (_ * 4)) by lia.
    rewrite Z.div_mul by lia. rewrite Z.mod_small by lia. reflexivity.
Qed.

(** The test for an empty argument sees an empty text that has the 4-byte
    header ... *)
Lemma text_is_empty_plain : forall H t,
  va_short t = false -> text_ok t = true ->
  text_is_empty H t = String.eqb (va_chars t) "".
Proof.
  intros H t Hs Hok. unfold text_is_empty.
  rewrite (VARSIZE_plain _ t Hs Hok). unfold VARHDRSZ.
  replace (4 + Z.of_nat (String.length (va_chars t)) - 4)
    with (Z.of_nat (String.length (va_chars t))) by lia.
  unfold text_ok in Hok. rewrite Hs in Hok.
  apply Bool.andb_true_iff in Hok. destruct Hok as [Hlen _].
  apply Z.ltb_lt in Hlen. unfold VARHDRSZ in Hlen.
  rewrite Z.mod_small by lia.
  destruct (va_chars t); reflexivity.
Qed.

Lemma uint32_difference_zero : forall v,
  0 <= v < 2 ^ 32 -> (v - 4) mod 2 ^ 32 = 0 -> v = 4.
Proof. intros v Hv H. Z.div_mod_to_equations. lia. Qed.

(** ... and never one that has the 1-byte header, empty or not. *)
Lemma text_is_empty_short : forall H t,
  va_short t = true -> text_ok t = true -> text_is_empty H t = false.
Proof.
  intros H t Hs Hok.
  pose proof (byte_behind_header_range t 0) as R0.
  pose proof (byte_behind_header_range t 1) as R1.
  pose proof (byte_behind_header_range t 2) as R2.
  assert (Hlen : (String.length (va_chars t) <= 126)%nat).
  { unfold text_ok in Hok. rewrite Hs in Hok.
    apply Bool.andb_true_iff in Hok. destruct Hok as [Hl _].
    apply Nat.leb_le in Hl. exact Hl. }
  assert (Hfirst : (1 <= String.length (va_chars t))%nat ->
                   0 < byte_behind_header t 0).
  { intros Hl. apply first_byte_of_text; [exact Hok|].
    intros E. rewrite E in Hl. simpl in Hl. lia. }
  unfold text_is_empty, VARSIZE, va_header, VARHDRSZ. rewrite Hs.
  change 1073741823 with (Z.ones 30).
  set (b1 := byte_behind_header t 0) in *.
  set (b2 := byte_behind_header t 1) in *.
  set (b3 := byte_behind_header t 2) in *.
  set (n := String.length (va_chars t)) in *.
  apply Z.eqb_neq. intros E.
  destruct (WORDS_BIGENDIAN H); unfold uint32_of_bytes in E.
  - rewrite (lor_high_bit n Hlen) in E.
    rewrite (Z.mod_small (129 + Z.of_nat n)) in E by lia.
    rewrite Z.land_ones in E by lia.
    set (r := (b1 * 256 + b2) * 256 + b3) in *.
    assert (Hr : 0 <= r < 2 ^ 24) by (unfold r; lia).
    set (q := (129 + Z.of_nat n) / 64) in *.
    set (m := (129 + Z.of_nat n) mod 64) in *.
    assert (Hqm : 129 + Z.of_nat n = 64 * q + m /\ 0 <= m < 64).
    { unfold q, m. split; [apply Z.div_mod; lia|apply Z.mod_pos_bound; lia]. }
    clearbody q m.
    assert (Hmod : (((129 + Z.of_nat n) * 256 + b1) * 256 + b2) * 256 + b3
                   = q * 2 ^ 30 + (m * 2 ^ 24 + r)) by (unfold r; lia).
    assert (Hv : ((((129 + Z.of_nat n) * 256 + b1) * 256 + b2) * 256 + b3)
                   mod 2 ^ 30 = m * 2 ^ 24 + r).
    { symmetry. apply (Z.mod_unique _ _ q); [left; lia|lia]. }
    rewrite Hv in E. apply uint32_difference_zero in E; [|lia].
    assert (m = 0 /\ r = 4) by lia.
    assert (Hn : (1 <= n)%nat) by lia.
    specialize (Hfirst Hn). unfold r in *. lia.
  - rewrite lor_shift_one in E by lia.
    rewrite (Z.mod_small (2 * (1 + Z.of_nat n) + 1)) in E by lia.
    rewrite Z.shiftr_div_pow2 in E by lia. rewrite Z.land_ones in E by lia.
    change (2 ^ 2) with 4 in E.
    set (word := ((b3 * 256 + b2) * 256 + b1) * 256 +
                 (2 * (1 + Z.of_nat n) + 1)) in *.
    assert (Hw : 0 <= word < 2 ^ 32) by (unfold word; lia).
    assert (Hd : 0 <= word / 4 < 2 ^ 30)
      by (split; [apply Z.div_pos; lia|apply Z.div_lt_upper_bound; lia]).
    rewrite (Z.mod_small (word / 4)) in E by lia.
    apply uint32_difference_zero in E; [|lia].
    assert (16 <= word < 20).
    { pose proof (Z.div_mod word 4). pose proof (Z.mod_pos_bound word 4). lia. }
    assert (Hn : (1 <= n)%nat) by (unfold word in *; lia).
    specialize (Hfirst Hn). unfold word in *. lia.
Qed.

Ltac each_argument H :=
  repeat match type of H with
         | Forall _ (_ :: _) =>
             let Hx := fresh "Harg" in
             let Hr := fresh "Hrest" in
             pose proof (Forall_inv H) as Hx;
             pose proof (Forall_inv_tail H) as Hr;
             clear H; rename Hr into H; destruct Hx
         end.

Lemma eqb_empty_iff : forall s, String.eqb s "" = true <-> s = "".
Proof. intros s. apply String.eqb_eq. Qed.

Lemma registration : forall H (worker : BackgroundWorker),
  register_ok H = true -> startup_status H = BGWH_STARTED ->
  (if negb (register_ok H)
   then Raised ERRCODE_INSUFFICIENT_RESOURCES
          "could not register background process"
   else match startup_status H with
        | BGWH_STARTED => Ret (0, worker)
        | _ => Raised ERRCODE_INSUFFICIENT_RESOURCES
                 "could not start background process"
        end) = Ret (0, worker).
Proof. intros H worker -> ->. reflexivity. Qed.

Lemma prepare_bgw_raises : forall connInfo connector code msg,
  prepare_bgw connInfo connector = Raised code msg ->
  code = ERRCODE_INTERNAL_ERROR.
Proof.
  intros connInfo connector code msg H. unfold prepare_bgw in H.
  destruct (fc_get_connector_type connector); cbn [obind fst snd] in H;
    try (injection H as <- _; reflexivity);
    match type of H with
    | (if ?b then _ else _) = _ => destruct b; discriminate
    end.
Qed.

(** Arguments written as literals, which arrive with the 4-byte header:
    a call with an empty hostname, user, password, destination database or
    connector, or with a port of 0 or above 65535, raises an
    invalid-parameter error; any other call never does, and the worker it
    registers is the one prepared from the arguments with null in the
    place of an empty source database and of an empty table list. *)
Lemma start_with_literal_arguments :
  forall H h p u pw s d t c,
    Forall (fun a => va_short a = false /\ text_ok a = true)
           [h; u; pw; s; d; t; c] ->
    0 <= p < 2 ^ 32 ->
    let null_if_empty a := if String.eqb (va_chars a) "" then "null"
                           else va_chars a in
    let connInfo :=
      mk_conninfo (va_chars h) p (va_chars u) (va_chars pw) (null_if_empty s)
                  (va_chars d) (null_if_empty t) in
    ((va_chars h = "" \/ p = 0 \/ 65535 < p \/ va_chars u = "" \/
      va_chars pw = "" \/ va_chars d = "" \/ va_chars c = "") ->
     exists msg, synchdb_start_engine_bgw H h p u pw s d t c
                 = Raised ERRCODE_INVALID_PARAMETER_VALUE msg) /\
    (va_chars h <> "" -> 0 < p <= 65535 -> va_chars u <> "" ->
     va_chars pw <> "" -> va_chars d <> "" -> va_chars c <> "" ->
     (forall msg, synchdb_start_engine_bgw H h p u pw s d t c
                  <> Raised ERRCODE_INVALID_PARAMETER_VALUE msg) /\
     (forall r worker,
        synchdb_start_engine_bgw H h p u pw s d t c = Ret (r, worker) <->
        r = 0 /\ prepare_bgw connInfo (va_chars c) = Ret worker /\
        register_ok H = true /\ startup_status H = BGWH_STARTED)).
Proof.
  intros H h p u pw s d t c Hargs Hp null_if_empty connInfo.
  each_argument Hargs.
  unfold synchdb_start_engine_bgw, invalid_parameter, text_to_cstring.
  rewrite !text_is_empty_plain by assumption.
  rewrite (Z.mod_small p) by lia.
  fold (null_if_empty s). fold (null_if_empty t). fold connInfo.
  split.
  - intros Hbad.
    destruct (String.eqb (va_chars h) "") eqn:Eh; [eexists; reflexivity|].
    destruct (orb (p =? 0) (65535 <? p)) eqn:Ep; [eexists; reflexivity|].
    destruct (String.eqb (va_chars u) "") eqn:Eu; [eexists; reflexivity|].
    destruct (String.eqb (va_chars pw) "") eqn:Epw; [eexists; reflexivity|].
    destruct (String.eqb (va_chars d) "") eqn:Ed; [eexists; reflexivity|].
    destruct (String.eqb (va_chars c) "") eqn:Ec; [eexists; reflexivity|].
    exfalso.
    apply Bool.orb_false_iff in Ep. destruct Ep as [Ep0 Ep1].
    apply Z.eqb_neq in Ep0. apply Z.ltb_ge in Ep1.
    destruct Hbad as [Hb|[Hb|[Hb|[Hb|[Hb|[Hb|Hb]]]]]];
      try (apply eqb_empty_iff in Hb; congruence); lia.
  - intros Hh Hport Hu Hpw Hd Hc.
    assert (Ep : orb (p =? 0) (65535 <? p) = false).
    { apply Bool.orb_false_iff. split; [apply Z.eqb_neq|apply Z.ltb_ge]; lia. }
    rewrite Ep.
    repeat match goal with
           | Hne : ?x <> "" |- context [String.eqb ?x ""] =>
               replace (String.eqb x "") with false
                 by (symmetry; apply String.eqb_neq; exact Hne)
           end.
    destruct (prepare_bgw connInfo (va_chars c)) as [worker|code m|e m|why]
      eqn:Eprep; cbn [obind].
    + split.
      * intros msg. destruct (negb (register_ok H)); [discriminate|].
        destruct (startup_status H); discriminate.
      * intros r w. split.
        -- destruct (register_ok H); cbn [negb]; [|discriminate].
           destruct (startup_status H); try discriminate.
           intros E. injection E as <- <-. auto.
        -- intros (-> & E & Hreg & Hst). injection E as <-.
           apply registration; assumption.
    + apply prepare_bgw_raises in Eprep. subst code.
      split; [intros msg; discriminate|].
      intros r w. split; [discriminate|]. intros (_ & E & _). discriminate.
    + split; [intros msg; discriminate|].
      intros r w. split; [discriminate|]. intros (_ & E & _). discriminate.
    + split; [intros msg; discriminate|].
      intros r w. split; [discriminate|]. intros (_ & E & _). discriminate.
Qed.

(** A start with an empty source database and an empty table list, all
    arguments literals, succeeds, and the worker it registers carries null
    for both. *)
Example start_with_empty_source_and_tables :
  synchdb_start_engine_bgw (Scenario.a_host 0 0 0) (Scenario.literal "127.0.0.1")
    3306 (Scenario.literal "mysqluser") (Scenario.literal "mysqlpwd")
    (Scenario.literal "") (Scenario.literal "postgres") (Scenario.literal "")
    (Scenario.literal "mysql")
  = Ret (0, mk_bgw "synchdb engine: mysql@127.0.0.1:3306 -> postgres"
              "synchdb engine: mysql" "synchdb" "synchdb_engine_main" TYPE_MYSQL
              "127.0.0.1:3306:mysqluser:mysqlpwd:null:postgres:null").
Proof. vm_compute. reflexivity. Qed.

(** C9 at arguments that arrive with the 1-byte header, as values read
    from a table do: the tests read [VARSIZE] of arguments fetched with
    [PG_GETARG_TEXT_PP], so no call with a port from 1 to 65535 raises an
    invalid-parameter error, however many of the arguments are empty,
    where a rejection is asked for; the call succeeds exactly when a
    worker can be prepared from the arguments as they are and is
    registered and started, and an empty source database and an empty
    table list are handed on empty, not as null. *)
Theorem C9_packed_arguments_pass_the_checks :
  forall H h p u pw s d t c,
    Forall (fun a => va_short a = true /\ text_ok a = true)
           [h; u; pw; s; d; t; c] ->
    0 < p <= 65535 ->
    let connInfo :=
      mk_conninfo (va_chars h) p (va_chars u) (va_chars pw) (va_chars s)
                  (va_chars d) (va_chars t) in
    (forall msg, synchdb_start_engine_bgw H h p u pw s d t c
                 <> Raised ERRCODE_INVALID_PARAMETER_VALUE msg) /\
    (forall r worker,
       synchdb_start_engine_bgw H h p u pw s d t c = Ret (r, worker) <->
       r = 0 /\ prepare_bgw connInfo (va_chars c) = Ret worker /\
       register_ok H = true /\ startup_status H = BGWH_STARTED).
Proof.
  intros H h p u pw s d t c Hargs Hp connInfo.
  each_argument Hargs.
  unfold synchdb_start_engine_bgw, invalid_parameter, text_to_cstring.
  rewrite !text_is_empty_short by assumption.
  rewrite (Z.mod_small p) by lia.
  assert (Ep : orb (p =? 0) (65535 <? p) = false).
  { apply Bool.orb_false_iff. split; [apply Z.eqb_neq|apply Z.ltb_ge]; lia. }
  rewrite Ep. fold connInfo.
  destruct (prepare_bgw connInfo (va_chars c)) as [worker|code m|e m|why]
    eqn:Eprep; cbn [obind].
  - split.
    + intros msg. destruct (negb (register_ok H)); [discriminate|].
      destruct (startup_status H); discriminate.
    + intros r w. split.
      * destruct (register_ok H); cbn [negb]; [|discriminate].
        destruct (startup_status H); try discriminate.
        intros E. injection E as <- <-. auto.
      * intros (-> & E & Hreg & Hst). injection E as <-.
        apply registration; assumption.
  - apply prepare_bgw_raises in Eprep. subst code.
    split; [intros msg; discriminate|].
    intros r w. split; [discriminate|]. intros (_ & E & _). discriminate.
  - split; [intros msg; discriminate|].
    intros r w. split; [discriminate|]. intros (_ & E & _). discriminate.
  - split; [intros msg; discriminate|].
    intros r w. split; [discriminate|]. intros (_ & E & _). discriminate.
Qed.

Lemma C9_packed_arguments_pass_the_checks_witness :
  synchdb_start_engine_bgw (Scenario.a_host 0 0 0) (Scenario.from_column "")
    3306 (Scenario.from_column "") (Scenario.from_column "")
    (Scenario.from_column "") (Scenario.from_column "postgres")
    (Scenario.from_column "") (Scenario.from_column "mysql")
  = Ret (0, mk_bgw "synchdb engine: mysql@:3306 -> postgres"
              "synchdb engine: mysql" "synchdb" "synchdb_engine_main" TYPE_MYSQL
              ":3306::::postgres:").
Proof.
  apply (proj2 (C9_packed_arguments_pass_the_checks (Scenario.a_host 0 0 0)
                  (Scenario.from_column "") 3306 (Scenario.from_column "")
                  (Scenario.from_column "") (Scenario.from_column "")
                  (Scenario.from_column "postgres") (Scenario.from_column "")
                  (Scenario.from_column "mysql")
                  ltac:(repeat (apply Forall_cons; [split; reflexivity|]);
                         apply Forall_nil)
                  ltac:(lia))).
  repeat split; reflexivity.
Defined.

(** ** The request handler *)

Ltac flatten_events :=
  repeat rewrite <- List.app_assoc; simpl.

Ltac split_conds :=
  repeat match goal with
         | |- context [if negb ?b then _ else _] => destruct b eqn:?; simpl
         | |- context [if ?b then _ else _] => destruct b eqn:?; simpl
         end.

Ltac run_handler :=
  unfold engine_ok, bind, dbz_engine_stop, dbz_engine_start,
         dbz_engine_set_offset, reset_shm_request_state,
         set_shm_connector_state, elog, call, emit, bind, ret,
         get_sdb_state, put_sdb_state, set_req, set_state, with_info;
  simpl.

Ltac offset_trace :=
  first
    [ eexists (cons _ nil); exists nil; eexists (cons _ nil); reflexivity
    | eexists (cons _ nil); eexists (cons _ (cons _ nil)); exists nil;
      reflexivity ].

Ltac invalid_case :=
  intros Hallowed Hrq;
  first [ discriminate | congruence
        | (split; [left; reflexivity | reflexivity]) ].

Ltac offset_case :=
  intros Hrq Hcur; first [ discriminate | offset_trace ].

Ltac conclude :=
  eexists; (split; [ reflexivity | (split; [ invalid_case | offset_case ]) ]).

Ltac handled := run_handler; split_conds; flatten_events; conclude.

(** C4: for a connector whose status block is attached, handling a request
    - always returns, with the request slot empty again;
    - leaves the connector paused after a pause request met in Syncing,
      syncing after a resume request met in Paused (each when the engine
      call succeeds, unchanged when it fails), paused after an offset
      update met in Paused, and in its old state in every other case;
    - touches nothing else of the connector and no other connector;
    - for any other requested transition, logs the warning and calls
      nothing;
    - for an offset update, writes OffsetUpdate, then calls the engine to
      set the offset, then writes Paused. *)
Theorem C4_request_handling :
  forall H connInfo type w s info,
    sdb_state w = Some s ->
    info_of type s = Some info ->
    let rq := reqstate (req info) in
    let cur := state info in
    exists new_events,
      processRequestInterrupt H connInfo type w
      = (Ret tt,
         mk_world
           (Some (with_info type
                    (fun _ => mk_info (pid info)
                                (Spec.state_after rq cur (engine_ok H rq))
                                (mk_req STATE_UNDEF "") (errmsg info)
                                (srcdb info) (dstdb info)) s))
           (myConnectorId w) (relations w) (events w ++ new_events)) /\
      (Spec.allowed rq cur = false -> rq <> STATE_UNDEF ->
       List.In (Elog WARNING
                  (transition_message "Invalid state transition requested for"
                     type cur rq)) new_events /\
       List.existsb is_call new_events = false) /\
      (rq = STATE_OFFSET_UPDATE -> cur = STATE_PAUSED ->
       exists before between after,
         new_events =
           (before ++
            [Elog DEBUG1 (state_set_message type STATE_OFFSET_UPDATE);
             Call "dbz_engine_set_offset"
                  [connectorTypeToString type; srcdb info;
                   reqdata (req info); offset_file H type]] ++
            between ++
            [Elog DEBUG1 (state_set_message type STATE_PAUSED)] ++ after)%list).
Proof.
  intros H connInfo type w s info Hs Hinfo rq cur.
  destruct w as [sdb myid rels evs]. simpl in Hs. subst sdb.
  destruct info as [ipid ist [irq idata] ierr isrc idst].
  destruct s as [my ora ss].
  subst rq cur. simpl.
  unfold processRequestInterrupt, bind, get_sdb_state. simpl.
  destruct type; simpl in Hinfo; try discriminate;
    injection Hinfo as Hinfo; subst; simpl;
    destruct irq, ist; simpl; handled.
Qed.

Lemma C4_request_handling_witness :
  exists new_events,
    processRequestInterrupt (Scenario.a_host 0 0 0) Scenario.a_conninfo TYPE_MYSQL
      (Scenario.mysql_worker STATE_SYNCING STATE_PAUSED "")
    = (Ret tt,
       mk_world (Some (mk_shared (Scenario.idle STATE_PAUSED)
                                 (Scenario.idle STATE_STOPPED)
                                 (Scenario.idle STATE_STOPPED)))
                TYPE_MYSQL [(16385, Scenario.orders)] new_events).
Proof.
  destruct (C4_request_handling (Scenario.a_host 0 0 0) Scenario.a_conninfo
              TYPE_MYSQL (Scenario.mysql_worker STATE_SYNCING STATE_PAUSED "")
              _ _ eq_refl eq_refl) as [new_events [Hrun _]].
  exists new_events. exact Hrun.
Defined.

(** Scenario 6: a pause request met in Syncing, then an offset update met
    in Paused.  The connector ends paused with an empty slot, and the
    engine has been stopped and then given the offset. *)
Example pause_then_set_offset :
  let H := Scenario.a_host 0 0 0 in
  let w0 := Scenario.mysql_worker STATE_SYNCING STATE_PAUSED "" in
  let w1 := snd (processRequestInterrupt H Scenario.a_conninfo TYPE_MYSQL w0) in
  let posted :=
    mk_world (option_map
                (with_info TYPE_MYSQL (set_req (mk_req STATE_OFFSET_UPDATE "X")))
                (sdb_state w1))
             (myConnectorId w1) (relations w1) (events w1) in
  let w2 := snd (processRequestInterrupt H Scenario.a_conninfo TYPE_MYSQL posted) in
  sdb_state w2 = Some (mk_shared (Scenario.idle STATE_PAUSED)
                                 (Scenario.idle STATE_STOPPED)
                                 (Scenario.idle STATE_STOPPED)) /\
  List.filter is_call (events w2)
  = [Call "dbz_engine_stop" [];
     Call "dbz_engine_set_offset"
          ["MYSQL"; "inventory"; "X"; "pg_synchdb/mysql_offsets.dat"]].
Proof. split; vm_compute; reflexivity. Qed.

(** ** Applying an update that finds no row *)

Lemma with_info_lookup : forall type f s info,
  info_of type s = Some info ->
  info_of type (with_info type f s) = Some (f info).
Proof.
  intros type f s info H. destruct type; simpl in *; try discriminate;
    injection H as H; subst; reflexivity.
Qed.

Lemma run_my_state : forall st w s info,
  sdb_state w = Some s ->
  info_of (myConnectorId w) s = Some info ->
  my_state st w
  = (Ret tt,
     mk_world (Some (with_info (myConnectorId w) (set_state st) s))
              (myConnectorId w) (relations w)
              (events w ++ [Elog DEBUG1 (state_set_message (myConnectorId w) st)])).
Proof.
  intros st w s info Hs Hinfo. destruct w as [sdb myid rels evs].
  simpl in *. subst sdb.
  unfold my_state, set_shm_connector_state, bind, get_sdb_state. simpl.
  destruct myid; simpl in Hinfo; try discriminate; reflexivity.
Qed.

(** C8: in tuple mode, when the lookup of the before-image (by the identity
    or primary-key index if the relation has one, by sequential scan
    otherwise) finds no live row, the update handler logs "tuple to update
    not found", commits its transaction with every table as it was, and
    returns -1 without raising; the caller logs the failure and puts the
    connector back to Syncing. *)
Theorem C8_update_miss :
  forall E X type pgdml w s info rel remoteslot,
    synchdb_dml_use_spi E = false ->
    pg_op pgdml = "u"%char ->
    sdb_state w = Some s ->
    info_of (myConnectorId w) s = Some info ->
    lookup_relation (relations w) (pg_tableoid pgdml) = Some rel ->
    fill_slot X (rel_atttypmod rel) (pg_columnValuesBefore pgdml) (new_slot rel)
    = Ret remoteslot ->
    located X rel remoteslot = None ->
    execute_dml_step E X type pgdml w
    = (Ret (-1),
       mk_world
         (Some (with_info (myConnectorId w) (set_state STATE_SYNCING) s))
         (myConnectorId w) (relations w)
         (events w ++
          [Elog DEBUG1 (state_set_message (myConnectorId w) STATE_EXECUTING);
           Elog DEBUG1 "executing PG DML change event...";
           Call "StartTransactionCommand" [];
           Elog WARNING (find_message rel);
           Elog WARNING "tuple to update not found";
           Call "CommitTransactionCommand" [];
           Elog WARNING "failed to execute PG DML change event";
           Elog DEBUG1 (state_set_message (myConnectorId w) STATE_SYNCING)])).
Proof.
  intros E X type pgdml w s info rel remoteslot Hspi Hop Hs Hinfo Hrel Hfill Hmiss.
  unfold execute_dml_step.
  unfold bind at 1. rewrite (run_my_state _ _ _ _ Hs Hinfo).
  destruct w as [sdb myid rels evs]. simpl in *. subst sdb.
  unfold bind, elog, emit, ret. simpl.
  unfold ra_executePGDML. rewrite Hop, Hspi. simpl.
  unfold synchdb_handle_update, try_rethrow, bind, StartTransactionCommand,
    call, emit, get_relations, table_open, lift. simpl.
  rewrite Hrel. simpl. rewrite Hfill.
  unfold find_old_tuple, located, find_message in *.
  destruct (rel_replident rel) as [idx|]; unfold bind, elog, emit, ret; simpl;
    rewrite Hmiss; simpl;
    unfold CommitTransactionCommand, my_state, set_shm_connector_state, bind,
      get_sdb_state, elog, emit, put_sdb_state; simpl;
    destruct myid; simpl in Hinfo; try discriminate; simpl;
    repeat rewrite <- List.app_assoc; simpl; reflexivity.
Qed.

Lemma C8_update_miss_witness :
  execute_dml_step (Scenario.plain_env false) Scenario.keyed_executor TYPE_MYSQL
    (Scenario.update_order "10002")
    (Scenario.mysql_worker STATE_PARSING STATE_UNDEF "")
  = (Ret (-1),
     mk_world
       (Some (mk_shared (Scenario.idle STATE_SYNCING) (Scenario.idle STATE_STOPPED)
                        (Scenario.idle STATE_STOPPED)))
       TYPE_MYSQL [(16385, Scenario.orders)]
       [Elog DEBUG1 "Set state for connector type 1 to executing";
        Elog DEBUG1 "executing PG DML change event...";
        Call "StartTransactionCommand" [];
        Elog WARNING "attempt to find old tuple by index";
        Elog WARNING "tuple to update not found";
        Call "CommitTransactionCommand" [];
        Elog WARNING "failed to execute PG DML change event";
        Elog DEBUG1 "Set state for connector type 1 to syncing"]).
Proof.
  exact (C8_update_miss (Scenario.plain_env false) Scenario.keyed_executor
           TYPE_MYSQL (Scenario.update_order "10002")
           (Scenario.mysql_worker STATE_PARSING STATE_UNDEF "")
           _ _ Scenario.orders
           [Datum "10002"; Datum "2"; Datum "widget"]
           eq_refl eq_refl eq_refl eq_refl eq_refl eq_refl eq_refl).
Defined.

(** The same update aimed at the row that exists does change it. *)
Example update_hit_changes_the_row :
  execute_dml_step (Scenario.plain_env false) Scenario.keyed_executor TYPE_MYSQL
    (Scenario.update_order "10001")
    (Scenario.mysql_worker STATE_PARSING STATE_UNDEF "")
  = (Ret 0,
     mk_world
       (Some (mk_shared (Scenario.idle STATE_SYNCING) (Scenario.idle STATE_STOPPED)
                        (Scenario.idle STATE_STOPPED)))
       TYPE_MYSQL
       [(16385, Scenario.with_rows Scenario.orders
                  [[Datum "10001"; Datum "3"; Datum "widget"]])]
       [Elog DEBUG1 "Set state for connector type 1 to executing";
        Elog DEBUG1 "executing PG DML change event...";
        Call "StartTransactionCommand" [];
        Elog WARNING "attempt to find old tuple by index";
        Call "CommitTransactionCommand" [];
        Elog DEBUG1 "Set state for connector type 1 to syncing";
        Elog DEBUG1 "execution completed. Clean up..."]).
Proof. vm_compute. reflexivity. Qed.

(** ** Quoting and escaping *)

Lemma undouble_escape_quotes : forall s, Spec.undouble (escape_quotes s) = s.
Proof.
  induction s as [|c r IH]; [reflexivity|].
  cbn [escape_quotes].
  destruct (Ascii.eqb c "'") eqn:E.
  - apply Ascii.eqb_eq in E. subst c.
    cbn [Spec.undouble]. change (Ascii.eqb "'" "'") with true. cbv iota.
    rewrite IH. reflexivity.
  - cbn [Spec.undouble]. rewrite E, IH. reflexivity.
Qed.

(** X1: What [escapeSingleQuote] writes can be read back: un-doubling the
    quotes of its result gives the input, and with [addquote] the same text
    stands between two quotes. *)
Theorem escapeSingleQuote_is_lossless : forall s t,
  Spec.undouble (escapeSingleQuote s false) = s /\
  escapeSingleQuote s true = "'" ++ escapeSingleQuote s false ++ "'" /\
  (escapeSingleQuote s false = escapeSingleQuote t false -> s = t).
Proof.
  intros s t. unfold escapeSingleQuote.
  split; [apply undouble_escape_quotes|]. split; [reflexivity|].
  intros H. rewrite <- (undouble_escape_quotes s), <- (undouble_escape_quotes t).
  rewrite H. reflexivity.
Qed.

(** ** Hexadecimal text of a byte array *)

Lemma hex_digit_value : forall n, 0 <= n < 16 -> Spec.hex_value (C.hex_digit n) = n.
Proof.
  intros n Hn.
  assert (H : forallb (fun k => Spec.hex_value (C.hex_digit (Z.of_nat k)) =? Z.of_nat k)
                (seq 0 16) = true) by (vm_compute; reflexivity).
  rewrite forallb_forall in H. specialize (H (Z.to_nat n)).
  rewrite Z2Nat.id in H by lia. apply Z.eqb_eq. apply H. apply in_seq. lia.
Qed.

Lemma concat_empty_cons : forall x l,
  String.concat "" (x :: l) = x ++ String.concat "" l.
Proof.
  intros x [|y l]; cbn [String.concat]; [rewrite append_empty|]; reflexivity.
Qed.

Lemma hex_text : forall bytes, Forall Spec.is_byte bytes ->
  let hex := String.concat "" (List.map C.fmt_02X bytes) in
  String.length hex = (2 * List.length bytes)%nat /\ Spec.from_hex hex = bytes.
Proof.
  intros bytes H. cbv zeta. induction H as [|b bytes Hb Hrest IH].
  - split; reflexivity.
  - cbn [List.map]. rewrite concat_empty_cons.
    destruct IH as [IHl IHv]. unfold C.fmt_02X at 1 3.
    cbn [append String.length Spec.from_hex List.length].
    rewrite IHl, IHv. unfold Spec.is_byte in Hb.
    rewrite !hex_digit_value by (Z.div_mod_to_equations; lia).
    split; [lia|]. f_equal. Z.div_mod_to_equations. lia.
Qed.

(** ** Binary digits *)

Lemma skip_zeros_cons : forall c r,
  skip_zeros (String c r) = if Ascii.eqb c "0" then skip_zeros r else String c r.
Proof. intros c r. destruct c as [[] [] [] [] [] [] [] []]; reflexivity. Qed.

Lemma skip_zeros_head : forall s,
  skip_zeros s = "" \/
  exists c r, skip_zeros s = String c r /\ Ascii.eqb c "0" = false.
Proof.
  induction s as [|c r IH]; [left; reflexivity|].
  rewrite skip_zeros_cons. destruct (Ascii.eqb c "0") eqn:E; [exact IH|].
  right. exists c, r. split; [reflexivity|exact E].
Qed.

Lemma bits_value_nonneg : forall s acc, 0 <= acc -> 0 <= Spec.bits_value acc s.
Proof.
  induction s as [|c r IH]; intros acc H; cbn [Spec.bits_value]; [exact H|].
  apply IH. destruct (Ascii.eqb c "1"); lia.
Qed.

(** X2: [trim_leading_zeros] never leaves an empty string, leaves a leading
    zero only in the single digit 0, changes nothing when applied again,
    and keeps the number a string of binary digits denotes. *)
Theorem trim_leading_zeros_canonical : forall s,
  (exists c r, trim_leading_zeros s = String c r /\
               (c = "0"%char -> r = "")) /\
  trim_leading_zeros (trim_leading_zeros s) = trim_leading_zeros s /\
  (Spec.all_bits s = true ->
   Spec.bits_value 0 (trim_leading_zeros s) = Spec.bits_value 0 s).
Proof.
  intros s.
  assert (Hshape : trim_leading_zeros s = "0" \/
                   exists c r, trim_leading_zeros s = String c r /\
                               Ascii.eqb c "0" = false).
  { unfold trim_leading_zeros.
    destruct (skip_zeros_head s) as [-> | (c & r & -> & Hc)];
      [left; reflexivity|right; exists c, r; auto]. }
  split; [|split].
  - destruct Hshape as [-> | (c & r & -> & Hc)].
    + exists "0"%char, "". auto.
    + exists c, r. split; [reflexivity|]. intros ->. discriminate Hc.
  - destruct Hshape as [-> | (c & r & -> & Hc)]; [reflexivity|].
    unfold trim_leading_zeros. rewrite skip_zeros_cons, Hc. reflexivity.
  - intros Hbits. rewrite (trim_leading_zeros_binary s Hbits).
    pose proof (bits_value_nonneg s 0 (Z.le_refl 0)) as Hnn.
    destruct (Spec.bits_value 0 s) as [|p|p] eqn:Ev; [reflexivity| |lia].
    cbn [Spec.binary].
    assert (G : forall q acc n, Spec.bits_value n (Spec.binary_pos q acc)
                                = Spec.bits_value (n * 2 ^ Z.of_nat (Pos.size_nat q) + Zpos q) acc).
    { induction q as [q IHq|q IHq|]; intros acc n; cbn [Spec.binary_pos Pos.size_nat].
      - rewrite IHq. cbn [Spec.bits_value]. change (Ascii.eqb "1" "1") with true.
        cbv iota. f_equal. rewrite Nat2Z.inj_succ, Z.pow_succ_r by lia. lia.
      - rewrite IHq. cbn [Spec.bits_value]. change (Ascii.eqb "0" "1") with false.
        cbv iota. f_equal. rewrite Nat2Z.inj_succ, Z.pow_succ_r by lia. lia.
      - cbn [Spec.bits_value]. change (Ascii.eqb "1" "1") with true. cbv iota.
        f_equal. change (2 ^ Z.of_nat 1) with 2. lia. }
    rewrite G. cbn [Spec.bits_value]. lia.
Qed.

(** X3: [bytes_to_binary_string] writes eight binary digits for every byte,
    and read as one number they are the bytes read as a big-endian
    number. *)
Theorem bytes_to_binary_string_value : forall bytes,
  Forall Spec.is_byte bytes ->
  String.length (bytes_to_binary_string bytes) = (8 * List.length bytes)%nat /\
  Spec.all_bits (bytes_to_binary_string bytes) = true /\
  Spec.bits_value 0 (bytes_to_binary_string bytes) = Spec.be_unsigned bytes.
Proof.
  intros bytes H.
  destruct (bytes_to_binary_string_facts bytes H) as (F1 & F2 & F3).
  split; [exact F2|]. split; [exact F1|]. exact F3.
Qed.

Lemma bytes_to_binary_string_value_witness :
  Forall Spec.is_byte [1; 2] /\
  bytes_to_binary_string [1; 2] = "0000000100000010" /\
  Spec.bits_value 0 (bytes_to_binary_string [1; 2]) = Spec.be_unsigned [1; 2].
Proof.
  assert (H : Forall Spec.is_byte [1; 2])
    by (repeat constructor; unfold Spec.is_byte; lia).
  split; [exact H|]. split; [reflexivity|].
  exact (proj2 (proj2 (bytes_to_binary_string_value [1; 2] H))).
Defined.

Lemma append_assoc : forall a b c : string, (a ++ b) ++ c = a ++ (b ++ c).
Proof.
  induction a as [|x a IH]; intros b c; cbn [append]; [reflexivity|].
  rewrite IH. reflexivity.
Qed.

(** X4: [reverse_byte_array] reverses an array of at least one byte, so a
    second call restores it. *)
Theorem reverse_byte_array_reverses : forall bytes,
  (1 <= List.length bytes)%nat ->
  Z.of_nat (List.length bytes) < 2 ^ 31 ->
  reverse_byte_array bytes (Z.of_nat (List.length bytes)) = Ret (rev bytes) /\
  reverse_byte_array (rev bytes) (Z.of_nat (List.length bytes)) = Ret bytes.
Proof.
  intros bytes Hlen Hsmall. split.
  - apply reverse_byte_array_rev; [exact Hlen|lia].
  - rewrite <- (length_rev bytes).
    rewrite reverse_byte_array_rev by (rewrite length_rev; lia).
    rewrite rev_involutive. reflexivity.
Qed.

Lemma reverse_byte_array_reverses_witness :
  reverse_byte_array [1; 2; 3] 3 = Ret [3; 2; 1] /\
  reverse_byte_array [3; 2; 1] 3 = Ret [1; 2; 3].
Proof.
  apply (reverse_byte_array_reverses [1; 2; 3]); simpl; lia.
Defined.

(** With no byte at all the loop of [reverse_byte_array] starts from
    [end = (size_t) -1] and reads outside the array. *)
Example reverse_byte_array_of_nothing :
  reverse_byte_array [] 0 = Undefined "access outside the array".
Proof. reflexivity. Qed.

(** X5: [derive_value_from_byte] on 1 to 8 bytes: the big-endian two's
    complement value, except that 8 bytes with the top bit set ask for a
    shift by 64 bits. *)
Theorem derive_value_from_byte_signed : forall bytes,
  Forall Spec.is_byte bytes ->
  (1 <= List.length bytes <= 8)%nat ->
  derive_value_from_byte bytes (Z.of_nat (List.length bytes))
  = if andb (Nat.eqb (List.length bytes) 8) (128 <=? List.nth 0 bytes 0)
    then Undefined "shift count exceeds the width of long"
    else Ret (Spec.be_signed bytes).
Proof.
  intros bytes Hb Hlen.
  destruct (andb (Nat.eqb (List.length bytes) 8) (128 <=? List.nth 0 bytes 0))
    eqn:E.
  - apply andb_true_iff in E. destruct E as [E8 Etop].
    apply Nat.eqb_eq in E8. apply Z.leb_le in Etop.
    assert (Hb0 : Spec.is_byte (List.nth 0 bytes 0)).
    { destruct bytes as [|b rest]; [simpl in Hlen; lia|].
      inversion Hb; assumption. }
    unfold derive_value_from_byte.
    rewrite (byte_msb _ Hb0).
    replace (List.nth 0 bytes 0 <? 128) with false
      by (symmetry; apply Z.ltb_ge; lia).
    rewrite E8. reflexivity.
  - apply derive_value_is_signed; [exact Hb|exact Hlen|].
    intros E8. apply andb_false_iff in E. destruct E as [E | E].
    + apply Nat.eqb_neq in E. contradiction.
    + apply Z.leb_gt in E. exact E.
Qed.

Lemma derive_value_from_byte_signed_witness :
  derive_value_from_byte [255; 133] 2 = Ret (-123) /\
  derive_value_from_byte [1; 125] 2 = Ret 381.
Proof.
  split.
  - apply (derive_value_from_byte_signed [255; 133]).
    + repeat constructor; unfold Spec.is_byte; lia.
    + simpl; lia.
  - apply (derive_value_from_byte_signed [1; 125]).
    + repeat constructor; unfold Spec.is_byte; lia.
    + simpl; lia.
Defined.

(** ** Object ids *)

Lemma count_dots_app : forall a b,
  count_dots (a ++ b) = (count_dots a + count_dots b)%nat.
Proof.
  induction a as [|c a IH]; intros b; cbn [append count_dots]; [reflexivity|].
  rewrite IH. destruct (Ascii.eqb c "."); reflexivity.
Qed.

Lemma strtok_dots_word : forall a s cur,
  count_dots a = 0%nat ->
  strtok_dots (a ++ s) cur = strtok_dots s (cur ++ a).
Proof.
  induction a as [|c a IH]; intros s cur H.
  - rewrite append_empty. reflexivity.
  - cbn [count_dots] in H. cbn [append strtok_dots].
    destruct (Ascii.eqb c ".") eqn:E; [discriminate H|].
    rewrite (IH s _ H), append_assoc. reflexivity.
Qed.

Lemma strtok_dots_last : forall a,
  count_dots a = 0%nat -> a <> "" -> strtok_dots a "" = [a].
Proof.
  intros a H Hne.
  rewrite <- (append_empty a) at 1.
  rewrite (strtok_dots_word a "" "" H). cbn [append strtok_dots].
  destruct a; [contradiction|reflexivity].
Qed.

Lemma strtok_dots_first : forall a s,
  count_dots a = 0%nat -> a <> "" ->
  strtok_dots (a ++ "." ++ s) "" = a :: strtok_dots s "".
Proof.
  intros a s H Hne.
  rewrite (strtok_dots_word a _ "" H). cbn [append strtok_dots].
  change (Ascii.eqb "." ".") with true. cbv iota.
  destruct a; [contradiction|reflexivity].
Qed.

(** X6: [splitIdString] on names without dots: three parts are database,
    schema and table; two parts are database and table, or schema and
    table, as the caller asks; one part is the table; with more than two
    dots nothing comes back. *)
Theorem splitIdString_parts : forall a b c usedb,
  count_dots a = 0%nat -> count_dots b = 0%nat -> count_dots c = 0%nat ->
  a <> "" -> b <> "" -> c <> "" ->
  splitIdString (a ++ "." ++ b ++ "." ++ c) usedb = (Some a, Some b, Some c) /\
  splitIdString (a ++ "." ++ b) true = (Some a, None, Some b) /\
  splitIdString (a ++ "." ++ b) false = (None, Some a, Some b) /\
  splitIdString a usedb = (None, None, Some a) /\
  (forall rest, splitIdString (a ++ "." ++ b ++ "." ++ c ++ "." ++ rest) usedb
                = (None, None, None)).
Proof.
  intros a b c usedb Ha Hb Hc Na Nb Nc.
  assert (D1 : count_dots (a ++ "." ++ b) = 1%nat).
  { rewrite !count_dots_app, Ha, Hb. reflexivity. }
  assert (D2 : count_dots (a ++ "." ++ b ++ "." ++ c) = 2%nat).
  { rewrite !count_dots_app, Ha, Hb, Hc. reflexivity. }
  assert (T1 : strtok_dots (a ++ "." ++ b) "" = [a; b]).
  { rewrite (strtok_dots_first a _ Ha Na), (strtok_dots_last b Hb Nb).
    reflexivity. }
  assert (T2 : strtok_dots (a ++ "." ++ b ++ "." ++ c) "" = [a; b; c]).
  { rewrite (strtok_dots_first a _ Ha Na), (strtok_dots_first b _ Hb Nb),
      (strtok_dots_last c Hc Nc). reflexivity. }
  unfold splitIdString.
  split; [rewrite D2, T2; reflexivity|].
  split; [rewrite D1, T1; reflexivity|].
  split; [rewrite D1, T1; reflexivity|].
  split; [rewrite Ha; reflexivity|].
  intros rest.
  rewrite !count_dots_app, Ha, Hb, Hc. cbn [count_dots].
  change (Ascii.eqb "." ".") with true. cbv iota. cbn [Nat.add]. reflexivity.
Qed.

Lemma splitIdString_parts_witness :
  splitIdString "testDB.dbo.orders" true
  = (Some "testDB", Some "dbo", Some "orders") /\
  splitIdString "inv.orders" true = (Some "inv", None, Some "orders") /\
  splitIdString "inv.orders" false = (None, Some "inv", Some "orders").
Proof.
  assert (H := splitIdString_parts "testDB" "dbo" "orders" true
                 eq_refl eq_refl eq_refl
                 ltac:(discriminate) ltac:(discriminate) ltac:(discriminate)).
  assert (G := splitIdString_parts "inv" "orders" "x" true
                 eq_refl eq_refl eq_refl
                 ltac:(discriminate) ltac:(discriminate) ltac:(discriminate)).
  split; [exact (proj1 H)|].
  split; [exact (proj1 (proj2 G))|exact (proj1 (proj2 (proj2 G)))].
Defined.

(** ** Building SQL text *)

Lemma substring_prefix : forall a b,
  String.substring 0 (String.length a) (a ++ b) = a.
Proof.
  induction a as [|c a IH]; intros b; cbn [String.length append String.substring].
  - destruct b; reflexivity.
  - rewrite IH. reflexivity.
Qed.

Lemma chop_suffix : forall s t, C.chop (String.length t) (s ++ t) = s.
Proof.
  intros s t. unfold C.chop. rewrite length_append.
  replace (String.length s + String.length t - String.length t)%nat
    with (String.length s) by lia.
  apply substring_prefix.
Qed.

Lemma concat_trailing : forall sep l, l <> [] ->
  String.concat "" (List.map (fun p => p ++ sep) l) = String.concat sep l ++ sep.
Proof.
  intros sep l. induction l as [|x l IH]; intros H; [contradiction|].
  cbn [List.map]. rewrite concat_empty_cons.
  destruct l as [|y l]; [cbn; rewrite append_empty; reflexivity|].
  rewrite IH by discriminate.
  change (String.concat sep (x :: y :: l))
    with (x ++ sep ++ String.concat sep (y :: l)).
  rewrite !append_assoc. reflexivity.
Qed.

Lemma foreach_append_values : forall {A B} (l : list A) (vs : list B)
  (body : A -> outcome string) (piece : A -> B -> string) strinfo,
  Forall2 (fun x v => body x = Ret (piece x v)) l vs ->
  foreach_append l body strinfo
  = Ret (strinfo ++ String.concat ""
                      (List.map (fun p => piece (fst p) (snd p)) (List.combine l vs))).
Proof.
  intros A B l vs body piece strinfo H. revert strinfo.
  induction H as [|x v l vs Hx Hrest IH]; intros strinfo.
  - cbn. rewrite append_empty. reflexivity.
  - cbn [foreach_append List.combine List.map]. rewrite Hx. cbn [obind].
    rewrite IH, concat_empty_cons, append_assoc. reflexivity.
Qed.

Lemma foreach_append_pure : forall {A} (l : list A) (f : A -> string) strinfo,
  foreach_append l (fun x => Ret (f x)) strinfo
  = Ret (strinfo ++ String.concat "" (List.map f l)).
Proof.
  intros A l f. induction l as [|x l IH]; intros strinfo.
  - cbn. rewrite append_empty. reflexivity.
  - cbn [foreach_append List.map obind]. rewrite IH, concat_empty_cons, append_assoc.
    reflexivity.
Qed.

Lemma foreach_collect_values : forall {A B} (l : list A) (ys : list B)
  (body : A -> outcome B),
  Forall2 (fun x y => body x = Ret y) l ys ->
  foreach_collect l body = Ret ys.
Proof.
  intros A B l ys body H. induction H as [|x y l ys Hx Hrest IH]; [reflexivity|].
  cbn [foreach_collect]. rewrite Hx. cbn [obind]. rewrite IH. reflexivity.
Qed.

Lemma map_combine_pieces : forall {A B} (f : A -> B -> string) sep (l : list A) (vs : list B),
  List.map (fun p => f (fst p) (snd p) ++ sep) (List.combine l vs)
  = List.map (fun p => p ++ sep)
      (List.map (fun p => f (fst p) (snd p)) (List.combine l vs)).
Proof. intros. rewrite List.map_map. reflexivity. Qed.

Lemma Forall2_combine_nil : forall {A B} (R : A -> B -> Prop) l vs,
  Forall2 R l vs -> l <> [] -> List.combine l vs <> [].
Proof. intros A B R l vs H Hne. destruct H; [contradiction|discriminate]. Qed.

(** X7: In SQL mode an insert (op c or r) with at least one column becomes
    INSERT INTO table(names) VALUES (values);, the names and the decoded
    values in the order of the event, separated by commas; a value the
    decoder returns none for is written null. *)
Theorem convert2PGDML_insert_statement :
  forall E ev vals,
    synchdb_dml_use_spi E = true ->
    dbz_op ev = "c"%char \/ dbz_op ev = "r"%char ->
    dbz_columnValuesAfter ev <> [] ->
    Forall2 (fun cv v => processDataByType E cv true (dbz_remoteObjectId ev) = Ret v)
            (dbz_columnValuesAfter ev) vals ->
    convert2PGDML E ev
    = Ret (mk_pgdml (dbz_op ev) (dbz_tableoid ev)
             ("INSERT INTO " ++ dbz_mappedObjectId ev ++ "(" ++
              String.concat "," (List.map colval_name (dbz_columnValuesAfter ev)) ++
              ") VALUES (" ++
              String.concat "," (List.map (fun v => null_or v "null") vals) ++
              ");")
             [] []).
Proof.
  intros E ev vals Hspi Hop Hne Hvals.
  unfold convert2PGDML. rewrite Hspi.
  replace (orb (Ascii.eqb (dbz_op ev) "r") (Ascii.eqb (dbz_op ev) "c")) with true
    by (destruct Hop as [-> | ->]; reflexivity).
  rewrite (foreach_append_pure (dbz_columnValuesAfter ev)
             (fun colval => colval_name colval ++ ",")).
  cbn [obind].
  rewrite <- (List.map_map colval_name (fun p => p ++ ",")).
  rewrite concat_trailing
    by (destruct (dbz_columnValuesAfter ev); [contradiction|discriminate]).
  rewrite <- !append_assoc.
  rewrite (chop_suffix _ ","). 
  rewrite (foreach_append_values (dbz_columnValuesAfter ev) vals _
             (fun _ v => null_or v "null" ++ ",")).
  2:{ eapply Forall2_impl; [|exact Hvals]. intros cv v Hcv. cbv beta.
      rewrite Hcv. reflexivity. }
  cbn [obind].
  rewrite (map_combine_pieces (fun _ v => null_or v "null") ",").
  rewrite concat_trailing.
  2:{ intros Hnil. apply List.map_eq_nil in Hnil.
      exact (Forall2_combine_nil _ _ _ Hvals Hne Hnil). }
  rewrite <- !append_assoc. rewrite (chop_suffix _ ",").
  assert (Hmap : List.map (fun p : DBZ_DML_COLUMN_VALUE * option string =>
                             null_or (snd p) "null")
                          (List.combine (dbz_columnValuesAfter ev) vals)
                 = List.map (fun v => null_or v "null") vals).
  { clear - Hvals. induction Hvals; cbn; [reflexivity|]. rewrite IHHvals. reflexivity. }
  rewrite Hmap. rewrite !append_assoc. reflexivity.
Qed.

Lemma convert2PGDML_insert_statement_witness :
  convert2PGDML (Scenario.plain_env true) Scenario.insert_order
  = Ret (mk_pgdml "c" 16385
           "INSERT INTO inv.orders(order_number,quantity,product) VALUES (10001,2,null);"
           [] []).
Proof.
  apply (convert2PGDML_insert_statement (Scenario.plain_env true)
           Scenario.insert_order [Some "10001"; Some "2"; None]).
  - reflexivity.
  - left; reflexivity.
  - discriminate.
  - repeat constructor.
Defined.

(** X8: In tuple mode an insert hands over one value per column, in the order
    of the event, each with the type and position of its column; a value
    the decoder returns none for is the text NULL. *)
Theorem convert2PGDML_insert_tuple :
  forall E ev vals,
    synchdb_dml_use_spi E = false ->
    dbz_op ev = "c"%char \/ dbz_op ev = "r"%char ->
    Forall2 (fun cv v => processDataByType E cv false (dbz_remoteObjectId ev) = Ret v)
            (dbz_columnValuesAfter ev) vals ->
    convert2PGDML E ev
    = Ret (mk_pgdml (dbz_op ev) (dbz_tableoid ev) "" []
             (List.map (fun p => mk_pgcolval (null_or (snd p) "NULL")
                                             (colval_datatype (fst p))
                                             (colval_position (fst p)))
                       (List.combine (dbz_columnValuesAfter ev) vals))).
Proof.
  intros E ev vals Hspi Hop Hvals.
  unfold convert2PGDML. rewrite Hspi.
  replace (orb (Ascii.eqb (dbz_op ev) "r") (Ascii.eqb (dbz_op ev) "c")) with true
    by (destruct Hop as [-> | ->]; reflexivity).
  rewrite (foreach_collect_values (dbz_columnValuesAfter ev)
             (List.map (fun p => mk_pgcolval (null_or (snd p) "NULL")
                                             (colval_datatype (fst p))
                                             (colval_position (fst p)))
                       (List.combine (dbz_columnValuesAfter ev) vals))).
  - reflexivity.
  - clear - Hvals. induction Hvals as [|cv v l vs Hcv Hrest IH]; cbn; constructor.
    + unfold heap_column. rewrite Hcv. reflexivity.
    + exact IH.
Qed.

Lemma convert2PGDML_insert_tuple_witness :
  convert2PGDML (Scenario.plain_env false) Scenario.insert_order
  = Ret (mk_pgdml "c" 16385 "" []
           [mk_pgcolval "10001" INT4OID 1; mk_pgcolval "2" INT4OID 2;
            mk_pgcolval "widget" VARCHAROID 3]).
Proof.
  apply (convert2PGDML_insert_tuple (Scenario.plain_env false)
           Scenario.insert_order [Some "10001"; Some "2"; Some "widget"]).
  - reflexivity.
  - left; reflexivity.
  - repeat constructor.
Defined.

(** The first column whose decoding raises an error ends the conversion
    with that error, in either mode of an insert. *)
Lemma foreach_collect_raises : forall {A B} (l1 : list A) (ys : list B) x l2
  (body : A -> outcome B) code msg,
  Forall2 (fun x y => body x = Ret y) l1 ys ->
  body x = Raised code msg ->
  foreach_collect (l1 ++ x :: l2) body = Raised code msg.
Proof.
  intros A B l1 ys x l2 body code msg H Hx.
  induction H as [|a y l ys Ha Hrest IH]; cbn [app foreach_collect].
  - rewrite Hx. reflexivity.
  - rewrite Ha. cbn [obind]. rewrite IH. reflexivity.
Qed.

(** X9: In SQL mode a delete with at least one column becomes DELETE FROM
    table WHERE name = value AND ...;, one condition for every column of
    the before-image in the order of the event; a value the decoder returns
    none for is compared with null. *)
Theorem convert2PGDML_delete_statement :
  forall E ev vals,
    synchdb_dml_use_spi E = true ->
    dbz_op ev = "d"%char ->
    dbz_columnValuesBefore ev <> [] ->
    Forall2 (fun cv v => processDataByType E cv true (dbz_remoteObjectId ev) = Ret v)
            (dbz_columnValuesBefore ev) vals ->
    convert2PGDML E ev
    = Ret (mk_pgdml "d" (dbz_tableoid ev)
             ("DELETE FROM " ++ dbz_mappedObjectId ev ++ " WHERE " ++
              String.concat " AND "
                (List.map (fun p => colval_name (fst p) ++ " = " ++
                                    null_or (snd p) "null")
                          (List.combine (dbz_columnValuesBefore ev) vals)) ++
              ";")
             [] []).
Proof.
  intros E ev vals Hspi Hop Hne Hvals.
  unfold convert2PGDML. rewrite Hspi, Hop.
  change (orb (Ascii.eqb "d" "r") (Ascii.eqb "d" "c")) with false.
  change (Ascii.eqb "d" "d") with true. cbv iota.
  unfold where_clause.
  rewrite (foreach_append_values (dbz_columnValuesBefore ev) vals _
             (fun cv v => (colval_name cv ++ " = " ++ null_or v "null") ++ " AND ")).
  2:{ eapply Forall2_impl; [|exact Hvals]. intros cv v Hcv. cbv beta.
      rewrite Hcv. cbn [obind]. rewrite !append_assoc. reflexivity. }
  cbn [obind].
  rewrite (map_combine_pieces
             (fun cv v => colval_name cv ++ " = " ++ null_or v "null") " AND ").
  rewrite concat_trailing.
  2:{ intros Hnil. apply List.map_eq_nil in Hnil.
      exact (Forall2_combine_nil _ _ _ Hvals Hne Hnil). }
  rewrite <- !append_assoc.
  rewrite (chop_suffix _ " AND ").
  rewrite !append_assoc. reflexivity.
Qed.

Lemma convert2PGDML_delete_statement_witness :
  convert2PGDML (Scenario.plain_env true)
    (mk_dbzdml "d" 16385 (Some "inv.orders") "inv.orders"
       [Scenario.column "order_number" "10001" INT4OID 1;
        Scenario.column "quantity" "2" INT4OID 2] [])
  = Ret (mk_pgdml "d" 16385
           "DELETE FROM inv.orders WHERE order_number = 10001 AND quantity = 2;"
           [] []).
Proof.
  apply (convert2PGDML_delete_statement (Scenario.plain_env true)
           (mk_dbzdml "d" 16385 (Some "inv.orders") "inv.orders"
              [Scenario.column "order_number" "10001" INT4OID 1;
               Scenario.column "quantity" "2" INT4OID 2] [])
           [Some "10001"; Some "2"]).
  - reflexivity.
  - reflexivity.
  - discriminate.
  - repeat constructor.
Defined.

(** X10: In SQL mode an update whose new values all decode to a text becomes
    UPDATE table SET name = value,... WHERE name = value AND ...;, the
    assignments from the after-image and the conditions from the
    before-image, each in the order of the event. *)
Theorem convert2PGDML_update_statement :
  forall E ev news olds,
    synchdb_dml_use_spi E = true ->
    dbz_op ev = "u"%char ->
    dbz_columnValuesAfter ev <> [] ->
    dbz_columnValuesBefore ev <> [] ->
    Forall2 (fun cv v => processDataByType E cv true (dbz_remoteObjectId ev)
                         = Ret (Some v))
            (dbz_columnValuesAfter ev) news ->
    Forall2 (fun cv v => processDataByType E cv true (dbz_remoteObjectId ev) = Ret v)
            (dbz_columnValuesBefore ev) olds ->
    convert2PGDML E ev
    = Ret (mk_pgdml "u" (dbz_tableoid ev)
             ("UPDATE " ++ dbz_mappedObjectId ev ++ " SET " ++
              String.concat ","
                (List.map (fun p => colval_name (fst p) ++ " = " ++ snd p)
                          (List.combine (dbz_columnValuesAfter ev) news)) ++
              " WHERE " ++
              String.concat " AND "
                (List.map (fun p => colval_name (fst p) ++ " = " ++
                                    null_or (snd p) "null")
                          (List.combine (dbz_columnValuesBefore ev) olds)) ++
              ";")
             [] []).
Proof.
  intros E ev news olds Hspi Hop Hna Hnb Hnews Holds.
  unfold convert2PGDML. rewrite Hspi, Hop.
  change (orb (Ascii.eqb "u" "r") (Ascii.eqb "u" "c")) with false.
  change (Ascii.eqb "u" "d") with false.
  change (Ascii.eqb "u" "u") with true. cbv iota.
  rewrite (foreach_append_values (dbz_columnValuesAfter ev) news _
             (fun cv v => (colval_name cv ++ " = " ++ v) ++ ",")).
  2:{ eapply Forall2_impl; [|exact Hnews]. intros cv v Hcv. cbv beta.
      rewrite Hcv. cbn [obind]. rewrite !append_assoc. reflexivity. }
  cbn [obind].
  rewrite (map_combine_pieces (fun cv v => colval_name cv ++ " = " ++ v) ",").
  rewrite concat_trailing.
  2:{ intros Hnil. apply List.map_eq_nil in Hnil.
      exact (Forall2_combine_nil _ _ _ Hnews Hna Hnil). }
  rewrite <- !append_assoc. rewrite (chop_suffix _ ",").
  unfold where_clause.
  rewrite (foreach_append_values (dbz_columnValuesBefore ev) olds _
             (fun cv v => (colval_name cv ++ " = " ++ null_or v "null") ++ " AND ")).
  2:{ eapply Forall2_impl; [|exact Holds]. intros cv v Hcv. cbv beta.
      rewrite Hcv. cbn [obind]. rewrite !append_assoc. reflexivity. }
  cbn [obind].
  rewrite (map_combine_pieces
             (fun cv v => colval_name cv ++ " = " ++ null_or v "null") " AND ").
  rewrite concat_trailing.
  2:{ intros Hnil. apply List.map_eq_nil in Hnil.
      exact (Forall2_combine_nil _ _ _ Holds Hnb Hnil). }
  rewrite <- !append_assoc. rewrite (chop_suffix _ " AND ").
  rewrite !append_assoc. reflexivity.
Qed.

Lemma convert2PGDML_update_statement_witness :
  convert2PGDML (Scenario.plain_env true)
    (mk_dbzdml "u" 16385 (Some "inv.orders") "inv.orders"
       [Scenario.column "order_number" "10001" INT4OID 1;
        Scenario.column "quantity" "2" INT4OID 2]
       [Scenario.column "order_number" "10001" INT4OID 1;
        Scenario.column "quantity" "3" INT4OID 2])
  = Ret (mk_pgdml "u" 16385
           "UPDATE inv.orders SET order_number = 10001,quantity = 3 WHERE order_number = 10001 AND quantity = 2;"
           [] []).
Proof.
  apply (convert2PGDML_update_statement (Scenario.plain_env true)
           (mk_dbzdml "u" 16385 (Some "inv.orders") "inv.orders"
              [Scenario.column "order_number" "10001" INT4OID 1;
               Scenario.column "quantity" "2" INT4OID 2]
              [Scenario.column "order_number" "10001" INT4OID 1;
               Scenario.column "quantity" "3" INT4OID 2])
           ["10001"; "3"] [Some "10001"; Some "2"]).
  - reflexivity.
  - reflexivity.
  - discriminate.
  - discriminate.
  - repeat constructor.
  - repeat constructor.
Defined.

(** *** The tuple path of an update *)

Lemma update_pairs_nulls : forall E objid after before a b,
  update_pairs E objid after before = Ret (a, b) ->
  Forall (fun c => pg_value c = "NULL") a /\
  Forall (fun c => pg_value c = "NULL") b.
Proof.
  intros E objid after. induction after as [|ca after IH]; intros before a b H.
  - cbn in H. injection H as <- <-. split; constructor.
  - destruct before as [|cb before]; cbn [update_pairs] in H.
    + injection H as <- <-. split; constructor.
    + destruct (processDataByType E ca false objid) as [[v|]|code m|e0 m0|why];
        cbn [obind] in H; try discriminate.
      destruct (update_pairs E objid after before) as [[a' b']|code m|e0 m0|why] eqn:Er;
        cbn [obind] in H; try discriminate.
      injection H as <- <-. destruct (IH before a' b' Er) as [Ha Hb].
      split; constructor; auto.
Qed.

Lemma update_pairs_ignores_before : forall E objid after before before',
  List.map colval_datatype before = List.map colval_datatype before' ->
  List.map colval_position before = List.map colval_position before' ->
  update_pairs E objid after before = update_pairs E objid after before'.
Proof.
  intros E objid after. induction after as [|ca after IH]; intros before before' Hd Hp.
  - reflexivity.
  - destruct before as [|cb before], before' as [|cb' before'];
      cbn [List.map] in Hd, Hp; try discriminate; [reflexivity|].
    injection Hd as Hd1 Hd. injection Hp as Hp1 Hp.
    cbn [update_pairs]. rewrite (IH before before' Hd Hp), Hd1, Hp1. reflexivity.
Qed.

(** X11: In tuple mode the conversion of an update never decodes a value of the
    before-image: its result depends on the before-image only through the
    types and positions of the columns.  When it returns, every value of
    both images is the text NULL; when the first new value decodes to a
    text, that text is read again after it has been freed. *)
Theorem convert2PGDML_update_tuple :
  forall E ev,
    synchdb_dml_use_spi E = false ->
    dbz_op ev = "u"%char ->
    (forall before',
        List.map colval_datatype before'
        = List.map colval_datatype (dbz_columnValuesBefore ev) ->
        List.map colval_position before'
        = List.map colval_position (dbz_columnValuesBefore ev) ->
        convert2PGDML E (mk_dbzdml (dbz_op ev) (dbz_tableoid ev)
                           (dbz_remoteObjectId ev) (dbz_mappedObjectId ev)
                           before' (dbz_columnValuesAfter ev))
        = convert2PGDML E ev) /\
    (forall r, convert2PGDML E ev = Ret r ->
               Forall (fun c => pg_value c = "NULL")
                      (pg_columnValuesBefore r ++ pg_columnValuesAfter r)) /\
    (forall cv rest cvb restb v,
        dbz_columnValuesAfter ev = cv :: rest ->
        dbz_columnValuesBefore ev = cvb :: restb ->
        processDataByType E cv false (dbz_remoteObjectId ev) = Ret (Some v) ->
        convert2PGDML E ev = Undefined "data read after pfree").
Proof.
  intros E ev Hspi Hop.
  assert (Hu : forall x, dbz_op x = "u"%char -> synchdb_dml_use_spi E = false ->
            convert2PGDML E x
            = (r <~ update_pairs E (dbz_remoteObjectId x) (dbz_columnValuesAfter x)
                      (dbz_columnValuesBefore x) ;;
               Ret (mk_pgdml (dbz_op x) (dbz_tableoid x) "" (snd r) (fst r)))).
  { intros x Hx Hs. unfold convert2PGDML. rewrite Hs, Hx. reflexivity. }
  split; [|split].
  - intros before' Hd Hp.
    rewrite (Hu (mk_dbzdml (dbz_op ev) (dbz_tableoid ev)
                   (dbz_remoteObjectId ev) (dbz_mappedObjectId ev)
                   before' (dbz_columnValuesAfter ev)) Hop Hspi),
            (Hu ev Hop Hspi).
    cbn [dbz_remoteObjectId dbz_columnValuesAfter dbz_columnValuesBefore
         dbz_op dbz_tableoid].
    rewrite (update_pairs_ignores_before E _ _ before' _ Hd Hp). reflexivity.
  - intros r Hr. rewrite (Hu ev Hop Hspi) in Hr.
    destruct (update_pairs E (dbz_remoteObjectId ev) (dbz_columnValuesAfter ev)
                (dbz_columnValuesBefore ev)) as [[a b]|code m|e0 m0|why] eqn:Er;
      cbn [obind] in Hr; try discriminate.
    injection Hr as <-. cbn [pg_columnValuesBefore pg_columnValuesAfter snd fst].
    destruct (update_pairs_nulls _ _ _ _ _ _ Er) as [Ha Hb].
    apply Forall_app. split; assumption.
  - intros cv rest cvb restb v Ha Hb Hcv.
    rewrite (Hu ev Hop Hspi), Ha, Hb. cbn [update_pairs]. rewrite Hcv. reflexivity.
Qed.

Lemma convert2PGDML_update_tuple_witness :
  convert2PGDML (Scenario.plain_env false)
    (mk_dbzdml "u" 16385 (Some "inv.orders") "inv.orders"
       [Scenario.column "order_number" "10001" INT4OID 1]
       [Scenario.column "order_number" "10001" INT4OID 1])
  = Undefined "data read after pfree".
Proof.
  apply (proj2 (proj2 (convert2PGDML_update_tuple (Scenario.plain_env false)
           (mk_dbzdml "u" 16385 (Some "inv.orders") "inv.orders"
              [Scenario.column "order_number" "10001" INT4OID 1]
              [Scenario.column "order_number" "10001" INT4OID 1])
           eq_refl eq_refl))
           (Scenario.column "order_number" "10001" INT4OID 1) []
           (Scenario.column "order_number" "10001" INT4OID 1) [] "10001");
    reflexivity.
Defined.

(** ** Values of the other types *)

(** X12: Booleans, integers and floats pass through the decoder unchanged,
    with or without quoting: they are never put in quotes. *)
Theorem numbers_pass_through :
  forall E cv raw addquote objid,
    colval_value cv = Some raw ->
    raw <> "" ->
    C.strcaseeq raw "NULL" = false ->
    List.In (colval_datatype cv)
            [BOOLOID; INT8OID; INT2OID; INT4OID; FLOAT8OID; FLOAT4OID] ->
    transform_data_expression E objid (colval_remoteColumnName cv) = None ->
    processDataByType E cv addquote objid = Ret (Some raw).
Proof.
  intros E cv raw addquote objid Hv Hne Hnull Hdt Htr.
  unfold processDataByType. rewrite Hv, (strlen_nonempty _ Hne), Hnull.
  unfold processDataByType_switch.
  replace (oid_in (colval_datatype cv)
             [BOOLOID; INT8OID; INT2OID; INT4OID; FLOAT8OID; FLOAT4OID]) with true.
  - cbn [obind]. unfold transform_out. rewrite Htr. reflexivity.
  - symmetry. unfold oid_in. apply existsb_exists.
    exists (colval_datatype cv). split; [exact Hdt|apply Z.eqb_refl].
Qed.

Lemma numbers_pass_through_witness :
  processDataByType (Scenario.plain_env true)
    (Scenario.column "quantity" "2" INT4OID 2) true (Some "inv.orders")
  = Ret (Some "2").
Proof.
  apply (numbers_pass_through (Scenario.plain_env true)
           (Scenario.column "quantity" "2" INT4OID 2) "2" true (Some "inv.orders")).
  - reflexivity.
  - discriminate.
  - reflexivity.
  - simpl. tauto.
  - reflexivity.
Defined.



(** In a worker the saved words are what the shared block holds when the
    error arrives. *)
Example no_time_representation_is_saved :
  let r := fc_processDBZChangeEvent_dml (Scenario.plain_env false)
             Scenario.text_executor TYPE_MYSQL
             (Some (mk_dbzdml "c" 16385 (Some "inv.orders") "inv.orders" []
                      [Scenario.column "born" "19000" DATEOID 1]))
             (Scenario.mysql_worker STATE_SYNCING STATE_UNDEF "") in
  fst r = elog_ERROR "no time representation available to process DATEOID value" /\
  fst (get_shm_connector_errmsg TYPE_MYSQL (snd r))
  = Ret "no time representation available toprocess DATEOID value".
Proof. split; vm_compute; reflexivity. Qed.



(** The same value in full. *)
Example bytea_deadbeef :
  processDataByType (Scenario.plain_env true)
    (Scenario.column "payload" "3q2+7w==" BYTEAOID 1) true None
  = Ret (Some "'\xDEADBEEF'").
Proof. vm_compute. reflexivity. Qed.

(** ** Schema change events *)

Lemma array_of_strings_tokens : forall keys,
  jsonb_tokens (JArray (List.map JString keys))
  = (WJB_BEGIN_ARRAY :: List.map (fun k => WJB_ELEM (JString k)) keys
       ++ [WJB_END_ARRAY])%list.
Proof.
  intros keys. unfold jsonb_tokens. cbn [is_scalar container_tokens].
  f_equal. f_equal.
  induction keys as [|k keys IH]; [reflexivity|].
  cbn [List.map List.flat_map is_scalar app]. rewrite IH. reflexivity.
Qed.

Lemma chop_comma : forall s, C.chop 1 (s ++ ",") = s.
Proof. intros s. exact (chop_suffix s ","). Qed.

Lemma pk_loop_more : forall E id alter keys acc,
  objectMappingHash E = None ->
  pk_loop E id alter
    (List.map (fun k => WJB_ELEM (JString k)) keys ++ [WJB_END_ARRAY])%list
    (acc ++ ",", false)
  = Ret (acc ++ String.concat "" (List.map (fun k => "," ++ k) keys) ++ ")", false).
Proof.
  intros E id alter keys. induction keys as [|k keys IH]; intros acc Hmap.
  - cbn [List.map app pk_loop pk_step negb obind String.concat].
    rewrite chop_comma. reflexivity.
  - cbn [List.map app pk_loop pk_step].
    unfold transform_object_name. rewrite Hmap. cbn [obind].
    rewrite <- (append_assoc (acc ++ ",") k ","), (IH _ Hmap).
    rewrite concat_empty_cons. rewrite !append_assoc. reflexivity.
Qed.

Lemma concat_leading : forall k keys,
  k ++ String.concat "" (List.map (fun x => "," ++ x) keys)
  = String.concat "," (k :: keys).
Proof.
  intros k keys. revert k. induction keys as [|y keys IH]; intros k.
  - cbn. apply append_empty.
  - cbn [List.map]. rewrite concat_empty_cons.
    change (String.concat "," (k :: y :: keys))
      with (k ++ "," ++ String.concat "," (y :: keys)).
    rewrite <- IH. rewrite !append_assoc. reflexivity.
Qed.

(** X15: [populate_primary_keys] on a list of key names, with no name mapping
    loaded: an empty list adds nothing; otherwise it adds ", PRIMARY KEY("
    (", ADD PRIMARY KEY(" for an ALTER), the names separated by commas,
    and the closing parenthesis. *)
Theorem populate_primary_keys_clause :
  forall E strinfo id keys alter,
    objectMappingHash E = None ->
    populate_primary_keys E strinfo id (Some (JArray (List.map JString keys))) alter
    = Ret (match keys with
           | [] => strinfo
           | _ => strinfo ++
                  (if alter then ", ADD PRIMARY KEY(" else ", PRIMARY KEY(") ++
                  String.concat "," keys ++ ")"
           end).
Proof.
  intros E strinfo id keys alter Hmap.
  unfold populate_primary_keys. rewrite array_of_strings_tokens.
  destruct keys as [|k keys].
  - reflexivity.
  - cbn [List.map app pk_loop pk_step obind].
    unfold transform_object_name. rewrite Hmap. cbn [obind].
    rewrite <- !append_assoc.
    rewrite (pk_loop_more E id alter keys _ Hmap). cbn [obind fst].
    rewrite !append_assoc. rewrite <- (concat_leading k keys).
    rewrite !append_assoc. reflexivity.
Qed.

Lemma populate_primary_keys_clause_witness :
  populate_primary_keys (Scenario.plain_env false) "CREATE TABLE t (a INT"
    "inv.t" (Some (JArray [JString "a"; JString "b"])) false
  = Ret "CREATE TABLE t (a INT, PRIMARY KEY(a,b)".
Proof.
  exact (populate_primary_keys_clause (Scenario.plain_env false)
           "CREATE TABLE t (a INT" "inv.t" ["a"; "b"] false eq_refl).
Defined.

(** A key that is not a string ends the translation with an error that
    gives the number of its type. *)
Example primary_key_must_be_a_string :
  populate_primary_keys (Scenario.plain_env false) "" "inv.t"
    (Some (JArray [JString "a"; JNumeric "1"])) false
  = elog_ERROR ("Unknown or unexpected value type: 2 while " ++
                "parsing primaryKeyColumnNames").
Proof. reflexivity. Qed.

(** X16: [parseDBZDDL] hands back an event only when its type is CREATE, ALTER
    or DROP; the id and the type are the texts found in the first table
    change of the payload, and a DROP carries no columns. *)
Theorem parseDBZDDL_event_types :
  forall jb ddl,
    parseDBZDDL jb = Some ddl ->
    (ddl_type ddl = "CREATE" \/ ddl_type ddl = "ALTER" \/ ddl_type ddl = "DROP") /\
    ddl_type ddl
    = getPathElementString jb ["payload"; "tableChanges"; "0"; "type"] true /\
    ddl_id ddl
    = getPathElementString jb ["payload"; "tableChanges"; "0"; "id"] true /\
    (ddl_type ddl = "DROP" -> ddl_columns ddl = []).
Proof.
  intros jb ddl H. unfold parseDBZDDL in H. cbn [app] in H.
  set (id := getPathElementString jb ["payload"; "tableChanges"; "0"; "id"] true) in *.
  set (type := getPathElementString jb ["payload"; "tableChanges"; "0"; "type"] true) in *.
  destruct (andb (C.streq id "NULL") (C.streq type "NULL")); [discriminate|].
  unfold C.streq in H.
  destruct (String.eqb type "CREATE") eqn:Ec.
  - apply String.eqb_eq in Ec. cbn [orb] in H.
    destruct (getPathElementJsonb jb _); [|discriminate].
    injection H as <-. cbn [ddl_type ddl_id ddl_columns].
    split; [left; exact Ec|]. split; [reflexivity|]. split; [reflexivity|].
    intros Hd. rewrite Ec in Hd. discriminate.
  - destruct (String.eqb type "ALTER") eqn:Ea.
    + apply String.eqb_eq in Ea. cbn [orb] in H.
      destruct (getPathElementJsonb jb _); [|discriminate].
      injection H as <-. cbn [ddl_type ddl_id ddl_columns].
      split; [right; left; exact Ea|]. split; [reflexivity|]. split; [reflexivity|].
      intros Hd. rewrite Ea in Hd. discriminate.
    + cbn [orb] in H.
      destruct (String.eqb type "DROP") eqn:Ed; [|discriminate].
      apply String.eqb_eq in Ed. injection H as <-.
      cbn [ddl_type ddl_id ddl_columns].
      split; [right; right; exact Ed|]. repeat split; reflexivity.
Qed.

Lemma parseDBZDDL_event_types_witness :
  exists ddl, parseDBZDDL Scenario.create_orders = Some ddl /\
              ddl_type ddl = "CREATE" /\ ddl_id ddl = "inv.orders".
Proof.
  destruct (parseDBZDDL Scenario.create_orders) as [ddl|] eqn:E;
    [|vm_compute in E; discriminate].
  exists ddl. split; [reflexivity|].
  destruct (parseDBZDDL_event_types Scenario.create_orders ddl E)
    as (_ & Ht & Hi & _).
  split; [rewrite Ht|rewrite Hi]; reflexivity.
Defined.

(** X17: Without a name mapping, a CREATE event whose id has no dot, or more
    than two, is rejected before any column is looked at: the translator
    saves "malformed id field in dbz change event" with the id, cut to 255
    characters, as the error message of the connector and raises it. *)
Theorem create_with_malformed_id :
  forall E ddl type,
    ddl_type ddl = "CREATE" ->
    objectMappingHash E = None ->
    count_dots (ddl_id ddl) <> 1%nat ->
    count_dots (ddl_id ddl) <> 2%nat ->
    convert2PGDDL E ddl type
    = Saved (C.snprintf 256 ("malformed id field in dbz change event: "
                             ++ ddl_id ddl))
            (C.snprintf 256 ("malformed id field in dbz change event: "
                             ++ ddl_id ddl)).
Proof.
  intros E ddl type Ht Hmap H1 H2.
  unfold convert2PGDDL. rewrite Ht. change (C.streq "CREATE" "CREATE") with true.
  cbv iota. unfold convert2PGDDL_create, transform_object_name. rewrite Hmap.
  cbn [obind]. unfold splitIdString.
  destruct (count_dots (ddl_id ddl)) as [|[|[|n]]]; try contradiction; reflexivity.
Qed.

Lemma create_with_malformed_id_witness :
  convert2PGDDL (Scenario.plain_env false)
    (mk_dbzddl "orders" "CREATE" (Some (JArray [])) []) TYPE_MYSQL
  = Saved "malformed id field in dbz change event: orders"
          "malformed id field in dbz change event: orders".
Proof.
  apply (create_with_malformed_id (Scenario.plain_env false)
           (mk_dbzddl "orders" "CREATE" (Some (JArray [])) []) TYPE_MYSQL);
    [reflexivity|reflexivity|discriminate|discriminate].
Defined.

(** ** The columns of a schema change event *)

Lemma update_nth_last : forall {A} (f : A -> A) (store : list A) c,
  update_nth (List.length store) f (store ++ [c]) = (store ++ [f c])%list.
Proof.
  intros A f store c. induction store as [|x store IH]; [reflexivity|].
  cbn [List.length app update_nth]. rewrite IH. reflexivity.
Qed.

Lemma paused_elements : forall elems rest st,
  ps_pause st = true -> ps_key st = None ->
  List.forallb is_scalar elems = true ->
  List.fold_left parse_token
    (List.flat_map (fun e => if is_scalar e then [WJB_ELEM e]
                             else container_tokens e) elems ++ rest) st
  = List.fold_left parse_token rest st.
Proof.
  induction elems as [|e elems IH]; intros rest st Hp Hk Hs; [reflexivity|].
  cbn [List.forallb] in Hs. apply andb_true_iff in Hs. destruct Hs as [He Hs].
  cbn [List.flat_map]. rewrite He. cbn [app List.fold_left].
  assert (Hstep : parse_token st (WJB_ELEM e) = st).
  { unfold parse_token. rewrite Hp, Hk. reflexivity. }
  rewrite Hstep. apply IH; assumption.
Qed.

Lemma scalar_has_text : forall v, is_scalar v = true ->
  exists text, scalar_text v = Some text.
Proof.
  intros v H. destruct v as [|b|t|s|l|l]; try discriminate H;
    try (eexists; reflexivity).
  destruct b; eexists; reflexivity.
Qed.

Lemma member_tokens : forall kv store cols c rest,
  Spec.flat_member kv = true ->
  List.fold_left parse_token
    ((WJB_KEY (fst kv) ::
      (if is_scalar (snd kv) then [WJB_VALUE (snd kv)]
       else container_tokens (snd kv))) ++ rest) (Spec.filling store cols c)
  = List.fold_left parse_token rest
      (Spec.filling store cols (Spec.member_step c kv)).
Proof.
  intros [k v] store cols c rest H. cbn [fst snd].
  unfold Spec.flat_member in H. cbn [snd] in H. unfold Spec.member_step.
  cbn [fst snd].
  destruct (is_scalar v) eqn:Es.
  - destruct (scalar_has_text v Es) as [text Ht]. rewrite Ht.
    cbn [app List.fold_left]. f_equal.
    unfold Spec.filling, parse_token.
    cbn [ps_pause ps_key ps_value ps_ddlcol ps_store ps_cols].
    rewrite Ht. cbn [ps_pause ps_key ps_value ps_ddlcol ps_store ps_cols].
    rewrite update_nth_last. reflexivity.
  - destruct v as [|b|t|s|elems|pairs]; try discriminate Es; [|discriminate H].
    cbn [scalar_text container_tokens].
    cbn [app List.fold_left].
    rewrite <- app_assoc. 
    rewrite paused_elements; [|reflexivity|reflexivity|exact H].
    cbn [app List.fold_left]. reflexivity.
Qed.

Lemma members_tokens : forall members store cols c rest,
  List.forallb Spec.flat_member members = true ->
  List.fold_left parse_token
    (List.flat_map (fun kv => WJB_KEY (fst kv) ::
                      (if is_scalar (snd kv) then [WJB_VALUE (snd kv)]
                       else container_tokens (snd kv))) members ++ rest)
    (Spec.filling store cols c)
  = List.fold_left parse_token rest
      (Spec.filling store cols (List.fold_left Spec.member_step members c)).
Proof.
  induction members as [|kv members IH]; intros store cols c rest H; [reflexivity|].
  cbn [List.forallb] in H. apply andb_true_iff in H. destruct H as [Hkv H].
  cbn [List.flat_map List.fold_left]. rewrite <- app_assoc.
  rewrite (member_tokens kv store cols c _ Hkv). apply IH. exact H.
Qed.

Lemma objects_tokens : forall objs store d cols rest,
  List.forallb (List.forallb Spec.flat_member) objs = true ->
  List.fold_left parse_token
    (List.flat_map (fun e => if is_scalar e then [WJB_ELEM e]
                             else container_tokens e)
                   (List.map JObject objs) ++ rest)
    (mk_ps store d cols None None false)
  = List.fold_left parse_token rest
      (mk_ps (store ++ List.map Spec.column_of objs)
             (match objs with
              | [] => d
              | _ => Some (List.length store + List.length objs - 1)%nat
              end)
             (cols ++ List.seq (List.length store) (List.length objs))
             None None false).
Proof.
  induction objs as [|members objs IH]; intros store d cols rest H.
  - cbn. rewrite !app_nil_r. reflexivity.
  - cbn [List.forallb] in H. apply andb_true_iff in H. destruct H as [Hm H].
    cbn [List.map List.flat_map is_scalar container_tokens].
    cbn [app List.fold_left].
    change (parse_token (mk_ps store d cols None None false) WJB_BEGIN_OBJECT)
      with (Spec.filling store cols empty_column).
    rewrite <- !app_assoc.
    rewrite (members_tokens members store cols empty_column _ Hm).
    cbn [app List.fold_left].
    change (parse_token (Spec.filling store cols
                           (List.fold_left Spec.member_step members empty_column))
                        WJB_END_OBJECT)
      with (mk_ps (store ++ [Spec.column_of members])
                  (Some (List.length store))
                  (cols ++ [List.length store]) None None false).
    rewrite (IH _ _ _ rest H).
    assert (E1 : ((store ++ [Spec.column_of members]) ++ List.map Spec.column_of objs
                  = store ++ List.map Spec.column_of (members :: objs))%list)
      by (rewrite <- app_assoc; reflexivity).
    assert (E2 : match objs with
                 | [] => Some (List.length store)
                 | _ => Some (List.length (store ++ [Spec.column_of members])
                              + List.length objs - 1)%nat
                 end
                 = Some (List.length store + List.length (members :: objs) - 1)%nat)
      by (destruct objs; rewrite ?length_app; cbn [List.length]; f_equal; lia).
    assert (E3 : ((cols ++ [List.length store]) ++
                  List.seq (List.length (store ++ [Spec.column_of members]))
                           (List.length objs)
                  = cols ++ List.seq (List.length store)
                                     (List.length (members :: objs)))%list).
    { rewrite length_app, <- app_assoc. cbn [List.length List.seq app].
      replace (List.length store + 1)%nat with (S (List.length store)) by lia.
      reflexivity. }
    rewrite E1, E2, E3. reflexivity.
Qed.

Lemma nth_seq_all : forall {A} (l : list A) d,
  List.map (fun p => List.nth p l d) (List.seq 0 (List.length l)) = l.
Proof.
  intros A l d. induction l as [|x l IH]; [reflexivity|].
  cbn [List.length List.seq List.map List.nth]. f_equal.
  rewrite <- List.seq_shift, List.map_map. exact IH.
Qed.

(** X18: [parseDBZDDL]'s column loop on an array of column objects whose
    members are scalars or arrays of scalars: every object becomes one
    column, in the order of the array, filled from its scalar members in
    their order; array members such as enumValues are passed over. *)
Theorem parse_columns_of_objects : forall objs,
  List.forallb (List.forallb Spec.flat_member) objs = true ->
  parse_columns (JArray (List.map JObject objs)) = List.map Spec.column_of objs.
Proof.
  intros objs H. unfold parse_columns, jsonb_tokens.
  cbn [is_scalar container_tokens List.fold_left].
  change (parse_token (mk_ps [] None [] None None false) WJB_BEGIN_ARRAY)
    with (mk_ps [] None [] None None false).
  rewrite (objects_tokens objs [] None [] [WJB_END_ARRAY] H).
  cbn [List.fold_left app List.length].
  unfold parse_token.
  cbn [ps_pause ps_key ps_value ps_ddlcol ps_store ps_cols].
  rewrite <- (List.length_map Spec.column_of objs).
  apply nth_seq_all.
Qed.

Lemma parse_columns_of_objects_witness :
  parse_columns
    (JArray [JObject [("name", JString "order_number"); ("typeName", JString "INT");
                      ("position", JNumeric "1"); ("optional", JBool false);
                      ("autoIncremented", JBool true);
                      ("enumValues", JArray [])];
             JObject [("name", JString "product"); ("typeName", JString "VARCHAR");
                      ("length", JNumeric "64"); ("position", JNumeric "3");
                      ("optional", JBool true)]])
  = [mk_ddlcol (Some "order_number") 0 false 1 (Some "INT") None None true None 0;
     mk_ddlcol (Some "product") 64 true 3 (Some "VARCHAR") None None false None 0].
Proof.
  exact (parse_columns_of_objects
           [[("name", JString "order_number"); ("typeName", JString "INT");
             ("position", JNumeric "1"); ("optional", JBool false);
             ("autoIncremented", JBool true); ("enumValues", JArray [])];
            [("name", JString "product"); ("typeName", JString "VARCHAR");
             ("length", JNumeric "64"); ("position", JNumeric "3");
             ("optional", JBool true)]] eq_refl).
Defined.

(** ** The appliers *)

Lemma set_errmsg_run : forall type text w s info,
  sdb_state w = Some s ->
  info_of type s = Some info ->
  set_shm_connector_errmsg type (Some text) w
  = (Ret tt,
     mk_world (Some (with_info type
                       (set_errmsg (C.snprintf SYNCHDB_ERRMSG_SIZE text)) s))
              (myConnectorId w) (relations w) (events w)).
Proof.
  intros type text w s info Hs Hi. destruct w as [sdb my rels evs].
  cbn in Hs. subst sdb.
  unfold set_shm_connector_errmsg, bind, get_sdb_state. cbn.
  destruct type; cbn in Hi; try discriminate; reflexivity.
Qed.

(** X19: [fill_slot], the loop that turns the values of an event into the
    fields of a tuple slot: it sets one field per value, from the first
    on, and leaves the fields behind the last value as they were; with
    more values than the relation has attributes it reads past the tuple
    descriptor. *)
Theorem fill_slot_fields :
  forall X colvals atts slot,
    List.length slot = List.length atts ->
    (forall r, fill_slot X atts colvals slot = Ret r ->
               List.length r = List.length atts /\
               (List.length colvals <= List.length atts)%nat /\
               List.skipn (List.length colvals) r
               = List.skipn (List.length colvals) slot /\
               List.Forall (fun f => f <> Unset)
                           (List.firstn (List.length colvals) r)) /\
    ((List.length atts < List.length colvals)%nat ->
     forall r, fill_slot X atts colvals slot <> Ret r).
Proof.
  intros X colvals. induction colvals as [|cv colvals IH]; intros atts slot Hlen.
  - split.
    + intros r H. destruct atts; cbn in H; injection H as <-;
        (repeat split; [exact Hlen|cbn; lia|constructor]).
    + cbn. lia.
  - destruct atts as [|att atts], slot as [|f0 slot]; cbn in Hlen; try discriminate.
    + split; [intros r H; cbn in H; discriminate H
             |intros _ r H; cbn in H; discriminate H].
    + injection Hlen as Hlen. destruct (IH atts slot Hlen) as [IH1 IH2].
      cbn [fill_slot].
      split.
      * intros r H.
        destruct (C.strcaseeq (pg_value cv) "NULL") eqn:En.
        -- cbn [obind] in H.
           destruct (fill_slot X atts colvals slot) as [rest|c m|e0 m0|why] eqn:Er;
             cbn [obind] in H; try discriminate.
           injection H as <-. destruct (IH1 rest eq_refl) as (L1 & L2 & L3 & L4).
           cbn [List.length List.skipn List.firstn].
           repeat split; [lia|lia|exact L3|].
           constructor; [discriminate|exact L4].
        -- destruct (OidInputFunctionCall X (pg_datatype cv) (pg_value cv) att)
             as [d|c m|e0 m0|why]; cbn [obind] in H; try discriminate.
           destruct (fill_slot X atts colvals slot) as [rest|c m|e0 m0|why] eqn:Er;
             cbn [obind] in H; try discriminate.
           injection H as <-. destruct (IH1 rest eq_refl) as (L1 & L2 & L3 & L4).
           cbn [List.length List.skipn List.firstn].
           repeat split; [lia|lia|exact L3|].
           constructor; [discriminate|exact L4].
      * intros Hmore r H. cbn [List.length] in Hmore.
        assert (Hm : (List.length atts < List.length colvals)%nat) by lia.
        destruct (C.strcaseeq (pg_value cv) "NULL").
        -- cbn [obind] in H.
           destruct (fill_slot X atts colvals slot) as [rest|c m|e0 m0|why] eqn:Er;
             cbn [obind] in H; try discriminate.
           exact (IH2 Hm rest eq_refl).
        -- destruct (OidInputFunctionCall X (pg_datatype cv) (pg_value cv) att)
             as [d|c m|e0 m0|why]; cbn [obind] in H; try discriminate.
           destruct (fill_slot X atts colvals slot) as [rest|c m|e0 m0|why] eqn:Er;
             cbn [obind] in H; try discriminate.
           exact (IH2 Hm rest eq_refl).
Qed.

Lemma fill_slot_fields_witness :
  fill_slot Scenario.text_executor [-1; -1; 68]
    [mk_pgcolval "10001" INT4OID 1; mk_pgcolval "null" INT4OID 2]
    [Unset; Unset; Unset]
  = Ret [Datum "10001"; Null; Unset] /\
  List.skipn 2 [Datum "10001"; Null; Unset] = List.skipn 2 [Unset; Unset; Unset].
Proof.
  split; [reflexivity|].
  exact (proj1 (proj2 (proj2
           (proj1 (fill_slot_fields Scenario.text_executor
                     [mk_pgcolval "10001" INT4OID 1; mk_pgcolval "null" INT4OID 2]
                     [-1; -1; 68] [Unset; Unset; Unset] eq_refl)
                  [Datum "10001"; Null; Unset] eq_refl)))).
Defined.

(** X20: An insert in tuple mode: when the row is built and inserted, the
    transaction is committed with the table the executor hands back and the
    handler returns 0; when building or inserting the row raises, the
    message is kept, prefixed with the table, as the error message of the
    connector, nothing is committed, and the error is raised again. *)
Theorem synchdb_handle_insert_outcomes :
  forall X colval tableoid type w s info rel,
    sdb_state w = Some s ->
    info_of type s = Some info ->
    lookup_relation (relations w) tableoid = Some rel ->
    (forall slot rel',
        fill_slot X (rel_atttypmod rel) colval (new_slot rel) = Ret slot ->
        ExecSimpleRelationInsert X rel slot = Ret rel' ->
        synchdb_handle_insert X colval tableoid type w
        = (Ret 0,
           mk_world (Some s) (myConnectorId w)
             (store_relation (relations w) tableoid rel')
             (events w ++ [Call "StartTransactionCommand" [];
                           Call "CommitTransactionCommand" []]))) /\
    (forall code msg,
        fill_slot X (rel_atttypmod rel) colval (new_slot rel) = Raised code msg \/
        (exists slot,
            fill_slot X (rel_atttypmod rel) colval (new_slot rel) = Ret slot /\
            ExecSimpleRelationInsert X rel slot = Raised code msg) ->
        synchdb_handle_insert X colval tableoid type w
        = (Raised code msg,
           mk_world
             (Some (with_info type
                      (set_errmsg
                         (C.snprintf SYNCHDB_ERRMSG_SIZE
                            (C.snprintf SYNCHDB_ERRMSG_SIZE
                               ("table " ++ C.fmt_d (C.int tableoid) ++ ": " ++ msg))))
                      s))
             (myConnectorId w) (relations w)
             (events w ++ [Call "StartTransactionCommand" []]))).
Proof.
  intros X colval tableoid type w s info rel Hs Hi Hrel.
  destruct w as [sdb my rels evs]. cbn in Hs, Hrel. subst sdb.
  split.
  - intros slot rel' Hfill Hins.
    unfold synchdb_handle_insert, try_rethrow, bind, StartTransactionCommand,
      call, emit, get_relations, table_open, lift, CommitTransactionCommand, ret.
    cbn. rewrite Hrel. cbn. rewrite Hfill, Hins. cbn.
    rewrite <- app_assoc. reflexivity.
  - intros code msg Hbad.
    unfold synchdb_handle_insert, try_rethrow, bind, StartTransactionCommand,
      call, emit, get_relations, table_open, lift, CommitTransactionCommand, ret.
    cbn. rewrite Hrel. cbn.
    destruct Hbad as [Hfill | (slot & Hfill & Hins)].
    + rewrite Hfill. cbn.
      destruct type; cbn in Hi; try discriminate; reflexivity.
    + rewrite Hfill. cbn. rewrite Hins. cbn.
      destruct type; cbn in Hi; try discriminate; reflexivity.
Qed.

Lemma synchdb_handle_insert_outcomes_witness :
  synchdb_handle_insert Scenario.text_executor
    [mk_pgcolval "10002" INT4OID 1; mk_pgcolval "5" INT4OID 2;
     mk_pgcolval "NULL" VARCHAROID 3]
    16385 TYPE_MYSQL (Scenario.mysql_worker STATE_EXECUTING STATE_UNDEF "")
  = (Ret 0,
     mk_world
       (Some (mk_shared (Scenario.idle STATE_EXECUTING) (Scenario.idle STATE_STOPPED)
                        (Scenario.idle STATE_STOPPED)))
       TYPE_MYSQL
       [(16385, mk_rel [-1; -1; 68] (Some 16390)
                  [[Datum "10001"; Datum "2"; Datum "widget"];
                   [Datum "10002"; Datum "5"; Null]])]
       [Call "StartTransactionCommand" []; Call "CommitTransactionCommand" []]).
Proof.
  exact (proj1 (synchdb_handle_insert_outcomes Scenario.text_executor
           [mk_pgcolval "10002" INT4OID 1; mk_pgcolval "5" INT4OID 2;
            mk_pgcolval "NULL" VARCHAROID 3]
           16385 TYPE_MYSQL (Scenario.mysql_worker STATE_EXECUTING STATE_UNDEF "")
           _ _ Scenario.orders eq_refl eq_refl eq_refl)
           [Datum "10002"; Datum "5"; Null] _ eq_refl eq_refl).
Defined.

(** X21: A delete in tuple mode: when the row of the before-image is found it
    is deleted and the transaction committed; when it is not found, the
    handler logs "tuple to delete not found", commits with every table as
    it was, and returns -1 without raising. *)
Theorem synchdb_handle_delete_outcomes :
  forall X colvalbefore tableoid type w rel remoteslot,
    lookup_relation (relations w) tableoid = Some rel ->
    fill_slot X (rel_atttypmod rel) colvalbefore (new_slot rel) = Ret remoteslot ->
    (located X rel remoteslot = None ->
     synchdb_handle_delete X colvalbefore tableoid type w
     = (Ret (-1),
        mk_world (sdb_state w) (myConnectorId w) (relations w)
          (events w ++ [Call "StartTransactionCommand" [];
                        Elog WARNING (find_message rel);
                        Elog WARNING "tuple to delete not found";
                        Call "CommitTransactionCommand" []]))) /\
    (forall n rel',
        located X rel remoteslot = Some n ->
        ExecSimpleRelationDelete X rel n = Ret rel' ->
        synchdb_handle_delete X colvalbefore tableoid type w
        = (Ret 0,
           mk_world (sdb_state w) (myConnectorId w)
             (store_relation (relations w) tableoid rel')
             (events w ++ [Call "StartTransactionCommand" [];
                           Elog WARNING (find_message rel);
                           Call "CommitTransactionCommand" []]))).
Proof.
  intros X colvalbefore tableoid type w rel remoteslot Hrel Hfill.
  destruct w as [sdb my rels evs]. cbn in Hrel.
  split.
  - intros Hmiss.
    unfold synchdb_handle_delete, try_rethrow, bind, StartTransactionCommand,
      call, emit, get_relations, table_open, lift, CommitTransactionCommand, ret,
      find_old_tuple, elog, emit.
    cbn. rewrite Hrel. cbn. rewrite Hfill. cbn. rewrite Hmiss. cbn.
    rewrite <- !app_assoc. reflexivity.
  - intros n rel' Hhit Hdel.
    unfold synchdb_handle_delete, try_rethrow, bind, StartTransactionCommand,
      call, emit, get_relations, table_open, lift, CommitTransactionCommand, ret,
      find_old_tuple, elog, emit.
    cbn. rewrite Hrel. cbn. rewrite Hfill. cbn. rewrite Hhit. cbn.
    rewrite Hdel. cbn. rewrite <- !app_assoc. reflexivity.
Qed.

Lemma synchdb_handle_delete_outcomes_witness :
  synchdb_handle_delete Scenario.keyed_executor
    [mk_pgcolval "10001" INT4OID 1; mk_pgcolval "2" INT4OID 2;
     mk_pgcolval "widget" VARCHAROID 3]
    16385 TYPE_MYSQL (Scenario.mysql_worker STATE_EXECUTING STATE_UNDEF "")
  = (Ret 0,
     mk_world
       (Some (mk_shared (Scenario.idle STATE_EXECUTING) (Scenario.idle STATE_STOPPED)
                        (Scenario.idle STATE_STOPPED)))
       TYPE_MYSQL
       [(16385, mk_rel [-1; -1; 68] (Some 16390) [])]
       [Call "StartTransactionCommand" [];
        Elog WARNING "attempt to find old tuple by index";
        Call "CommitTransactionCommand" []]).
Proof.
  exact (proj2 (synchdb_handle_delete_outcomes Scenario.keyed_executor
           [mk_pgcolval "10001" INT4OID 1; mk_pgcolval "2" INT4OID 2;
            mk_pgcolval "widget" VARCHAROID 3]
           16385 TYPE_MYSQL (Scenario.mysql_worker STATE_EXECUTING STATE_UNDEF "")
           Scenario.orders [Datum "10001"; Datum "2"; Datum "widget"]
           eq_refl eq_refl)
           0%nat _ eq_refl eq_refl).
Defined.

(** X22: [spi_execute], once [SPI_connect] has succeeded: a result code of
    INSERT, UTILITY, DELETE or UPDATE commits what the statement did and
    gives 0; any other code is handed back with nothing committed; an error
    raised by the statement is kept as the error message of the connector
    and raised again, also with nothing committed. *)
Theorem spi_execute_outcomes :
  forall X query type w s info,
    sdb_state w = Some s ->
    info_of type s = Some info ->
    (forall code rels',
        SPI_exec X query (relations w) = Ret (code, rels') ->
        spi_execute X query type w
        = if oid_in code [SPI_OK_INSERT; SPI_OK_UTILITY; SPI_OK_DELETE; SPI_OK_UPDATE]
          then (Ret 0,
                mk_world (Some s) (myConnectorId w) rels'
                  (events w ++ [Call "StartTransactionCommand" [];
                                Elog WARNING ("SPI OK with ret " ++ C.fmt_d code);
                                Call "CommitTransactionCommand" []]))
          else (Ret code,
                mk_world (Some s) (myConnectorId w) (relations w)
                  (events w ++ [Call "StartTransactionCommand" [];
                                Elog WARNING ("SPI_exec failed: " ++ C.fmt_d code)]))) /\
    (forall code msg,
        SPI_exec X query (relations w) = Raised code msg ->
        spi_execute X query type w
        = (Raised code msg,
           mk_world
             (Some (with_info type
                      (set_errmsg (C.snprintf SYNCHDB_ERRMSG_SIZE msg)) s))
             (myConnectorId w) (relations w)
             (events w ++ [Call "StartTransactionCommand" []]))).
Proof.
  intros X query type w s info Hs Hi.
  destruct w as [sdb my rels evs]. cbn in Hs. subst sdb.
  split.
  - intros code rels' Hspi. cbn [relations] in Hspi.
    unfold spi_execute, try_rethrow, bind, StartTransactionCommand,
      call, emit, get_relations, lift, CommitTransactionCommand, ret, elog, emit.
    cbn. rewrite Hspi. cbn.
    match goal with
    | |- context [if ?b then _ else _] => destruct b
    end; cbn; rewrite <- ?app_assoc; reflexivity.
  - intros code msg Hspi. cbn [relations] in Hspi.
    unfold spi_execute, try_rethrow, bind, StartTransactionCommand,
      call, emit, get_relations, lift, CommitTransactionCommand, ret, elog, emit.
    cbn. rewrite Hspi. cbn.
    destruct type; cbn in Hi; try discriminate; reflexivity.
Qed.

Lemma spi_execute_outcomes_witness :
  spi_execute Scenario.text_executor "CREATE TABLE t (a INT);" TYPE_MYSQL
    (Scenario.mysql_worker STATE_EXECUTING STATE_UNDEF "")
  = (Ret 0,
     mk_world
       (Some (mk_shared (Scenario.idle STATE_EXECUTING) (Scenario.idle STATE_STOPPED)
                        (Scenario.idle STATE_STOPPED)))
       TYPE_MYSQL [(16385, Scenario.orders)]
       [Call "StartTransactionCommand" [];
        Elog WARNING "SPI OK with ret 4";
        Call "CommitTransactionCommand" []]).
Proof.
  exact (proj1 (spi_execute_outcomes Scenario.text_executor "CREATE TABLE t (a INT);"
                  TYPE_MYSQL (Scenario.mysql_worker STATE_EXECUTING STATE_UNDEF "")
                  _ _ eq_refl eq_refl)
               SPI_OK_UTILITY _ eq_refl).
Defined.

(** ** What a change event leaves behind *)

Lemma keeps_ret : forall {A} (a : A), Spec.keeps_shared (ret a).
Proof. intros A a w r w' H. injection H as _ <-. auto. Qed.

Lemma keeps_lift : forall {A} (o : outcome A), Spec.keeps_shared (lift o).
Proof. intros A o w r w' H. unfold lift in H. injection H as _ <-. auto. Qed.

Lemma keeps_emit : forall e, Spec.keeps_shared (emit e).
Proof. intros e w r w' H. unfold emit in H. injection H as _ <-. auto. Qed.

Lemma keeps_commit : forall rels, Spec.keeps_shared (CommitTransactionCommand rels).
Proof.
  intros rels w r w' H. unfold CommitTransactionCommand in H.
  injection H as _ <-. auto.
Qed.

Lemma keeps_get_relations : Spec.keeps_shared get_relations.
Proof. intros w r w' H. unfold get_relations in H. injection H as _ <-. auto. Qed.

Lemma keeps_bind : forall {A B} (c : M A) (k : A -> M B),
  Spec.keeps_shared c -> (forall a, Spec.keeps_shared (k a)) ->
  Spec.keeps_shared (bind c k).
Proof.
  intros A B c k Hc Hk w r w' H. unfold bind in H.
  destruct (c w) as [[a|code m|e0 m0|why] w1] eqn:Ec; try discriminate.
  destruct (Hc _ _ _ Ec) as [S1 I1]. destruct (Hk a _ _ _ H) as [S2 I2].
  split; congruence.
Qed.

Lemma keeps_try : forall {A} (body : M A) handler,
  Spec.keeps_shared body -> Spec.keeps_shared (try_rethrow body handler).
Proof.
  intros A body handler Hb w r w' H. unfold try_rethrow in H.
  destruct (body w) as [[a|code m|e0 m0|why] w1] eqn:Eb.
  - injection H as <- <-. exact (Hb _ _ _ Eb).
  - destruct (handler m w1) as [[u|c2 m2|e2 m2|why] w2]; discriminate.
  - destruct (handler m0 w1) as [[u|c2 m2|e2 m2|why] w2]; discriminate.
  - discriminate.
Qed.

Lemma keeps_table_open : forall rels tableoid,
  Spec.keeps_shared (table_open rels tableoid).
Proof.
  intros rels tableoid. unfold table_open.
  destruct (lookup_relation rels tableoid); [apply keeps_ret|apply keeps_lift].
Qed.

Ltac keeps :=
  repeat first
    [ apply keeps_try
    | apply keeps_bind; [|intros ?]
    | apply keeps_ret
    | apply keeps_lift
    | apply keeps_emit
    | apply keeps_commit
    | apply keeps_get_relations
    | apply keeps_table_open
    | match goal with
      | |- Spec.keeps_shared (match ?x with _ => _ end) => destruct x
      | |- Spec.keeps_shared (if ?b then _ else _) => destruct b
      | |- Spec.keeps_shared (let '(_, _) := ?p in _) => destruct p
      end ].

Lemma keeps_spi_execute : forall X query type,
  Spec.keeps_shared (spi_execute X query type).
Proof.
  intros. unfold spi_execute, StartTransactionCommand, call, elog. keeps.
Qed.

Lemma keeps_insert : forall X colval tableoid type,
  Spec.keeps_shared (synchdb_handle_insert X colval tableoid type).
Proof.
  intros. unfold synchdb_handle_insert, StartTransactionCommand, call. keeps.
Qed.

Lemma keeps_update : forall X before after tableoid type,
  Spec.keeps_shared (synchdb_handle_update X before after tableoid type).
Proof.
  intros. unfold synchdb_handle_update, StartTransactionCommand, find_old_tuple,
    call, elog. keeps.
Qed.

Lemma keeps_delete : forall X before tableoid type,
  Spec.keeps_shared (synchdb_handle_delete X before tableoid type).
Proof.
  intros. unfold synchdb_handle_delete, StartTransactionCommand, find_old_tuple,
    call, elog. keeps.
Qed.

Lemma keeps_ra_executePGDML : forall E X pgdml type,
  Spec.keeps_shared (ra_executePGDML E X pgdml type).
Proof.
  intros E X pgdml type. unfold ra_executePGDML.
  destruct pgdml as [pgdml|].
  - repeat match goal with
           | |- Spec.keeps_shared (if ?b then _ else _) => destruct b
           end;
      first [apply keeps_spi_execute | apply keeps_insert
            | apply keeps_update | apply keeps_delete].
  - unfold elog. keeps.
Qed.

Lemma converter_returns : forall {A} (o : outcome A) w r w',
  converter o w = (Ret r, w') -> o = Ret r /\ w' = w.
Proof.
  intros A o w r w' H. destruct o as [a|code m|e m|why]; cbn in H.
  - injection H as <- <-. auto.
  - discriminate.
  - unfold bind in H.
    destruct (set_shm_connector_errmsg (myConnectorId w) (Some e) w)
      as [[u|c2 m2|e2 m2|why2] w1]; discriminate.
  - discriminate.
Qed.

Lemma my_state_lands : forall st w,
  (exists s info, sdb_state w = Some s /\ info_of (myConnectorId w) s = Some info) ->
  exists w', my_state st w = (Ret tt, w') /\
             myConnectorId w' = myConnectorId w /\
             exists s' info',
               sdb_state w' = Some s' /\
               info_of (myConnectorId w') s' = Some info' /\
               state info' = st.
Proof.
  intros st w (s & info & Hs & Hi). eexists.
  split; [apply (run_my_state st w s info Hs Hi)|].
  cbn. split; [reflexivity|]. eexists. eexists.
  split; [reflexivity|]. split; [apply with_info_lookup; exact Hi|reflexivity].
Qed.

Lemma keeps_attached : forall {A} (c : M A) w r w',
  Spec.keeps_shared c ->
  c w = (Ret r, w') ->
  (exists s info, sdb_state w = Some s /\ info_of (myConnectorId w) s = Some info) ->
  myConnectorId w' = myConnectorId w /\
  exists s info, sdb_state w' = Some s /\ info_of (myConnectorId w') s = Some info.
Proof.
  intros A c w r w' Hc H (s & info & Hs & Hi).
  destruct (Hc _ _ _ H) as [S1 I1]. split; [exact I1|].
  exists s, info. rewrite S1, I1. auto.
Qed.

Ltac forget_state H :=
  match type of H with
  | exists s info, _ /\ _ /\ _ =>
      let s := fresh "s" in let i := fresh "i" in
      let a := fresh in let b := fresh in let c := fresh in
      destruct H as (s & i & a & b & c);
      assert (H : exists s info, sdb_state _ = Some s
                                 /\ info_of (myConnectorId _) s = Some info)
        by (exists s, i; split; [exact a|exact b]);
      clear a b c
  end.

(** X23: Whatever a DML event is, and whatever the conversion and the executor
    do with it: when the worker comes back from processing it, the result
    is 0 or -1 and its connector is in state Syncing again. *)
Theorem dml_event_ends_in_syncing :
  forall E X type dbzdml w s info r w',
    sdb_state w = Some s ->
    info_of (myConnectorId w) s = Some info ->
    fc_processDBZChangeEvent_dml E X type dbzdml w = (Ret r, w') ->
    (r = 0 \/ r = -1) /\
    myConnectorId w' = myConnectorId w /\
    exists s' info',
      sdb_state w' = Some s' /\
      info_of (myConnectorId w) s' = Some info' /\
      state info' = STATE_SYNCING.
Proof.
  intros E X type dbzdml w s info r w' Hs Hi H.
  assert (A0 : exists s info, sdb_state w = Some s
                              /\ info_of (myConnectorId w) s = Some info)
    by (exists s, info; auto).
  clear Hs Hi.
  unfold fc_processDBZChangeEvent_dml in H.
  destruct dbzdml as [dbzdml|].
  - (* converted and executed *)
    unfold bind at 1 in H.
    destruct (my_state_lands STATE_CONVERTING w A0) as (w1 & R1 & I1 & A1).
    rewrite R1 in H. forget_state A1.
    unfold bind at 1 in H.
    destruct (converter (convert2PGDML E dbzdml) w1)
      as [[pgdml|code m|e0 m0|why] wc] eqn:Ec; try discriminate.
    apply converter_returns in Ec. destruct Ec as [_ ->].
    unfold execute_dml_step in H.
    unfold bind at 1 in H.
    destruct (my_state_lands STATE_EXECUTING w1 A1) as (w2 & R2 & I2 & A2).
    rewrite R2 in H. forget_state A2.
    unfold bind at 1 in H.
    destruct (elog DEBUG1 "executing PG DML change event..." w2)
      as [[u|code m|e0 m0|why] w3] eqn:E3; try discriminate.
    destruct (keeps_attached _ _ _ _ (keeps_emit _) E3 A2) as [I3 A3].
    unfold bind at 1 in H.
    destruct (ra_executePGDML E X (Some pgdml) type w3)
      as [[r4|code m|e0 m0|why] w4] eqn:E4; try discriminate.
    destruct (keeps_attached _ _ _ _ (keeps_ra_executePGDML _ _ _ _) E4 A3)
      as [I4 A4].
    destruct (negb (r4 =? 0)).
    + unfold bind at 1 in H.
      destruct (elog WARNING "failed to execute PG DML change event" w4)
        as [[u5|code m|e0 m0|why] w5] eqn:E5; try discriminate.
      destruct (keeps_attached _ _ _ _ (keeps_emit _) E5 A4) as [I5 A5].
      unfold bind at 1 in H.
      destruct (my_state_lands STATE_SYNCING w5 A5)
        as (w6 & R6 & I6 & s6 & i6 & S6 & L6 & T6).
      rewrite R6 in H. unfold ret in H. injection H as <- <-.
      split; [right; reflexivity|].
      assert (Iw : myConnectorId w6 = myConnectorId w) by congruence.
      split; [exact Iw|]. exists s6, i6. rewrite <- Iw. auto.
    + unfold bind at 1 in H.
      destruct (my_state_lands STATE_SYNCING w4 A4)
        as (w6 & R6 & I6 & s6 & i6 & S6 & L6 & T6).
      rewrite R6 in H. unfold bind at 1 in H.
      destruct (elog DEBUG1 "execution completed. Clean up..." w6)
        as [[u7|code m|e0 m0|why] w7] eqn:E7; try discriminate.
      destruct (keeps_emit _ _ _ _ E7) as [S7 I7].
      unfold ret in H. injection H as <- <-.
      split; [left; reflexivity|].
      assert (Iw : myConnectorId w7 = myConnectorId w) by congruence.
      split; [exact Iw|]. exists s6, i6.
      replace (myConnectorId w) with (myConnectorId w6) by congruence.
      rewrite S7. auto.
  - (* nothing parsed *)
    unfold bind at 1 in H.
    destruct (elog WARNING "malformed DNL event" w) as [[u|code m|e0 m0|why] w1] eqn:E1;
      try discriminate.
    destruct (keeps_attached _ _ _ _ (keeps_emit _) E1 A0) as [I1 A1].
    unfold bind at 1 in H.
    destruct (my_state_lands STATE_SYNCING w1 A1)
      as (w2 & R2 & I2 & s2 & i2 & S2 & L2 & T2).
    rewrite R2 in H. unfold ret in H. injection H as <- <-.
    split; [right; reflexivity|].
    assert (Iw : myConnectorId w2 = myConnectorId w) by congruence.
    split; [exact Iw|]. exists s2, i2. rewrite <- Iw. auto.
Qed.

Lemma dml_event_ends_in_syncing_witness :
  fst (fc_processDBZChangeEvent_dml (Scenario.plain_env false)
         Scenario.text_executor TYPE_MYSQL (Some Scenario.insert_order)
         (Scenario.mysql_worker STATE_SYNCING STATE_UNDEF "")) = Ret 0 /\
  exists s' info',
    sdb_state (snd (fc_processDBZChangeEvent_dml (Scenario.plain_env false)
                      Scenario.text_executor TYPE_MYSQL (Some Scenario.insert_order)
                      (Scenario.mysql_worker STATE_SYNCING STATE_UNDEF "")))
    = Some s' /\
    info_of TYPE_MYSQL s' = Some info' /\
    state info' = STATE_SYNCING.
Proof.
  split; [vm_compute; reflexivity|].
  apply (dml_event_ends_in_syncing (Scenario.plain_env false)
           Scenario.text_executor TYPE_MYSQL (Some Scenario.insert_order)
           (Scenario.mysql_worker STATE_SYNCING STATE_UNDEF "")
           (mk_shared (Scenario.requested STATE_SYNCING STATE_UNDEF "")
                      (Scenario.idle STATE_STOPPED) (Scenario.idle STATE_STOPPED))
           (Scenario.requested STATE_SYNCING STATE_UNDEF "") 0
           (snd (fc_processDBZChangeEvent_dml (Scenario.plain_env false)
                   Scenario.text_executor TYPE_MYSQL (Some Scenario.insert_order)
                   (Scenario.mysql_worker STATE_SYNCING STATE_UNDEF ""))));
    vm_compute; reflexivity.
Defined.

(** ** The shared block *)

Lemma substring_zero_length : forall n s,
  String.length (substring 0 n s) = Nat.min n (String.length s).
Proof.
  induction n as [|n IH]; intros s.
  - destruct s; reflexivity.
  - destruct s as [|c r]; [reflexivity|]. simpl. rewrite IH. reflexivity.
Qed.

Lemma substring_zero_short : forall n s,
  (String.length s <= n)%nat -> substring 0 n s = s.
Proof.
  induction n as [|n IH]; intros s H.
  - destruct s; simpl in *; [reflexivity|lia].
  - destruct s as [|c r]; [reflexivity|]. simpl in *. rewrite IH by lia.
    reflexivity.
Qed.

Lemma info_of_other : forall type other f s,
  other <> type -> info_of other (with_info type f s) = info_of other s.
Proof.
  intros type other f s H. destruct type, other; try reflexivity; congruence.
Qed.

(** X24: A state written for a connector of an attached block is the state read
    back for it, as a value and as its name; the states of the other
    connectors, and the pid and the error message of every connector, read
    as before. *)
Theorem shm_connector_state_round_trip :
  forall type st w s,
    sdb_state w = Some s ->
    type <> TYPE_UNDEF ->
    exists w',
      set_shm_connector_state type st w = (Ret tt, w') /\
      fst (get_shm_connector_state_enum type w') = Ret st /\
      fst (get_shm_connector_state type w') = Ret (connectorStateAsString st) /\
      (forall other, other <> type ->
         fst (get_shm_connector_state_enum other w')
         = fst (get_shm_connector_state_enum other w)) /\
      (forall any,
         fst (get_shm_connector_pid any w') = fst (get_shm_connector_pid any w) /\
         fst (get_shm_connector_errmsg any w')
         = fst (get_shm_connector_errmsg any w)).
Proof.
  intros type st w s Hs Ht. destruct w as [sdb myid rels evs].
  simpl in Hs. subst sdb. destruct s as [my ora ss].
  eexists. split.
  - unfold set_shm_connector_state, bind, get_sdb_state. simpl.
    destruct type; try congruence; reflexivity.
  - destruct type; try congruence;
      (split; [reflexivity|]); (split; [reflexivity|]);
      (split; [intros other Ho; destruct other; try congruence; reflexivity|]);
      intros any; destruct any; split; reflexivity.
Qed.

Lemma shm_connector_state_round_trip_witness :
  exists w',
    set_shm_connector_state TYPE_ORACLE STATE_PAUSED
      (Scenario.mysql_worker STATE_SYNCING STATE_UNDEF "") = (Ret tt, w') /\
    fst (get_shm_connector_state TYPE_ORACLE w') = Ret "paused" /\
    fst (get_shm_connector_state TYPE_MYSQL w') = Ret "syncing".
Proof.
  destruct (shm_connector_state_round_trip TYPE_ORACLE STATE_PAUSED
              (Scenario.mysql_worker STATE_SYNCING STATE_UNDEF "") _ eq_refl
              ltac:(discriminate))
    as (w' & Hset & _ & Hname & _).
  exists w'. split; [exact Hset|]. split; [exact Hname|].
  vm_compute in Hset. injection Hset as <-. reflexivity.
Defined.

(** X25: An error message written for a connector is read back cut to its first
    255 characters, and as "no error" when it is empty or NULL; the
    messages of the other connectors, and every state and pid, read as
    before. *)
Theorem shm_connector_errmsg_round_trip :
  forall type err w s,
    sdb_state w = Some s ->
    type <> TYPE_UNDEF ->
    exists w',
      set_shm_connector_errmsg type err w = (Ret tt, w') /\
      fst (get_shm_connector_errmsg type w')
      = Ret (match err with
             | None | Some EmptyString => "no error"
             | Some text => substring 0 255 text
             end) /\
      (forall text, err = Some text -> (String.length text <= 255)%nat ->
         text <> "" -> fst (get_shm_connector_errmsg type w') = Ret text) /\
      (forall other, other <> type ->
         fst (get_shm_connector_errmsg other w')
         = fst (get_shm_connector_errmsg other w)) /\
      (forall any,
         fst (get_shm_connector_pid any w') = fst (get_shm_connector_pid any w) /\
         fst (get_shm_connector_state_enum any w')
         = fst (get_shm_connector_state_enum any w)).
Proof.
  intros type err w s Hs Ht. destruct w as [sdb myid rels evs].
  simpl in Hs. subst sdb. destruct s as [my ora ss].
  eexists. split.
  - unfold set_shm_connector_errmsg, bind, get_sdb_state. simpl.
    destruct type; try congruence; reflexivity.
  - assert (Hread : forall text,
              match C.snprintf SYNCHDB_ERRMSG_SIZE text with
              | EmptyString => "no error"
              | t => t
              end
              = match text with
                | EmptyString => "no error"
                | _ => substring 0 255 text
                end).
    { intros text. destruct text as [|c r]; reflexivity. }
    split.
    + destruct type; try congruence; unfold get_shm_connector_errmsg, bind,
        get_sdb_state, ret; simpl; f_equal;
        (destruct err as [text|]; [apply Hread|reflexivity]).
    + split.
      * intros text -> Hlen Hne.
        destruct type; try congruence; unfold get_shm_connector_errmsg, bind,
          get_sdb_state, ret; simpl; f_equal; rewrite Hread;
          (destruct text as [|c r]; [congruence|]);
          apply substring_zero_short; exact Hlen.
      * split.
        -- intros other Ho.
           destruct type, other; try congruence; reflexivity.
        -- intros any. destruct type; try congruence;
             destruct any; split; reflexivity.
Qed.

Lemma shm_connector_errmsg_round_trip_witness :
  exists w',
    set_shm_connector_errmsg TYPE_MYSQL (Some "connection refused")
      (Scenario.mysql_worker STATE_SYNCING STATE_UNDEF "") = (Ret tt, w') /\
    fst (get_shm_connector_errmsg TYPE_MYSQL w') = Ret "connection refused".
Proof.
  destruct (shm_connector_errmsg_round_trip TYPE_MYSQL (Some "connection refused")
              (Scenario.mysql_worker STATE_SYNCING STATE_UNDEF "") _ eq_refl
              ltac:(discriminate))
    as (w' & Hset & Hget & _).
  exists w'. split; [exact Hset|exact Hget].
Defined.

(** ** The worker that is registered *)

Lemma prepare_bgw_named : forall connInfo connector worker label,
  fc_get_connector_type connector <> TYPE_UNDEF ->
  label = get_shm_connector_name (fc_get_connector_type connector) ->
  prepare_bgw connInfo connector = Ret worker ->
  let full := "synchdb engine: " ++ label ++ "@" ++ hostname connInfo ++ ":" ++
              fmt_u (port connInfo) in
  (String.length (C.snprintf BGW_MAXLEN full ++ " -> " ++ dst_db connInfo) < 96)%nat /\
  worker = mk_bgw (C.snprintf BGW_MAXLEN full ++ " -> " ++ dst_db connInfo)
             ("synchdb engine: " ++ label) "synchdb" "synchdb_engine_main"
             (fc_get_connector_type connector)
             (C.snprintf BGW_EXTRALEN
                (hostname connInfo ++ ":" ++ fmt_u (port connInfo) ++ ":" ++
                 user connInfo ++ ":" ++ pwd connInfo ++ ":" ++
                 src_db connInfo ++ ":" ++ dst_db connInfo ++ ":" ++
                 table connInfo)).
Proof.
  intros connInfo connector worker label Ht -> H. unfold prepare_bgw in H.
  destruct (fc_get_connector_type connector); try congruence;
    cbn [obind fst snd get_shm_connector_name] in *;
    match type of H with
    | (if Nat.leb ?n ?l then _ else _) = _ => destruct (Nat.leb n l) eqn:E
    end; try discriminate; injection H as <-;
    apply Nat.leb_gt in E; (split; [exact E|reflexivity]).
Qed.

(** X26: A worker that [prepare_bgw] hands over has a name shorter than the 96
    bytes of [bgw_name], made of the untruncated text
    type@host:port -> database, an argument string shorter than the 128
    bytes of [bgw_extra] (the first 127 characters of the seven fields),
    and the connector type, never undefined, as its argument.  A name that
    would not fit is never cut to size: the [strcat] calls write past the
    array. *)
Theorem prepare_bgw_bounds :
  forall connInfo connector,
    let type := fc_get_connector_type connector in
    let full := "synchdb engine: " ++ get_shm_connector_name type ++ "@" ++
                hostname connInfo ++ ":" ++ fmt_u (port connInfo) ++ " -> " ++
                dst_db connInfo in
    let extra := hostname connInfo ++ ":" ++ fmt_u (port connInfo) ++ ":" ++
                 user connInfo ++ ":" ++ pwd connInfo ++ ":" ++
                 src_db connInfo ++ ":" ++ dst_db connInfo ++ ":" ++
                 table connInfo in
    (forall worker,
       prepare_bgw connInfo connector = Ret worker ->
       bgw_name worker = full /\
       (String.length (bgw_name worker) < 96)%nat /\
       bgw_extra worker = substring 0 127 extra /\
       (String.length (bgw_extra worker) < 128)%nat /\
       bgw_main_arg worker = type /\ type <> TYPE_UNDEF) /\
    (type <> TYPE_UNDEF -> (96 <= String.length full)%nat ->
     prepare_bgw connInfo connector = Undefined "strcat past the end of bgw_name") /\
    (type = TYPE_UNDEF ->
     prepare_bgw connInfo connector = elog_ERROR "unsupported connector type").
Proof.
  intros connInfo connector type full extra. split; [|split].
  - intros worker H.
    assert (Ht : type <> TYPE_UNDEF).
    { intros E. unfold prepare_bgw in H. fold type in H. rewrite E in H.
      discriminate. }
    destruct (prepare_bgw_named connInfo connector worker _ Ht eq_refl H)
      as [Hlen ->].
    cbn [bgw_name bgw_extra bgw_main_arg]. fold type in Hlen |- *.
    set (head := "synchdb engine: " ++ get_shm_connector_name type ++ "@" ++
                 hostname connInfo ++ ":" ++ fmt_u (port connInfo)) in *.
    assert (Hshort : (String.length head <= 95)%nat).
    { rewrite !length_append in Hlen. unfold C.snprintf, BGW_MAXLEN in Hlen.
      rewrite substring_zero_length in Hlen.
      change (String.length " -> ") with 4%nat in Hlen. simpl Nat.sub in Hlen.
      lia. }
    assert (Hhead : C.snprintf BGW_MAXLEN head = head)
      by (apply substring_zero_short; exact Hshort).
    rewrite Hhead in *.
    assert (Hfull : head ++ " -> " ++ dst_db connInfo = full).
    { unfold head, full. rewrite <- !append_assoc. reflexivity. }
    rewrite Hfull in *.
    split; [reflexivity|]. split; [exact Hlen|]. split; [reflexivity|].
    split; [|split; [reflexivity|exact Ht]].
    unfold C.snprintf, BGW_EXTRALEN. rewrite substring_zero_length.
    simpl Nat.sub. lia.
  - intros Ht Hlong. unfold prepare_bgw. fold type.
    set (head := "synchdb engine: " ++ get_shm_connector_name type ++ "@" ++
                 hostname connInfo ++ ":" ++ fmt_u (port connInfo)).
    assert (Hfull : head ++ " -> " ++ dst_db connInfo = full).
    { unfold head, full. rewrite <- !append_assoc. reflexivity. }
    assert (Hover : Nat.leb BGW_MAXLEN
                      (String.length (C.snprintf BGW_MAXLEN head ++ " -> " ++
                                      dst_db connInfo)) = true).
    { apply Nat.leb_le. rewrite <- Hfull in Hlong.
      rewrite !length_append in Hlong |- *. unfold C.snprintf, BGW_MAXLEN.
      rewrite substring_zero_length.
      change (String.length " -> ") with 4%nat in *. simpl Nat.sub. lia. }
    unfold head in Hover.
    destruct type; try congruence; cbn [obind fst snd get_shm_connector_name] in *;
      match goal with
      | |- (if Nat.leb ?n ?l then _ else _) = _ =>
          replace (Nat.leb n l) with true by (symmetry; exact Hover)
      end; reflexivity.
  - intros E. unfold prepare_bgw. fold type. rewrite E. reflexivity.
Qed.

Lemma prepare_bgw_bounds_witness :
  bgw_name (mk_bgw "synchdb engine: mysql@127.0.0.1:3306 -> postgres"
              "synchdb engine: mysql" "synchdb" "synchdb_engine_main" TYPE_MYSQL
              "127.0.0.1:3306:mysqluser:mysqlpwd:inventory:postgres:null")
  = "synchdb engine: mysql@127.0.0.1:3306 -> postgres" /\
  (String.length "synchdb engine: mysql@127.0.0.1:3306 -> postgres" < 96)%nat.
Proof.
  destruct (proj1 (prepare_bgw_bounds Scenario.a_conninfo "mysql") _ eq_refl)
    as (Hname & Hlen & _).
  split; [exact Hname|exact Hlen].
Defined.

(** ** Requests to a running worker *)

Lemma run_attach : forall segment fresh connector w,
  fc_get_connector_type connector <> TYPE_UNDEF ->
  exists s,
    s = match segment with
        | Some s => s
        | None => mk_shared (set_pid InvalidPid (mysqlinfo fresh))
                            (set_pid InvalidPid (oracleinfo fresh))
                            (set_pid InvalidPid (sqlserverinfo fresh))
        end /\
    exists info,
      info_of (fc_get_connector_type connector) s = Some info /\
      attach_to_worker segment fresh connector w
      = let w1 := mk_world (Some s) (myConnectorId w) (relations w) (events w) in
        if pid info =? InvalidPid
        then (Raised ERRCODE_INTERNAL_ERROR
                ("dbz connector (" ++ connector ++ ") is not running"), w1)
        else (Ret (fc_get_connector_type connector), w1).
Proof.
  intros segment fresh connector w Ht. eexists. split; [reflexivity|].
  unfold attach_to_worker.
  destruct (fc_get_connector_type connector); try congruence;
    (eexists; split; [reflexivity|]);
    unfold bind, synchdb_init_shmem, get_sdb_state, get_shm_connector_pid,
      put_sdb_state, not_running, ereport, lift, ret;
    destruct segment as [s|]; cbn;
    try match goal with
        | |- context [if ?b then _ else _] => destruct b
        end; reflexivity.
Qed.

Lemma run_post : forall connector type fill sent w s info,
  sdb_state w = Some s ->
  info_of type s = Some info ->
  post_request connector type fill sent w
  = if negb (ConnectorState_eqb (reqstate (req info)) STATE_UNDEF)
    then (Raised ERRCODE_INTERNAL_ERROR
            ("an active request is currently active for " ++ connector ++
             " connector"), w)
    else match fill (req info) with
         | Ret r =>
             (Ret 0,
              mk_world (Some (with_info type (set_req r) s)) (myConnectorId w)
                (relations w)
                (events w ++
                 [Elog WARNING ("sent " ++ sent ++
                                " request interrupt to dbz connector (" ++
                                connector ++ ")")]))
         | Raised code m => (Raised code m, w)
         | Saved e m => (Saved e m, w)
         | Undefined why => (Undefined why, w)
         end.
Proof.
  intros connector type fill sent w s info Hs Hi.
  destruct w as [sdb myid rels evs]. simpl in Hs. subst sdb.
  unfold post_request, bind, get_sdb_state. cbn. rewrite Hi.
  destruct (negb (ConnectorState_eqb (reqstate (req info)) STATE_UNDEF));
    [reflexivity|].
  unfold lift. destruct (fill (req info)); reflexivity.
Qed.

Lemma ConnectorState_eqb_eq : forall a b,
  ConnectorState_eqb a b = true <-> a = b.
Proof. intros a b. destruct a, b; split; intros H; try reflexivity; discriminate. Qed.

Lemma eqb_invalid : forall p, p <> InvalidPid -> (p =? InvalidPid) = false.
Proof. intros p H. apply Z.eqb_neq. exact H. Qed.

Lemma run_request : forall s fresh connector to w info,
  info_of (fc_get_connector_type connector) s = Some info ->
  forall (run : M Z) sent,
    run = (type <- attach_to_worker (Some s) fresh connector ;;
           post_request connector type
             (fun r => Ret (mk_req to (reqdata r))) sent) ->
    run w
    = let w1 := mk_world (Some s) (myConnectorId w) (relations w) (events w) in
      if pid info =? InvalidPid
      then (Raised ERRCODE_INTERNAL_ERROR
              ("dbz connector (" ++ connector ++ ") is not running"), w1)
      else if negb (ConnectorState_eqb (reqstate (req info)) STATE_UNDEF)
      then (Raised ERRCODE_INTERNAL_ERROR
              ("an active request is currently active for " ++ connector ++
               " connector"), w1)
      else (Ret 0,
            mk_world
              (Some (with_info (fc_get_connector_type connector)
                       (set_req (mk_req to (reqdata (req info)))) s))
              (myConnectorId w) (relations w)
              (events w ++
               [Elog WARNING ("sent " ++ sent ++
                              " request interrupt to dbz connector (" ++
                              connector ++ ")")])).
Proof.
  intros s fresh connector to w info Hi run sent ->.
  assert (Ht : fc_get_connector_type connector <> TYPE_UNDEF)
    by (intros E; rewrite E in Hi; discriminate).
  destruct (run_attach (Some s) fresh connector w Ht) as (s0 & -> & i0 & Hi0 & Ha).
  rewrite Hi in Hi0. injection Hi0 as <-.
  unfold bind at 1. rewrite Ha. cbv zeta.
  destruct (pid info =? InvalidPid); [reflexivity|].
  rewrite (run_post connector _ _ sent
             (mk_world (Some s) (myConnectorId w) (relations w) (events w))
             s info eq_refl Hi).
  reflexivity.
Qed.

(** X27: [synchdb_pause_engine] and [synchdb_resume_engine] write their request
    only for a connector whose worker is registered and whose request slot
    is empty; they then change the requested state and nothing else of the
    block, whatever state the connector is in.  Without a registered
    worker, and with a request still waiting, they raise and leave the
    block as they found it. *)
Theorem pause_and_resume_requests :
  forall s fresh connector w info,
    info_of (fc_get_connector_type connector) s = Some info ->
    let type := fc_get_connector_type connector in
    let posted to :=
      Some (with_info type (set_req (mk_req to (reqdata (req info)))) s) in
    (pid info <> InvalidPid -> reqstate (req info) = STATE_UNDEF ->
     (exists w', synchdb_pause_engine (Some s) fresh connector w = (Ret 0, w') /\
                 sdb_state w' = posted STATE_PAUSED) /\
     (exists w', synchdb_resume_engine (Some s) fresh connector w = (Ret 0, w') /\
                 sdb_state w' = posted STATE_SYNCING)) /\
    (pid info = InvalidPid ->
     forall run, run = synchdb_pause_engine \/ run = synchdb_resume_engine ->
       exists w', run (Some s) fresh connector w
                  = (Raised ERRCODE_INTERNAL_ERROR
                       ("dbz connector (" ++ connector ++ ") is not running"), w') /\
                  sdb_state w' = Some s) /\
    (pid info <> InvalidPid -> reqstate (req info) <> STATE_UNDEF ->
     forall run, run = synchdb_pause_engine \/ run = synchdb_resume_engine ->
       exists w', run (Some s) fresh connector w
                  = (Raised ERRCODE_INTERNAL_ERROR
                       ("an active request is currently active for " ++
                        connector ++ " connector"), w') /\
                  sdb_state w' = Some s).
Proof.
  intros s fresh connector w info Hi type posted.
  pose proof (run_request s fresh connector STATE_PAUSED w info Hi
                (synchdb_pause_engine (Some s) fresh connector) "pause" eq_refl)
    as Hp.
  pose proof (run_request s fresh connector STATE_SYNCING w info Hi
                (synchdb_resume_engine (Some s) fresh connector) "resume" eq_refl)
    as Hr.
  cbv zeta in Hp, Hr. split; [|split].
  - intros Hpid Hfree. rewrite (eqb_invalid _ Hpid) in Hp, Hr.
    rewrite Hfree in Hp, Hr. cbn [ConnectorState_eqb negb] in Hp, Hr.
    split; eexists; (split; [first [exact Hp|exact Hr]|reflexivity]).
  - intros Hpid run [-> | ->]; rewrite Hpid in Hp, Hr;
      cbn [Z.eqb InvalidPid] in Hp, Hr;
      eexists; (split; [first [exact Hp|exact Hr]|reflexivity]).
  - intros Hpid Hbusy run Hrun. rewrite (eqb_invalid _ Hpid) in Hp, Hr.
    assert (Hb : negb (ConnectorState_eqb (reqstate (req info)) STATE_UNDEF) = true).
    { destruct (ConnectorState_eqb (reqstate (req info)) STATE_UNDEF) eqn:E;
        [apply ConnectorState_eqb_eq in E; congruence|reflexivity]. }
    rewrite Hb in Hp, Hr.
    destruct Hrun as [-> | ->]; eexists;
      (split; [first [exact Hp|exact Hr]|reflexivity]).
Qed.

Lemma pause_and_resume_requests_witness :
  exists w',
    synchdb_pause_engine
      (Some (mk_shared (Scenario.idle STATE_SYNCING) (Scenario.idle STATE_STOPPED)
                       (Scenario.idle STATE_STOPPED)))
      (mk_shared (Scenario.idle STATE_UNDEF) (Scenario.idle STATE_UNDEF)
                 (Scenario.idle STATE_UNDEF))
      "MySQL" (mk_world None TYPE_UNDEF [] []) = (Ret 0, w') /\
    sdb_state w'
    = Some (mk_shared (Scenario.requested STATE_SYNCING STATE_PAUSED "")
                      (Scenario.idle STATE_STOPPED) (Scenario.idle STATE_STOPPED)).
Proof.
  exact (proj1 (proj1 (pause_and_resume_requests
           (mk_shared (Scenario.idle STATE_SYNCING) (Scenario.idle STATE_STOPPED)
                      (Scenario.idle STATE_STOPPED))
           (mk_shared (Scenario.idle STATE_UNDEF) (Scenario.idle STATE_UNDEF)
                      (Scenario.idle STATE_UNDEF))
           "MySQL" (mk_world None TYPE_UNDEF [] []) _ eq_refl)
         ltac:(discriminate) eq_refl)).
Defined.

Lemma run_state_enum : forall type w s info,
  sdb_state w = Some s ->
  info_of type s = Some info ->
  get_shm_connector_state_enum type w = (Ret (state info), w).
Proof.
  intros type w s info Hs Hi.
  unfold get_shm_connector_state_enum, bind, get_sdb_state. rewrite Hs, Hi.
  reflexivity.
Qed.



(** ** A request from the function to the worker *)

Lemma worker_pauses : forall H connInfo type s info worker,
  info_of type s = Some info ->
  state info = STATE_SYNCING ->
  stopEngine_result H = 0 ->
  sdb_state worker
  = Some (with_info type (set_req (mk_req STATE_PAUSED (reqdata (req info)))) s) ->
  exists worker',
    processRequestInterrupt H connInfo type worker = (Ret tt, worker') /\
    sdb_state worker'
    = Some (with_info type
              (fun _ => mk_info (pid info) STATE_PAUSED (mk_req STATE_UNDEF "")
                          (errmsg info) (srcdb info) (dstdb info)) s) /\
    List.filter is_call (events worker')
    = (List.filter is_call (events worker) ++ [Call "dbz_engine_stop" []])%list.
Proof.
  intros H connInfo type s info worker Hi Hst Hstop Hw.
  destruct worker as [sdb myid rels evs]. cbn [sdb_state] in Hw. subst sdb.
  destruct info as [ipid ist [irq idata] ierr isrc idst].
  cbn [state req reqstate pid reqdata errmsg srcdb dstdb] in *. subst ist.
  destruct s as [my ora ss].
  destruct type; cbn in Hi; try discriminate; injection Hi as ->;
    (eexists; split;
     [ unfold processRequestInterrupt, bind, get_sdb_state; cbn;
       unfold dbz_engine_stop, bind, call, elog, emit, ret; cbn;
       rewrite Hstop; cbn;
       unfold set_shm_connector_state, reset_shm_request_state, bind,
         get_sdb_state, put_sdb_state, elog, emit; cbn; reflexivity
     | split; [reflexivity|];
       cbn [events]; rewrite <- ?List.app_assoc; rewrite !List.filter_app; cbn;
       rewrite ?List.app_nil_r; reflexivity ]).
Qed.

(** X29: A pause request for a syncing connector, seen through: the function
    writes it, a second request is refused while it waits, the worker that
    finds it stops the engine, leaves the connector paused with the slot
    empty and the pid as it was, and the next request is accepted again. *)
Theorem pause_request_is_served :
  forall H connInfo fresh connector s info backend,
    info_of (fc_get_connector_type connector) s = Some info ->
    pid info <> InvalidPid ->
    state info = STATE_SYNCING ->
    reqstate (req info) = STATE_UNDEF ->
    stopEngine_result H = 0 ->
    let type := fc_get_connector_type connector in
    exists backend' s1,
      synchdb_pause_engine (Some s) fresh connector backend = (Ret 0, backend') /\
      sdb_state backend' = Some s1 /\
      (exists b2, synchdb_resume_engine (Some s1) fresh connector backend'
                  = (Raised ERRCODE_INTERNAL_ERROR
                       ("an active request is currently active for " ++
                        connector ++ " connector"), b2)) /\
      forall worker,
        sdb_state worker = Some s1 ->
        exists worker' s2,
          processRequestInterrupt H connInfo type worker = (Ret tt, worker') /\
          sdb_state worker' = Some s2 /\
          s2 = with_info type
                 (fun _ => mk_info (pid info) STATE_PAUSED (mk_req STATE_UNDEF "")
                             (errmsg info) (srcdb info) (dstdb info)) s /\
          List.filter is_call (events worker')
          = (List.filter is_call (events worker) ++ [Call "dbz_engine_stop" []])%list /\
          exists b3, synchdb_resume_engine (Some s2) fresh connector backend'
                     = (Ret 0, b3).
Proof.
  intros H connInfo fresh connector s info backend Hi Hpid Hst Hfree Hstop type.
  pose proof (run_request s fresh connector STATE_PAUSED backend info Hi
                (synchdb_pause_engine (Some s) fresh connector) "pause" eq_refl)
    as Hp.
  cbv zeta in Hp. rewrite (eqb_invalid _ Hpid), Hfree in Hp.
  cbn [ConnectorState_eqb negb] in Hp.
  eexists. eexists. split; [exact Hp|]. split; [reflexivity|].
  assert (Hi1 : info_of (fc_get_connector_type connector)
                  (with_info (fc_get_connector_type connector)
                     (set_req (mk_req STATE_PAUSED (reqdata (req info)))) s)
                = Some (set_req (mk_req STATE_PAUSED (reqdata (req info))) info))
    by (apply with_info_lookup; exact Hi).
  split.
  - pose proof (run_request _ fresh connector STATE_SYNCING
                  (mk_world
                     (Some (with_info (fc_get_connector_type connector)
                              (set_req (mk_req STATE_PAUSED (reqdata (req info)))) s))
                     (myConnectorId backend) (relations backend)
                     (events backend ++
                      [Elog WARNING ("sent pause request interrupt to dbz connector ("
                                     ++ connector ++ ")")]))
                  _ Hi1 (synchdb_resume_engine _ fresh connector) "resume" eq_refl)
      as Hr.
    cbv zeta in Hr. cbn [pid set_req req reqstate] in Hr.
    rewrite (eqb_invalid _ Hpid) in Hr. cbn [ConnectorState_eqb negb] in Hr.
    eexists. exact Hr.
  - intros worker Hw.
    destruct (worker_pauses H connInfo _ s info worker Hi Hst Hstop Hw)
      as (worker' & Hrun & Hblock & Hcalls).
    exists worker'. eexists. split; [exact Hrun|]. split; [exact Hblock|].
    split; [reflexivity|]. split; [exact Hcalls|].
    assert (Hi2 : info_of (fc_get_connector_type connector)
                    (with_info (fc_get_connector_type connector)
                       (fun _ => mk_info (pid info) STATE_PAUSED
                                   (mk_req STATE_UNDEF "") (errmsg info)
                                   (srcdb info) (dstdb info)) s)
                  = Some (mk_info (pid info) STATE_PAUSED (mk_req STATE_UNDEF "")
                            (errmsg info) (srcdb info) (dstdb info)))
      by (exact (with_info_lookup _
                   (fun _ => mk_info (pid info) STATE_PAUSED
                               (mk_req STATE_UNDEF "") (errmsg info)
                               (srcdb info) (dstdb info)) _ _ Hi)).
    match goal with
    | |- exists b3, synchdb_resume_engine (Some ?s2) _ _ ?b = _ =>
        pose proof (run_request s2 fresh connector STATE_SYNCING b _ Hi2
                      (synchdb_resume_engine (Some s2) fresh connector)
                      "resume" eq_refl) as Hr
    end.
    cbv zeta in Hr. cbn [pid req reqstate] in Hr.
    rewrite (eqb_invalid _ Hpid) in Hr. cbn [ConnectorState_eqb negb] in Hr.
    eexists. exact Hr.
Qed.

Lemma pause_request_is_served_witness :
  exists backend' s1,
    synchdb_pause_engine
      (Some (mk_shared (Scenario.idle STATE_SYNCING) (Scenario.idle STATE_STOPPED)
                       (Scenario.idle STATE_STOPPED)))
      (mk_shared (Scenario.idle STATE_UNDEF) (Scenario.idle STATE_UNDEF)
                 (Scenario.idle STATE_UNDEF))
      "mysql" (mk_world None TYPE_UNDEF [] []) = (Ret 0, backend') /\
    sdb_state backend' = Some s1 /\
    exists worker',
      processRequestInterrupt (Scenario.a_host 0 0 0) Scenario.a_conninfo
        TYPE_MYSQL (mk_world (Some s1) TYPE_MYSQL [] []) = (Ret tt, worker') /\
      sdb_state worker'
      = Some (mk_shared (Scenario.idle STATE_PAUSED) (Scenario.idle STATE_STOPPED)
                        (Scenario.idle STATE_STOPPED)).
Proof.
  destruct (pause_request_is_served (Scenario.a_host 0 0 0) Scenario.a_conninfo
              (mk_shared (Scenario.idle STATE_UNDEF) (Scenario.idle STATE_UNDEF)
                         (Scenario.idle STATE_UNDEF))
              "mysql"
              (mk_shared (Scenario.idle STATE_SYNCING) (Scenario.idle STATE_STOPPED)
                         (Scenario.idle STATE_STOPPED))
              _ (mk_world None TYPE_UNDEF [] []) eq_refl
              ltac:(discriminate) eq_refl eq_refl eq_refl)
    as (backend' & s1 & Hp & Hs1 & _ & Hworker).
  exists backend', s1. split; [exact Hp|]. split; [exact Hs1|].
  destruct (Hworker (mk_world (Some s1) TYPE_MYSQL [] []) eq_refl)
    as (worker' & s2 & Hrun & Hblock & Hs2 & _).
  exists worker'. split; [exact Hrun|]. rewrite Hblock, Hs2. reflexivity.
Defined.

(** ** The end of a worker *)

Lemma run_detach : forall MyProcPid code arg w s info,
  sdb_state w = Some s ->
  info_of arg s = Some info ->
  exists w',
    synchdb_detach_shmem MyProcPid code arg w = (Ret tt, w') /\
    sdb_state w'
    = Some (if pid info =? MyProcPid
            then with_info arg (set_state STATE_STOPPED)
                   (with_info arg (set_pid InvalidPid) s)
            else s).
Proof.
  intros MyProcPid code arg w s info Hs Hi.
  destruct w as [sdb myid rels evs]. cbn [sdb_state] in Hs. subst sdb.
  unfold synchdb_detach_shmem, bind, elog, emit, get_shm_connector_pid,
    get_sdb_state, ret. cbn. rewrite Hi. cbn.
  destruct (pid info =? MyProcPid).
  - unfold set_shm_connector_pid, set_shm_connector_state, bind, get_sdb_state,
      put_sdb_state, elog, emit. cbn.
    destruct arg; cbn in Hi; try discriminate; eexists; split; reflexivity.
  - eexists. split; reflexivity.
Qed.

(** X30: How a worker ends.  [synchdb_stop_engine_bgw] needs a registered
    worker: it asks the server to terminate that pid, with 5000 as the
    timeout, and writes only the pid of the connector, which reads invalid
    from then on, so that a second stop and a pause both raise.  The exit
    callback [synchdb_detach_shmem] clears the pid and writes Stopped when
    the pid in the block is the pid of the exiting process, and writes
    nothing otherwise: a worker that exits after its pid has been taken
    out of the block leaves the state of its connector as it was. *)
Theorem stopping_a_worker :
  forall s fresh connector w info,
    info_of (fc_get_connector_type connector) s = Some info ->
    let type := fc_get_connector_type connector in
    let refused :=
      Raised ERRCODE_INTERNAL_ERROR
        ("dbz connector (" ++ connector ++ ") is not running") in
    (pid info <> InvalidPid ->
     exists w' s1,
       synchdb_stop_engine_bgw (Some s) fresh connector w = (Ret 0, w') /\
       sdb_state w' = Some s1 /\
       s1 = with_info type (set_pid InvalidPid) s /\
       List.filter is_call (events w')
       = (List.filter is_call (events w) ++
          [Call "pg_terminate_backend" [fmt_u (pid info); "5000"]])%list /\
       fst (synchdb_stop_engine_bgw (Some s1) fresh connector w') = refused /\
       fst (synchdb_pause_engine (Some s1) fresh connector w') = refused /\
       forall code worker,
         sdb_state worker = Some s1 ->
         exists worker',
           synchdb_detach_shmem (pid info) code type worker = (Ret tt, worker') /\
           sdb_state worker' = Some s1 /\
           fst (get_shm_connector_state_enum type worker') = Ret (state info)) /\
    (pid info = InvalidPid ->
     exists w',
       synchdb_stop_engine_bgw (Some s) fresh connector w = (refused, w') /\
       sdb_state w' = Some s /\ events w' = events w) /\
    (forall code worker,
       sdb_state worker = Some s ->
       exists worker' s2,
         synchdb_detach_shmem (pid info) code type worker = (Ret tt, worker') /\
         sdb_state worker' = Some s2 /\
         info_of type s2
         = Some (mk_info InvalidPid STATE_STOPPED (req info) (errmsg info)
                   (srcdb info) (dstdb info)) /\
         forall other, other <> type -> info_of other s2 = info_of other s).
Proof.
  intros s fresh connector w info Hi type not_running.
  assert (Ht : type <> TYPE_UNDEF)
    by (intros E; unfold type in E; rewrite E in Hi; discriminate).
  assert (Hstop : forall s0 i0 w0,
            info_of type s0 = Some i0 ->
            synchdb_stop_engine_bgw (Some s0) fresh connector w0
            = if negb (pid i0 =? InvalidPid)
              then (Ret 0,
                    mk_world (Some (with_info type (set_pid InvalidPid) s0))
                      (myConnectorId w0) (relations w0)
                      (events w0 ++
                       [Elog WARNING ("terminating dbz connector (" ++
                                      type_number type ++ ") with pid " ++
                                      C.fmt_d (C.int (pid i0)));
                        Call "pg_terminate_backend" [fmt_u (pid i0); "5000"]]))
              else (not_running,
                    mk_world (Some s0) (myConnectorId w0) (relations w0)
                             (events w0))).
  { intros s0 i0 w0 Hi0. unfold synchdb_stop_engine_bgw. fold type.
    unfold not_running.
    destruct type; try congruence;
      unfold bind, synchdb_init_shmem, get_sdb_state, get_shm_connector_pid,
        put_sdb_state, set_shm_connector_pid, Synchdb.not_running, ereport, lift,
        elog, call, emit, ret; cbn; cbn in Hi0; injection Hi0 as <-;
      destruct (negb (pid _ =? InvalidPid)); cbn;
      rewrite <- ?List.app_assoc; reflexivity. }
  assert (Hi1 : info_of type (with_info type (set_pid InvalidPid) s)
                = Some (set_pid InvalidPid info))
    by (apply with_info_lookup; exact Hi).
  split; [|split].
  - intros Hpid.
    pose proof (Hstop s info w Hi) as H1.
    rewrite (eqb_invalid _ Hpid) in H1. cbn [negb] in H1.
    eexists. eexists. split; [exact H1|]. split; [reflexivity|].
    split; [reflexivity|]. split.
    { cbn [events]. rewrite List.filter_app. reflexivity. }
    split.
    { rewrite (Hstop _ _ _ Hi1). reflexivity. }
    split.
    { pose proof (run_request _ fresh connector STATE_PAUSED
                    (mk_world (Some (with_info type (set_pid InvalidPid) s))
                       (myConnectorId w) (relations w)
                       (events w ++
                        [Elog WARNING ("terminating dbz connector (" ++
                                       type_number type ++ ") with pid " ++
                                       C.fmt_d (C.int (pid info)));
                         Call "pg_terminate_backend" [fmt_u (pid info); "5000"]]))
                    _ Hi1 (synchdb_pause_engine _ fresh connector) "pause" eq_refl)
        as Hp.
      cbv zeta in Hp. cbn [pid set_pid Z.eqb InvalidPid] in Hp.
      rewrite Hp. reflexivity. }
    intros code worker Hw.
    destruct (run_detach (pid info) code type worker _ _ Hw Hi1)
      as (worker' & Hrun & Hblock).
    cbn [pid set_pid] in Hblock.
    assert (Hne : (InvalidPid =? pid info) = false)
      by (apply Z.eqb_neq; congruence).
    rewrite Hne in Hblock.
    exists worker'. split; [exact Hrun|]. split; [exact Hblock|].
    rewrite (run_state_enum type worker' _ _ Hblock Hi1). reflexivity.
  - intros Hpid. pose proof (Hstop s info w Hi) as H1.
    rewrite Hpid in H1. cbn [negb Z.eqb InvalidPid] in H1.
    eexists. split; [exact H1|]. split; reflexivity.
  - intros code worker Hw.
    destruct (run_detach (pid info) code type worker s info Hw Hi)
      as (worker' & Hrun & Hblock).
    rewrite Z.eqb_refl in Hblock.
    exists worker'. eexists. split; [exact Hrun|]. split; [exact Hblock|].
    split.
    + rewrite (with_info_lookup type (set_state STATE_STOPPED) _ _ Hi1).
      reflexivity.
    + intros other Ho. rewrite !info_of_other by exact Ho. reflexivity.
Qed.

Lemma stopping_a_worker_witness :
  exists w',
    synchdb_stop_engine_bgw
      (Some (mk_shared (Scenario.idle STATE_SYNCING) (Scenario.idle STATE_STOPPED)
                       (Scenario.idle STATE_STOPPED)))
      (mk_shared (Scenario.idle STATE_UNDEF) (Scenario.idle STATE_UNDEF)
                 (Scenario.idle STATE_UNDEF))
      "mysql" (mk_world None TYPE_UNDEF [] []) = (Ret 0, w') /\
    List.filter is_call (events w')
    = [Call "pg_terminate_backend" ["4711"; "5000"]].
Proof.
  destruct (proj1 (stopping_a_worker
              (mk_shared (Scenario.idle STATE_SYNCING) (Scenario.idle STATE_STOPPED)
                         (Scenario.idle STATE_STOPPED))
              (mk_shared (Scenario.idle STATE_UNDEF) (Scenario.idle STATE_UNDEF)
                         (Scenario.idle STATE_UNDEF))
              "mysql" (mk_world None TYPE_UNDEF [] []) _ eq_refl)
            ltac:(discriminate))
    as (w' & s1 & Hrun & _ & _ & Hcalls & _).
  exists w'. split; [exact Hrun|exact Hcalls].
Defined.

(** ** Empty values in an update statement *)

Lemma foreach_append_last : forall {A B} (l : list A) (vs : list B) (x : A)
  (body : A -> outcome string) (piece : A -> B -> string) (last strinfo : string),
  Forall2 (fun x v => body x = Ret (piece x v)) l vs ->
  body x = Ret last ->
  foreach_append (l ++ [x]) body strinfo
  = Ret (strinfo ++
         String.concat "" (List.map (fun p => piece (fst p) (snd p))
                                    (List.combine l vs)) ++ last).
Proof.
  intros A B l vs x body piece last strinfo H Hx. revert strinfo.
  induction H as [|y v l vs Hy Hrest IH]; intros strinfo.
  - cbn. rewrite Hx. cbn. reflexivity.
  - cbn [app foreach_append List.combine List.map]. rewrite Hy. cbn [obind].
    rewrite IH, concat_empty_cons, !append_assoc. reflexivity.
Qed.

(** C10 at an update in SQL mode whose last new value is the empty
    string: the decoder returns no value for it, but the SET loop writes
    null for it without the comma that follows every other value, and the
    character that is then removed as the extra comma is the last letter
    of null: in the statement handed to the server the column is set to
    nul, where the literal null is asked for. *)
Theorem C10_update_statement_loses_the_null :
  forall E ev cols last news olds,
    synchdb_dml_use_spi E = true ->
    dbz_op ev = "u"%char ->
    dbz_columnValuesAfter ev = (cols ++ [last])%list ->
    colval_value last = Some "" ->
    Forall2 (fun cv v => processDataByType E cv true (dbz_remoteObjectId ev)
                         = Ret (Some v)) cols news ->
    dbz_columnValuesBefore ev <> [] ->
    Forall2 (fun cv v => processDataByType E cv true (dbz_remoteObjectId ev) = Ret v)
            (dbz_columnValuesBefore ev) olds ->
    processDataByType E last true (dbz_remoteObjectId ev) = Ret None /\
    convert2PGDML E ev
    = Ret (mk_pgdml "u" (dbz_tableoid ev)
             ("UPDATE " ++ dbz_mappedObjectId ev ++ " SET " ++
              String.concat ""
                (List.map (fun p => colval_name (fst p) ++ " = " ++ snd p ++ ",")
                          (List.combine cols news)) ++
              colval_name last ++ " = nul" ++
              " WHERE " ++
              String.concat " AND "
                (List.map (fun p => colval_name (fst p) ++ " = " ++
                                    null_or (snd p) "null")
                          (List.combine (dbz_columnValuesBefore ev) olds)) ++
              ";")
             [] []).
Proof.
  intros E ev cols last news olds Hspi Hop Hafter Hlast Hnews Hnb Holds.
  assert (Hnone : processDataByType E last true (dbz_remoteObjectId ev) = Ret None).
  { unfold processDataByType. rewrite Hlast. reflexivity. }
  split; [exact Hnone|].
  unfold convert2PGDML. rewrite Hop, Hspi, Hafter.
  change (orb (Ascii.eqb "u" "r") (Ascii.eqb "u" "c")) with false.
  change (Ascii.eqb "u" "d") with false.
  change (Ascii.eqb "u" "u") with true. cbv iota.
  rewrite (foreach_append_last cols news last _
             (fun cv v => colval_name cv ++ " = " ++ v ++ ",")
             ((colval_name last ++ " = nul") ++ "l")).
  2:{ eapply Forall2_impl; [|exact Hnews]. intros cv v Hcv. cbv beta.
      rewrite Hcv. reflexivity. }
  2:{ rewrite Hnone. cbn [obind]. rewrite !append_assoc. reflexivity. }
  cbn [obind].
  rewrite <- !append_assoc. rewrite (chop_suffix _ "l").
  unfold where_clause.
  rewrite (foreach_append_values (dbz_columnValuesBefore ev) olds _
             (fun cv v => (colval_name cv ++ " = " ++ null_or v "null") ++ " AND ")).
  2:{ eapply Forall2_impl; [|exact Holds]. intros cv v Hcv. cbv beta.
      rewrite Hcv. cbn [obind]. rewrite !append_assoc. reflexivity. }
  cbn [obind].
  rewrite (map_combine_pieces
             (fun cv v => colval_name cv ++ " = " ++ null_or v "null") " AND ").
  rewrite concat_trailing.
  2:{ intros Hnil. apply List.map_eq_nil in Hnil.
      exact (Forall2_combine_nil _ _ _ Holds Hnb Hnil). }
  rewrite <- !append_assoc. rewrite (chop_suffix _ " AND ").
  rewrite !append_assoc. reflexivity.
Qed.

Lemma C10_update_statement_loses_the_null_witness :
  convert2PGDML (Scenario.plain_env true)
    (mk_dbzdml "u" 16385 (Some "inv.orders") "inv.orders"
       [Scenario.column "order_number" "10001" INT4OID 1;
        Scenario.column "quantity" "2" INT4OID 2]
       [Scenario.column "order_number" "10001" INT4OID 1;
        Scenario.column "quantity" "" INT4OID 2])
  = Ret (mk_pgdml "u" 16385
           ("UPDATE inv.orders SET order_number = 10001,quantity = nul" ++
            " WHERE order_number = 10001 AND quantity = 2;") [] []).
Proof.
  apply (proj2 (C10_update_statement_loses_the_null (Scenario.plain_env true)
           (mk_dbzdml "u" 16385 (Some "inv.orders") "inv.orders"
              [Scenario.column "order_number" "10001" INT4OID 1;
               Scenario.column "quantity" "2" INT4OID 2]
              [Scenario.column "order_number" "10001" INT4OID 1;
               Scenario.column "quantity" "" INT4OID 2])
           [Scenario.column "order_number" "10001" INT4OID 1]
           (Scenario.column "quantity" "" INT4OID 2)
           ["10001"] [Some "10001"; Some "2"]
           eq_refl eq_refl eq_refl eq_refl
           ltac:(repeat (apply Forall2_cons; [reflexivity|]); apply Forall2_nil)
           ltac:(discriminate)
           ltac:(repeat (apply Forall2_cons; [reflexivity|]); apply Forall2_nil))).
Defined.

(** An empty value that is not the last one keeps its null, and loses the
    comma behind it. *)
Example update_with_empty_value_in_the_middle :
  convert2PGDML (Scenario.plain_env true)
    (mk_dbzdml "u" 16385 (Some "inv.orders") "inv.orders"
       [Scenario.column "order_number" "10001" INT4OID 1;
        Scenario.column "quantity" "2" INT4OID 2]
       [Scenario.column "order_number" "" INT4OID 1;
        Scenario.column "quantity" "3" INT4OID 2])
  = Ret (mk_pgdml "u" 16385
           ("UPDATE inv.orders SET order_number = nullquantity = 3" ++
            " WHERE order_number = 10001 AND quantity = 2;") [] []).
Proof. vm_compute. reflexivity. Qed.
